(** * QDrantIngest: region extraction and the batch pipeline

    A shallow embedding of [qdrantingest/image_processor.py],
    [qdrantingest/embedding_generator.py], [qdrantingest/coco_parser.py],
    [qdrantingest/qdrant_uploader.py] and [main.py], and of the loops of the
    scripts under [examples/], together with the properties of the
    region-extraction and batch-pipeline core and further properties of the
    code around it.

    Conventions.
    - A JSON number (a Python [int] or a finite [float]) is a rational [Q];
      Python's [int(v)] is truncation toward zero.
    - A Pillow image is its size and its pixel function.  [Image.crop],
      [Image.new], [Image.getbbox], [convert], [getpixel] and [putpixel] are
      modelled after Pillow's documented behaviour.  The polygon rasteriser
      behind [ImageDraw.polygon] is a parameter of the development.
    - A Python exception is the [Raise] branch of [result]; a [None] return is
      an [option].
    - The embedding service is a parameter: per request, the vectors it
      answers or the exception it raises.  The storage service is the list of
      the upserts made; in the core an upsert is taken to succeed.  Messages
      printed and the progress bar change no value and are left out.
    - Outside the core, a bounding box may also hold an infinity or [nan]
      (module [AnyNumber]), and the store answers each upsert and each new
      collection: it accepts, or it raises (module [Store], [main_entry],
      the example loop).
    - The file system maps a path, an opaque name, to a regular file or to a
      directory: a regular file is what [json.load] makes of it, a directory
      the image files in it.  The sections of a JSON annotation file hold
      records with the fields the code reads, or a scalar.
    - The collections of the store are a map from their names to their vector
      parameters and payload indexes; creating an index on a collection just
      created is taken to succeed. *)

From stdpp Require Import base numbers list strings gmap.
From Stdlib Require Import QArith Qround Floats Uint63 Ascii.

Open Scope Z_scope.

(** ** Exceptions and results *)

Inductive exn : Type :=
| ValueError
| KeyError
| StopIteration
| IndexError
| CollaboratorError.

Inductive result (A : Type) : Type :=
| Ok (a : A)
| Raise (e : exn).

Arguments Ok {A} a.
Arguments Raise {A} e.

(** Sequencing: an exception raised by the first computation propagates. *)
#[global] Instance result_ret : MRet result := fun A a => Ok a.
#[global] Instance result_bind : MBind result := fun A B k r =>
  match r with
  | Ok a => k a
  | Raise e => Raise e
  end.

(** ** Numbers *)

(** Python's [int(v)] on a finite number: truncation toward zero. *)
Definition int (v : Q) : Z := Z.quot (Qnum v) (Z.pos (Qden v)).

(** ** The Pillow image model *)

Module PIL.

(** An image of pixel type [P]: [width], [height] and the pixel at [(x, y)]. *)
Record Image (P : Type) : Type := mkImage {
  width : Z;
  height : Z;
  pixels : Z -> Z -> P
}.

Arguments mkImage {P} _ _ _.
Arguments width {P} _.
Arguments height {P} _.
Arguments pixels {P} _ _ _.

(** Pixel types of the three modes the code uses. *)
Definition L : Type := Z.
Definition RGB : Type := (Z * Z * Z)%type.
Definition RGBA : Type := (Z * Z * Z * Z)%type.

(** The value Pillow fills in where a crop box leaves the source. *)
Class Mode (P : Type) : Type := { black : P }.
#[global] Instance mode_L : Mode L := {| black := 0 |}.
#[global] Instance mode_RGB : Mode RGB := {| black := (0, 0, 0) |}.
#[global] Instance mode_RGBA : Mode RGBA := {| black := (0, 0, 0, 0) |}.

Definition Box : Type := (Z * Z * Z * Z)%type.

Definition inside {P : Type} (im : Image P) (x y : Z) : bool :=
  (0 <=? x) && (x <? width im) && (0 <=? y) && (y <? height im).

(** [Image.new(mode, size, color)]; a negative size is a [ValueError]. *)
Definition new {P : Type} (size : Z * Z) (color : P) : result (Image P) :=
  let '(w, h) := size in
  if (w <? 0) || (h <? 0) then Raise ValueError
  else Ok (mkImage w h (fun _ _ => color)).

(** [im.crop((left, upper, right, lower))]: the result has size
    [(right - left, lower - upper)]; the part of the box outside the source
    is black; a box with [right < left] or [lower < upper] is a
    [ValueError]. *)
Definition crop {P : Type} `{Mode P} (im : Image P) (box : Box)
  : result (Image P) :=
  let '(lft, upr, rgt, lwr) := box in
  if (rgt <? lft) || (lwr <? upr) then Raise ValueError
  else Ok (mkImage (rgt - lft) (lwr - upr)
             (fun x y =>
                if inside im (lft + x) (upr + y)
                then pixels im (lft + x) (upr + y)
                else black)).

Definition getpixel {P : Type} (im : Image P) (xy : Z * Z) : P :=
  pixels im (fst xy) (snd xy).

Definition putpixel {P : Type} (im : Image P) (xy : Z * Z) (v : P) : Image P :=
  mkImage (width im) (height im)
    (fun x y => if (x =? fst xy) && (y =? snd xy) then v else pixels im x y).

Definition size {P : Type} (im : Image P) : Z * Z := (width im, height im).

(** [convert('RGBA')] of an RGB image: opaque alpha. *)
Definition convert_RGBA (im : Image RGB) : Image RGBA :=
  mkImage (width im) (height im)
    (fun x y => let '(r, g, b) := pixels im x y in (r, g, b, 255)).

(** [convert('RGB')] of an RGBA image: the alpha band is dropped. *)
Definition convert_RGB (im : Image RGBA) : Image RGB :=
  mkImage (width im) (height im)
    (fun x y => let '(r, g, b, _) := pixels im x y in (r, g, b)).

(** [range(n)] as integers. *)
Definition range (n : Z) : list Z := seqZ 0 n.

(** Columns and rows of a mask that hold a non-zero pixel. *)
Definition col_set (mask : Image L) (x : Z) : bool :=
  existsb (fun y => negb (pixels mask x y =? 0)) (range (height mask)).
Definition row_set (mask : Image L) (y : Z) : bool :=
  existsb (fun x => negb (pixels mask x y =? 0)) (range (width mask)).

(** [mask.getbbox()]: [None] for an all-zero image, else the tight box
    [(left, upper, right, lower)] of the non-zero pixels, right and lower
    exclusive. *)
Definition getbbox (mask : Image L) : option Box :=
  match filter (fun x => col_set mask x = true) (range (width mask)),
        filter (fun y => row_set mask y = true) (range (height mask)) with
  | x0 :: xs, y0 :: ys =>
      Some (x0, y0, List.last xs x0 + 1, List.last ys y0 + 1)
  | _, _ => None
  end.

End PIL.

Import PIL.

#[global] Instance result_fmap : FMap result := fun A B f r =>
  match r with
  | Ok a => Ok (f a)
  | Raise e => Raise e
  end.

(** ** [image_processor.py] *)

(** A file of the images directory: one Pillow can open, or one it cannot. *)
Inductive File : Type :=
| Decodable (im : Image RGB)
| Corrupt.

Record ImageProcessor : Type := {
  images_dir : gmap string File;
  use_segmentation : bool
}.

(** [load_image]: [None] when the path does not exist and when opening it
    raises. *)
Definition load_image (self : ImageProcessor) (image_filename : string)
  : option (Image RGB) :=
  match images_dir self !! image_filename with
  | None => None
  | Some (Decodable im) => Some im
  | Some Corrupt => None
  end.

(** [_crop_by_bbox]: the unpacking [x, y, width, height = bbox] raises
    [ValueError] unless [bbox] has four elements. *)
Definition _crop_by_bbox (image : Image RGB) (bbox : list Q)
  : result (Image RGB) :=
  match bbox with
  | [x; y; width; height] =>
      let x := Z.max 0 (int x) in
      let y := Z.max 0 (int y) in
      let width := Z.min (int width) (PIL.width image - x) in
      let height := Z.min (int height) (PIL.height image - y) in
      if (width <? 1) || (height <? 1) then
        crop image (0, 0, Z.min 10 (PIL.width image), Z.min 10 (PIL.height image))
      else
        crop image (x, y, x + width, y + height)
  | _ => Raise ValueError
  end.

(** The inner loop of [_crop_by_segmentation]:
    [for i in range(0, len(polygon), 2): if i + 1 < len(polygon): ...]
    pairs consecutive coordinates and drops an unpaired last one. *)
Fixpoint points_of (polygon : list Q) : list (Q * Q) :=
  match polygon with
  | px :: py :: rest => (px, py) :: points_of rest
  | _ => []
  end.

(** Python truthiness of an optional list: present and not empty. *)
Definition truthy {A : Type} (o : option (list A)) : bool :=
  match o with
  | Some (_ :: _) => true
  | _ => false
  end.

Definition len {A : Type} (l : list A) : Z := Z.of_nat (length l).

Section Extractor.

(** The polygon rasteriser of Pillow's [ImageDraw]: [polygon_fill points x y]
    holds when filling the polygon with vertices [points] covers pixel
    [(x, y)]. *)
Variable polygon_fill : list (Q * Q) -> Z -> Z -> bool.

(** [draw.polygon(points, fill=fill)] on [mask]: the covered pixels that lie
    on the canvas take the value [fill]. *)
Definition draw_polygon (mask : Image L) (points : list (Q * Q)) (fill : Z)
  : Image L :=
  mkImage (width mask) (height mask)
    (fun x y =>
       if inside mask x y && polygon_fill points x y then fill
       else pixels mask x y).

(** The polygon loop: a polygon with fewer than three points is not drawn. *)
Definition draw_segmentation (mask : Image L) (segmentation : list (list Q))
  : Image L :=
  foldl (fun mask polygon =>
           let points := points_of polygon in
           if 3 <=? len points then draw_polygon mask points 255 else mask)
        mask segmentation.

(** The body of the compositing loops, at pixel [(x, y)]. *)
Definition composite_pixel (cropped_image : Image RGBA)
    (cropped_mask : Image L) (x : Z) (result : Image RGBA) (y : Z)
  : Image RGBA :=
  let mask_value := getpixel cropped_mask (x, y) in
  if 0 <? mask_value
  then putpixel result (x, y) (getpixel cropped_image (x, y))
  else result.

(** The compositing loops over the cropped image. *)
Definition composite (cropped_image : Image RGBA) (cropped_mask : Image L)
    (result : Image RGBA) : Image RGBA :=
  foldl (fun result x =>
           foldl (composite_pixel cropped_image cropped_mask x)
                 result (range (height cropped_image)))
        result (range (width cropped_image)).

Definition _crop_by_segmentation (image : Image RGB)
    (segmentation : list (list Q)) : result (Image RGB) :=
  mask ← new (width image, height image) (0 : L);
  let mask := draw_segmentation mask segmentation in
  match getbbox mask with
  | None =>
      crop image (0, 0, Z.min 10 (width image), Z.min 10 (height image))
  | Some bbox =>
      cropped_image ← crop image bbox;
      cropped_mask ← crop mask bbox;
      result ← new (size cropped_image) ((0, 0, 0, 0) : RGBA);
      let cropped_image := convert_RGBA cropped_image in
      let result := composite cropped_image cropped_mask result in
      Ok (convert_RGB result)
  end.

(** [crop_object]: [Ok None] is the [None] return. *)
Definition crop_object (self : ImageProcessor) (image_filename : string)
    (bbox : option (list Q)) (segmentation : option (list (list Q)))
  : result (option (Image RGB)) :=
  match load_image self image_filename with
  | None => Ok None
  | Some image =>
      if use_segmentation self && truthy segmentation
         && (0 <? len (default [] segmentation))
      then Some <$> _crop_by_segmentation image (default [] segmentation)
      else if truthy bbox && (len (default [] bbox) =? 4)
      then Some <$> _crop_by_bbox image (default [] bbox)
      else Ok None
  end.

End Extractor.

(** ** [embedding_generator.py] *)

(** An embedding vector: a Python list of floats. *)
Definition Vector : Type := list float.

Record EmbeddingGenerator : Type := {
  model_name : string;
  vector_size : Z
}.

(** Python's [[v] * n]: empty when [n] is not positive. *)
Definition replicate_py {A : Type} (n : Z) (v : A) : list A :=
  replicate (Z.to_nat n) v.

Section Embedding.

(** The embedding service behind [jinaai.embed(...).embeddings], applied to
    the images of one request (their PNG encoding is a function of the
    image): the vectors it answers, or the exception the call raises.  The
    first argument counts the requests made before this one. *)
Variable jinaai_embed : nat -> list (Image RGB) -> result (list Vector).

(** [generate_embeddings], for the request number [calls].  The warning
    printed on a dimension mismatch changes no value and is left out. *)
Definition generate_embeddings (self : EmbeddingGenerator) (calls : nat)
    (images : list (Image RGB)) : list Vector :=
  match images with
  | [] => []
  | _ =>
      match jinaai_embed calls images with
      | Ok results => results
      | Raise _ =>
          (* Return zero vectors as fallback *)
          map (fun _ => replicate_py (vector_size self) 0%float)
              (seq 0 (length images))
      end
  end.

End Embedding.

(** ** [coco_parser.py] and the records of a COCO file *)

Record ImageInfo : Type := {
  img_id : Z;
  img_file_name : string;
  img_width : Z;
  img_height : Z
}.

Record Annotation : Type := {
  ann_id : Z;
  ann_image_id : Z;
  ann_category_id : Z;
  ann_bbox : option (list Q);
  ann_segmentation : option (list (list Q));
  ann_area : option Q;
  ann_iscrowd : option Z
}.

Record Category : Type := {
  cat_id : Z;
  cat_name : string
}.

Record CocoData : Type := {
  images : list ImageInfo;
  annotations : list Annotation;
  categories : list Category
}.

(** The referential check of [CocoParser.parse]: the first annotation that
    names an unknown image or category raises [ValueError]. *)
Definition parse_validate (coco_data : CocoData) : result CocoData :=
  let image_ids : gset Z := list_to_set (map img_id (images coco_data)) in
  let category_ids : gset Z := list_to_set (map cat_id (categories coco_data)) in
  foldl (fun r ann =>
           _ ← r;
           if negb (bool_decide (ann_image_id ann ∈ image_ids)) then Raise ValueError
           else if negb (bool_decide (ann_category_id ann ∈ category_ids))
           then Raise ValueError
           else Ok coco_data)
        (Ok coco_data) (annotations coco_data).

(** ** The batch loop of [main.py] *)

Record Payload : Type := {
  p_image_id : Z;
  p_file_name : string;
  p_category_id : Z;
  p_category_name : string;
  p_bbox : option (list Q);
  p_segmentation : option (list (list Q));
  p_area : option Q;
  p_iscrowd : Z
}.

(** An element of [upload_objects], and the [PointStruct] built from it. *)
Record UploadObject : Type := {
  u_id : Z;
  u_vector : Vector;
  u_payload : Payload
}.

(** An element of [cropped_objects]. *)
Record CroppedObject : Type := {
  c_image : Image RGB;
  c_annotation : Annotation;
  c_image_info : ImageInfo;
  c_category : Category
}.

(** [d[k]] on a dict. *)
Definition dict_get {V : Type} (d : gmap Z V) (k : Z) : result V :=
  match d !! k with
  | Some v => Ok v
  | None => Raise KeyError
  end.

(** [l[i]] on a list, for the indices [enumerate] produces. *)
Definition list_get {A : Type} (l : list A) (i : nat) : result A :=
  match l !! i with
  | Some v => Ok v
  | None => Raise IndexError
  end.

(** [{img['id']: img for img in images if img['id'] in image_ids}]: a later
    record with the same id replaces an earlier one. *)
Definition image_data_of (coco_images : list ImageInfo) (image_ids : list Z)
  : gmap Z ImageInfo :=
  foldl (fun d img =>
           if bool_decide (img_id img ∈ image_ids) then <[img_id img := img]> d
           else d)
        ∅ coco_images.

(** [next(cat for cat in categories if cat['id'] == category_id)]. *)
Fixpoint next_category (coco_categories : list Category) (category_id : Z)
  : result Category :=
  match coco_categories with
  | [] => Raise StopIteration
  | cat :: rest =>
      if cat_id cat =? category_id then Ok cat
      else next_category rest category_id
  end.

(** The number of times [next_category] evaluates the test
    [cat['id'] == category_id]. *)
Fixpoint next_category_steps (coco_categories : list Category) (category_id : Z)
  : nat :=
  match coco_categories with
  | [] => O
  | cat :: rest =>
      S (if cat_id cat =? category_id then O
         else next_category_steps rest category_id)
  end.

(** A left fold whose step may raise. *)
Fixpoint foldl_result {A B : Type} (f : A -> B -> result A) (a : A) (l : list B)
  : result A :=
  match l with
  | [] => Ok a
  | b :: l' => a' ← f a b; foldl_result f a' l'
  end.

Definition enumerate {A : Type} (l : list A) : list (nat * A) :=
  zip (seq 0 (length l)) l.

(** [range(0, stop, step)] of the batch loop; a zero step is a [ValueError]. *)
Definition range_step (stop step : Z) : result (list Z) :=
  if step =? 0 then Raise ValueError
  else if step <? 0 then Ok []
  else Ok (map (fun k => Z.of_nat k * step)
               (seq 0 (Z.to_nat ((stop + step - 1) / step)))).

(** The slice [l[i:i+n]] for [0 <= i] and [0 < n]. *)
Definition slice {A : Type} (l : list A) (i n : Z) : list A :=
  take (Z.to_nat n) (drop (Z.to_nat i) l).

(** What the run has done to its collaborators so far. *)
Record Run : Type := {
  embed_calls : nat;                    (* requests sent to the embedding service *)
  upserts : list (list UploadObject)    (* the point lists upserted, in order *)
}.

Definition run0 : Run := {| embed_calls := O; upserts := [] |}.

Section Pipeline.

Variable polygon_fill : list (Q * Q) -> Z -> Z -> bool.
Variable jinaai_embed : nat -> list (Image RGB) -> result (list Vector).
Variable image_processor : ImageProcessor.
Variable embedding_generator : EmbeddingGenerator.

(** One turn of [for ann in batch_annotations]. *)
Definition crop_step (coco_data : CocoData) (image_data : gmap Z ImageInfo)
    (cropped_objects : list CroppedObject) (ann : Annotation)
  : result (list CroppedObject) :=
  image_info ← dict_get image_data (ann_image_id ann);
  category ← next_category (categories coco_data) (ann_category_id ann);
  cropped_image ← crop_object polygon_fill image_processor
                    (img_file_name image_info)
                    (ann_bbox ann) (ann_segmentation ann);
  Ok (match cropped_image with
      | Some im =>
          cropped_objects ++
            [ {| c_image := im; c_annotation := ann;
                 c_image_info := image_info; c_category := category |} ]
      | None => cropped_objects
      end).

(** The record appended for [obj], given its vector. *)
Definition upload_object (obj : CroppedObject) (vector : Vector)
  : UploadObject :=
  {| u_id := ann_id (c_annotation obj);
     u_vector := vector;
     u_payload :=
       {| p_image_id := img_id (c_image_info obj);
          p_file_name := img_file_name (c_image_info obj);
          p_category_id := cat_id (c_category obj);
          p_category_name := cat_name (c_category obj);
          p_bbox := ann_bbox (c_annotation obj);
          p_segmentation := ann_segmentation (c_annotation obj);
          p_area := ann_area (c_annotation obj);
          p_iscrowd := default 0 (ann_iscrowd (c_annotation obj)) |} |}.

(** One turn of [for i, obj in enumerate(cropped_objects)]; [embeddings[i]]
    raises [IndexError] past the end of [embeddings]. *)
Definition upload_step (embeddings : list Vector)
    (upload_objects : list UploadObject) (iobj : nat * CroppedObject)
  : result (list UploadObject) :=
  vector ← list_get embeddings (fst iobj);
  Ok (upload_objects ++ [upload_object (snd iobj) vector]).

(** [QdrantUploader.upload_batch]: nothing is sent for an empty list, else
    one upsert of all the points. *)
Definition upload_batch (run : Run) (objects : list UploadObject) : Run :=
  match objects with
  | [] => run
  | _ => {| embed_calls := embed_calls run;
            upserts := upserts run ++ [objects] |}
  end.

(** The body of the batch loop.  The run it returns holds what was done
    before an exception, if one is raised. *)
Definition process_batch (coco_data : CocoData) (run : Run)
    (batch_annotations : list Annotation) : Run * result unit :=
  let image_ids := map ann_image_id batch_annotations in
  let image_data := image_data_of (images coco_data) image_ids in
  match foldl_result (crop_step coco_data image_data) [] batch_annotations with
  | Raise e => (run, Raise e)
  | Ok [] => (run, Ok ())
  | Ok cropped_objects =>
      let images := map c_image cropped_objects in
      let embeddings :=
        generate_embeddings jinaai_embed embedding_generator
          (embed_calls run) images in
      let run := {| embed_calls := S (embed_calls run);
                    upserts := upserts run |} in
      match foldl_result (upload_step embeddings) []
              (enumerate cropped_objects) with
      | Raise e => (run, Raise e)
      | Ok upload_objects => (upload_batch run upload_objects, Ok ())
      end
  end.

(** [for i in range(0, total_objects, batch_size)], over the start indices. *)
Fixpoint run_batches (coco_data : CocoData) (batch_size : Z) (run : Run)
    (starts : list Z) : Run * result unit :=
  match starts with
  | [] => (run, Ok ())
  | i :: rest =>
      let batch_annotations := slice (annotations coco_data) i batch_size in
      match process_batch coco_data run batch_annotations with
      | (run', Ok _) => run_batches coco_data batch_size run' rest
      | (run', Raise e) => (run', Raise e)
      end
  end.

(** The batch loop with the handler around it: the exit code is [1] when an
    exception reached [except Exception], else [0]. *)
Definition process_objects (coco_data : CocoData) (batch_size : Z)
  : Z * Run :=
  let total_objects := len (annotations coco_data) in
  match range_step total_objects batch_size with
  | Raise _ => (1, run0)
  | Ok starts =>
      match run_batches coco_data batch_size run0 starts with
      | (run, Ok _) => (0, run)
      | (run, Raise _) => (1, run)
      end
  end.

(** [main] from the parsed annotation file on: the parser's referential
    check, then the batch loop, both inside [try ... except Exception]. *)
Definition main (raw : CocoData) (batch_size : Z) : Z * Run :=
  match parse_validate raw with
  | Raise _ => (1, run0)
  | Ok coco_data => process_objects coco_data batch_size
  end.

End Pipeline.

(** ** Files, and the exceptions of the set-up *)

(** The exceptions met outside the core: those of [exn], [ImportError],
    [TypeError], [OverflowError], and [OSError] for a path that cannot be
    opened or created ([FileNotFoundError], [IsADirectoryError],
    [FileExistsError], [NotADirectoryError]). *)
Inductive exception : Type :=
| Exn (e : exn)
| ImportError
| TypeError
| OverflowError
| OSError.

Inductive outcome (A : Type) : Type :=
| Returns (a : A)
| Throws (e : exception).

Arguments Returns {A} a.
Arguments Throws {A} e.

#[global] Instance outcome_ret : MRet outcome := fun A a => Returns a.
#[global] Instance outcome_bind : MBind outcome := fun A B k r =>
  match r with
  | Returns a => k a
  | Throws e => Throws e
  end.

(** A computation of the core, seen from outside. *)
Definition lift {A : Type} (r : result A) : outcome A :=
  match r with
  | Ok a => Returns a
  | Raise e => Throws (Exn e)
  end.

(** A section of the JSON object as [json.load] gives it: a list of records
    of the COCO format, or a scalar ([null], a boolean or a number). *)
Inductive SectionValue (A : Type) : Type :=
| Records (records : list A)
| ScalarSection.

Arguments Records {A} records.
Arguments ScalarSection {A}.

(** The JSON object of an annotation file: each of the three sections the
    parser asks for is present or not; other keys are never read. *)
Record Document : Type := {
  doc_images : option (SectionValue ImageInfo);
  doc_annotations : option (SectionValue Annotation);
  doc_categories : option (SectionValue Category)
}.

(** What [json.load] makes of a regular file: a decoding error, a scalar
    ([null], a boolean or a number), or an object.  A JSON string or array
    in the place of the object or of a section, and a record that lacks a
    field the code reads, are outside this model. *)
Inductive Content : Type :=
| NotJson
| JsonScalar
| Json (coco_data : Document).

(** What a path names: a regular file, or a directory with its image files.
    Paths are opaque names. *)
Inductive Node : Type :=
| RegularFile (content : Content)
| Directory (entries : gmap string File).

(** [open(path, 'r')] followed by [json.load]: the content of a regular
    file. *)
Definition open_ (files : gmap string Node) (path : string) : outcome Content :=
  match files !! path with
  | Some (RegularFile content) => Returns content
  | _ => Throws OSError
  end.

(** ** [image_processor.py]: a bounding box of any JSON numbers *)

(** A JSON number as [json.load] gives it: a finite number, an infinity of
    either sign (also read from a literal too large for a float, such as
    [1e400]), or [nan]. *)
Inductive number : Type :=
| Finite (v : Q)
| Infinity
| NaN.

(** [int(v)]: [OverflowError] on an infinity, [ValueError] on [nan]. *)
Definition int_of (v : number) : outcome Z :=
  match v with
  | Finite v => Returns (int v)
  | Infinity => Throws OverflowError
  | NaN => Throws (Exn ValueError)
  end.

Module AnyNumber.

(** [_crop_by_bbox] on a box of any JSON numbers: the four calls of [int]
    come first, in the order [x], [y], [width], [height]. *)
Definition _crop_by_bbox (image : Image RGB) (bbox : list number)
  : outcome (Image RGB) :=
  match bbox with
  | [x; y; width; height] =>
      x ← int_of x;
      let x := Z.max 0 x in
      y ← int_of y;
      let y := Z.max 0 y in
      width ← int_of width;
      let width := Z.min width (PIL.width image - x) in
      height ← int_of height;
      let height := Z.min height (PIL.height image - y) in
      if (width <? 1) || (height <? 1) then
        lift (crop image (0, 0, Z.min 10 (PIL.width image),
                          Z.min 10 (PIL.height image)))
      else
        lift (crop image (x, y, x + width, y + height))
  | _ => Throws (Exn ValueError)
  end.

Section Extractor.

Variable polygon_fill : list (Q * Q) -> Z -> Z -> bool.

(** [crop_object] with a box of any JSON numbers.  The coordinates of the
    polygons stay finite: what the rasteriser does with others is not
    modelled. *)
Definition crop_object (self : ImageProcessor) (image_filename : string)
    (bbox : option (list number)) (segmentation : option (list (list Q)))
  : outcome (option (Image RGB)) :=
  match load_image self image_filename with
  | None => Returns None
  | Some image =>
      if use_segmentation self && truthy segmentation
         && (0 <? len (default [] segmentation))
      then
        lift (Some <$> _crop_by_segmentation polygon_fill image
                         (default [] segmentation))
      else if truthy bbox && (len (default [] bbox) =? 4)
      then
        region ← _crop_by_bbox image (default [] bbox);
        Returns (Some region)
      else Returns None
  end.

End Extractor.

End AnyNumber.

(** ** [coco_parser.py]: the parser on a file, and its queries *)

Record CocoParser : Type := {
  annotations_path : string
}.

(** [CocoParser.parse]: the file is read, the three sections are asked for,
    and the referential check runs on them.  [JSONDecodeError] and a missing
    section are turned into [ValueError]; the [TypeError] of the membership
    test on a scalar, and of the iteration over a scalar section, is not
    caught. *)
Definition parse (files : gmap string Node) (self : CocoParser)
  : outcome CocoData :=
  content ← open_ files (annotations_path self);
  match content with
  | NotJson => Throws (Exn ValueError)
  | JsonScalar => Throws TypeError
  | Json coco_data =>
      match doc_images coco_data, doc_annotations coco_data,
            doc_categories coco_data with
      | Some imgs, Some anns, Some cats =>
          match imgs, anns, cats with
          | Records imgs, Records anns, Records cats =>
              lift (parse_validate
                      {| images := imgs; annotations := anns;
                         categories := cats |})
          | _, _, _ => Throws TypeError
          end
      | _, _, _ => Throws (Exn ValueError)
      end
  end.

(** [CocoParser.get_image_annotations]. *)
Definition get_image_annotations (files : gmap string Node) (self : CocoParser)
    (image_id : Z) : outcome (list Annotation) :=
  coco_data ← parse files self;
  Returns (filter (fun ann => ann_image_id ann = image_id)
                  (annotations coco_data)).

(** [CocoParser.get_category_annotations]. *)
Definition get_category_annotations (files : gmap string Node)
    (self : CocoParser) (category_id : Z) : outcome (list Annotation) :=
  coco_data ← parse files self;
  Returns (filter (fun ann => ann_category_id ann = category_id)
                  (annotations coco_data)).

(** The loop of [get_category_name] over the categories. *)
Fixpoint category_name_of (coco_categories : list Category) (category_id : Z)
  : outcome string :=
  match coco_categories with
  | [] => Throws (Exn ValueError)
  | category :: rest =>
      if cat_id category =? category_id then Returns (cat_name category)
      else category_name_of rest category_id
  end.

(** [CocoParser.get_category_name]. *)
Definition get_category_name (files : gmap string Node) (self : CocoParser)
    (category_id : Z) : outcome string :=
  coco_data ← parse files self;
  category_name_of (categories coco_data) category_id.

(** ** [embedding_generator.py]: construction, and a single image *)

(** Python's truth value of an optional string: [None] and the empty string
    are false. *)
Definition truthy_str (s : option string) : bool :=
  match s with
  | Some s => negb (String.eqb s "")
  | None => false
  end.

(** [a or b] on optional strings. *)
Definition or_ (a b : option string) : option string :=
  if truthy_str a then a else b.

(** The module [jinaai] as the generator sees it: whether its import
    succeeded, and its module-level attribute [api_key]. *)
Record Jinaai : Type := {
  installed : bool;
  api_key : option string
}.

(** [EmbeddingGenerator._initialize_client], on the key the constructor
    chose. *)
Definition _initialize_client (self_api_key : option string) (jinaai : Jinaai)
  : Jinaai * outcome unit :=
  if negb (truthy_str self_api_key) then (jinaai, Throws (Exn ValueError))
  else ({| installed := installed jinaai; api_key := self_api_key |},
        Returns ()).

(** [EmbeddingGenerator.__init__].  The attribute [self.api_key] is read by
    the constructor only, so the generator built is the record of the two
    other attributes. *)
Definition EmbeddingGenerator_init (environ : gmap string string)
    (jinaai : Jinaai) (name : string) (size : Z) (key : option string)
  : Jinaai * outcome EmbeddingGenerator :=
  let self_api_key := or_ key (environ !! "JINA_API_KEY") in
  if negb (installed jinaai) then (jinaai, Throws ImportError)
  else
    match _initialize_client self_api_key jinaai with
    | (jinaai, Throws e) => (jinaai, Throws e)
    | (jinaai, Returns _) =>
        (jinaai, Returns {| model_name := name; vector_size := size |})
    end.

Section EmbeddingOne.

Variable jinaai_embed : nat -> list (Image RGB) -> result (list Vector).

(** [EmbeddingGenerator.generate_embedding], for the request number
    [calls]. *)
Definition generate_embedding (self : EmbeddingGenerator) (calls : nat)
    (image : Image RGB) : Vector :=
  match generate_embeddings jinaai_embed self calls [image] with
  | results0 :: _ => results0
  | [] => replicate_py (vector_size self) 0%float
  end.

End EmbeddingOne.

(** ** [qdrant_uploader.py]: the collection *)

(** A collection of the store: its vector parameters and the payload fields
    indexed, in the order the indexes were created. *)
Record Collection : Type := {
  col_size : Z;
  col_distance : string;
  col_indexes : list string
}.

Record QdrantUploader : Type := {
  collection_name : string;
  uploader_vector_size : Z;
  distance : string
}.

(** [client.create_payload_index] on the collections of the store, by
    name. *)
Definition create_payload_index (store : gmap string Collection)
    (name field_name : string) : gmap string Collection :=
  alter (fun c => {| col_size := col_size c; col_distance := col_distance c;
                     col_indexes := col_indexes c ++ [field_name] |})
        name store.

Section Client.

(** The store's judgement of vector parameters: whether it accepts a new
    collection with this vector size and distance.  On the others (a vector
    size of 0, a distance it does not know) [client.create_collection]
    raises and creates nothing. *)
Variable valid_vectors : Z -> string -> bool.

(** [client.create_collection] on the collections of the store. *)
Definition create_collection (store : gmap string Collection) (name : string)
    (size : Z) (dist : string) : result (gmap string Collection) :=
  if valid_vectors size dist then
    Ok (<[name := {| col_size := size; col_distance := dist;
                     col_indexes := [] |}]> store)
  else Raise CollaboratorError.

(** [QdrantUploader._create_collection]. *)
Definition _create_collection (self : QdrantUploader)
    (store : gmap string Collection) : result (gmap string Collection) :=
  let collection_names := map fst (map_to_list store) in
  if negb (bool_decide (collection_name self ∈ collection_names)) then
    store ← create_collection store (collection_name self)
              (uploader_vector_size self) (distance self);
    let store := create_payload_index store (collection_name self)
                   "category_id" in
    Ok (create_payload_index store (collection_name self) "image_id")
  else Ok store.

(** [QdrantUploader.__init__]: the client is opened on the store, which
    raises when the store cannot be opened ([openable] is false: its folder
    is held by another client, say), and the collection is created if the
    store does not list it. *)
Definition QdrantUploader_init (openable : bool)
    (store : gmap string Collection) (name : string) (size : Z)
    (dist : string) : result (QdrantUploader * gmap string Collection) :=
  if negb openable then Raise CollaboratorError
  else
    let self := {| collection_name := name; uploader_vector_size := size;
                   distance := dist |} in
    store ← _create_collection self store;
    Ok (self, store).

End Client.

(** [QdrantUploader.collection_exists]. *)
Definition collection_exists (self : QdrantUploader)
    (store : gmap string Collection) : bool :=
  let collection_names := map fst (map_to_list store) in
  bool_decide (collection_name self ∈ collection_names).

(** ** The batch loop of [main.py] on a store that may refuse an upsert

    The batch loop of the core takes every upsert to succeed.  Here the
    store answers each upsert: it accepts the point list, or raises (on a
    vector of another dimension than the collection's, on an identifier it
    does not take).  The definitions are those of the core but for
    [upload_batch]. *)

Module Store.

Section Loop.

Variable polygon_fill : list (Q * Q) -> Z -> Z -> bool.
Variable jinaai_embed : nat -> list (Image RGB) -> result (list Vector).

(** The store behind [client.upsert]: its answer to the point list of an
    upsert, given the number of upserts it has accepted before. *)
Variable client_upsert : nat -> list UploadObject -> result unit.

Variable image_processor : ImageProcessor.
Variable embedding_generator : EmbeddingGenerator.

(** [QdrantUploader.upload_batch]: nothing is sent for an empty list, else
    one upsert of all the points, whose exception is not caught. *)
Definition upload_batch (run : Run) (objects : list UploadObject)
  : Run * result unit :=
  match objects with
  | [] => (run, Ok ())
  | _ =>
      match client_upsert (length (upserts run)) objects with
      | Ok _ => ({| embed_calls := embed_calls run;
                    upserts := upserts run ++ [objects] |}, Ok ())
      | Raise e => (run, Raise e)
      end
  end.

(** The body of the batch loop. *)
Definition process_batch (coco_data : CocoData) (run : Run)
    (batch_annotations : list Annotation) : Run * result unit :=
  let image_ids := map ann_image_id batch_annotations in
  let image_data := image_data_of (images coco_data) image_ids in
  match foldl_result
          (crop_step polygon_fill image_processor coco_data image_data)
          [] batch_annotations with
  | Raise e => (run, Raise e)
  | Ok [] => (run, Ok ())
  | Ok cropped_objects =>
      let images := map c_image cropped_objects in
      let embeddings :=
        generate_embeddings jinaai_embed embedding_generator
          (embed_calls run) images in
      let run := {| embed_calls := S (embed_calls run);
                    upserts := upserts run |} in
      match foldl_result (upload_step embeddings) []
              (enumerate cropped_objects) with
      | Raise e => (run, Raise e)
      | Ok upload_objects => upload_batch run upload_objects
      end
  end.

(** [for i in range(0, total_objects, batch_size)], over the start indices. *)
Fixpoint run_batches (coco_data : CocoData) (batch_size : Z) (run : Run)
    (starts : list Z) : Run * result unit :=
  match starts with
  | [] => (run, Ok ())
  | i :: rest =>
      let batch_annotations := slice (annotations coco_data) i batch_size in
      match process_batch coco_data run batch_annotations with
      | (run', Ok _) => run_batches coco_data batch_size run' rest
      | (run', Raise e) => (run', Raise e)
      end
  end.

(** The batch loop with the handler around it: the exit code is [1] when an
    exception reached [except Exception], else [0]. *)
Definition process_objects (coco_data : CocoData) (batch_size : Z)
  : Z * Run :=
  let total_objects := len (annotations coco_data) in
  match range_step total_objects batch_size with
  | Raise _ => (1, run0)
  | Ok starts =>
      match run_batches coco_data batch_size run0 starts with
      | (run, Ok _) => (0, run)
      | (run, Raise _) => (1, run)
      end
  end.

End Loop.

End Store.

(** ** [main.py]: from the command line to the batch loop *)

Record Args : Type := {
  args_annotations : string;
  args_images : string;
  args_output : string;
  args_collection : string;
  args_batch_size : Z;
  args_embedding_model : string;
  args_vector_size : Z;
  args_use_segmentation : bool;
  args_skip_existing : bool
}.

(** What a run of [main] sees of the machine: the file system, with the
    paths at which a directory can be created (the ancestors are directories
    or can be created, and the permissions allow it); the environment
    variables; the module [jinaai]; whether a client can be opened on the
    store at the output path, and the collections of that store. *)
Record World : Type := {
  files : gmap string Node;
  creatable : string -> bool;
  environ : gmap string string;
  jinaai : Jinaai;
  openable : bool;
  store : gmap string Collection
}.

(** [Path.mkdir(parents=True, exist_ok=True)]: a directory that exists is
    left alone, a regular file in its place is an [OSError], and so is a
    path that cannot be created (a regular file among its ancestors, a
    missing permission). *)
Definition mkdir (files : gmap string Node) (creatable : string -> bool)
    (path : string) : outcome (gmap string Node) :=
  match files !! path with
  | Some (Directory _) => Returns files
  | Some (RegularFile _) => Throws OSError
  | None =>
      if creatable path then Returns (<[path := Directory ∅]> files)
      else Throws OSError
  end.

(** [Path.exists()] and [Path.is_dir()]. *)
Definition exists_ (files : gmap string Node) (path : string) : bool :=
  bool_decide (is_Some (files !! path)).

Definition is_dir (files : gmap string Node) (path : string) : bool :=
  match files !! path with
  | Some (Directory _) => true
  | _ => false
  end.

(** The image files of the directory at [path]. *)
Definition listing (files : gmap string Node) (path : string)
  : gmap string File :=
  match files !! path with
  | Some (Directory entries) => entries
  | _ => ∅
  end.

Section Main.

Variable polygon_fill : list (Q * Q) -> Z -> Z -> bool.
Variable jinaai_embed : nat -> list (Image RGB) -> result (list Vector).
Variable valid_vectors : Z -> string -> bool.
Variable client_upsert : nat -> list UploadObject -> result unit.

(** [main()], as [sys.exit(main())] runs it: the world it leaves, what it did
    to the embedding and storage services, and the exit code it returns or
    the exception that escapes it. *)
Definition main_entry (args : Args) (world : World)
  : World * Run * outcome Z :=
  if negb (exists_ (files world) (args_annotations args)) then
    (world, run0, Returns 1)
  else if negb (exists_ (files world) (args_images args))
          || negb (is_dir (files world) (args_images args)) then
    (world, run0, Returns 1)
  else
    match mkdir (files world) (creatable world) (args_output args) with
    | Throws e => (world, run0, Throws e)
    | Returns files' =>
        let world := {| files := files'; creatable := creatable world;
                        environ := environ world; jinaai := jinaai world;
                        openable := openable world; store := store world |} in
        (* try: *)
        match parse (files world)
                {| annotations_path := args_annotations args |} with
        | Throws _ => (world, run0, Returns 1)
        | Returns coco_data =>
            let image_processor :=
              {| images_dir := listing (files world) (args_images args);
                 use_segmentation := args_use_segmentation args |} in
            match EmbeddingGenerator_init (environ world) (jinaai world)
                    (args_embedding_model args) (args_vector_size args)
                    None with
            | (jinaai', Throws _) =>
                ({| files := files world; creatable := creatable world;
                    environ := environ world; jinaai := jinaai';
                    openable := openable world; store := store world |},
                 run0, Returns 1)
            | (jinaai', Returns embedding_generator) =>
                let world := {| files := files world;
                                creatable := creatable world;
                                environ := environ world; jinaai := jinaai';
                                openable := openable world;
                                store := store world |} in
                match QdrantUploader_init valid_vectors (openable world)
                        (store world) (args_collection args)
                        (args_vector_size args) "Cosine" with
                | Raise _ => (world, run0, Returns 1)
                | Ok (qdrant_uploader, store') =>
                    let world := {| files := files world;
                                    creatable := creatable world;
                                    environ := environ world;
                                    jinaai := jinaai world;
                                    openable := openable world;
                                    store := store' |} in
                    if args_skip_existing args
                       && collection_exists qdrant_uploader (store world) then
                      (world, run0, Returns 0)
                    else
                      let '(code, run) :=
                        Store.process_objects polygon_fill jinaai_embed
                          client_upsert image_processor embedding_generator
                          coco_data (args_batch_size args) in
                      (world, run, Returns code)
                end
            end
        end
    end.

End Main.

(** ** [examples/verify_installation.py]: the key shown masked *)

(** [api_key[:8] + "*" * (len(api_key) - 12) + api_key[-4:]], on the
    characters of the key. *)
Definition masked_key (key : list Ascii.ascii) : list Ascii.ascii :=
  take 8 key
  ++ replicate_py (len key - 12) "*"%char
  ++ drop (length key - 4) key.

(** [check_api_key]: its return value, and the masked key it prints when the
    variable is set. *)
Definition check_api_key (environ : gmap string string)
  : bool * option (list Ascii.ascii) :=
  let key := environ !! "JINA_API_KEY" in
  if truthy_str key then
    (true, masked_key <$> (String.list_ascii_of_string <$> key))
  else (false, None).

Section TestPipeline.

Variable jinaai_embed : nat -> list (Image RGB) -> result (list Vector).

(** Step 3 of [test_pipeline], once the generator is built: the vectors
    asked for the region [cropped], or [None] where the function returns
    [False] because of
    [len(embeddings) != 1 or len(embeddings[0]) != 768]. *)
Definition embedding_step (generator : EmbeddingGenerator) (calls : nat)
    (cropped : Image RGB) : option (list Vector) :=
  let embeddings := generate_embeddings jinaai_embed generator calls [cropped] in
  if negb (len embeddings =? 1)
     || negb (len (default [] (head embeddings)) =? 768)
  then None
  else Some embeddings.

End TestPipeline.

(** ** [examples/quick_start.py]: one annotation at a time *)

(** [next(img for img in coco_data['images'] if img['id'] == image_id)]. *)
Fixpoint next_image (coco_images : list ImageInfo) (image_id : Z)
  : result ImageInfo :=
  match coco_images with
  | [] => Raise StopIteration
  | img :: rest =>
      if img_id img =? image_id then Ok img
      else next_image rest image_id
  end.

Section QuickStart.

Variable polygon_fill : list (Q * Q) -> Z -> Z -> bool.
Variable jinaai_embed : nat -> list (Image RGB) -> result (list Vector).
Variable client_upsert : nat -> list UploadObject -> result unit.
Variable image_processor : ImageProcessor.
Variable embedding_generator : EmbeddingGenerator.

(** One turn of [for ann in annotations_to_process].  The example has no
    handler: an exception ends the loop with the run as it is. *)
Definition quick_start_step (coco_data : CocoData) (run : Run)
    (ann : Annotation) : Run * result unit :=
  match
    image_info ← next_image (images coco_data) (ann_image_id ann);
    category ← next_category (categories coco_data) (ann_category_id ann);
    cropped_image ← crop_object polygon_fill image_processor
                      (img_file_name image_info)
                      (ann_bbox ann) (ann_segmentation ann);
    Ok (image_info, category, cropped_image)
  with
  | Raise e => (run, Raise e)
  | Ok (_, _, None) => (run, Ok ())
  | Ok (image_info, category, Some cropped_image) =>
      let embeddings :=
        generate_embeddings jinaai_embed embedding_generator
          (embed_calls run) [cropped_image] in
      let run := {| embed_calls := S (embed_calls run);
                    upserts := upserts run |} in
      match list_get embeddings 0 with
      | Raise e => (run, Raise e)
      | Ok embedding =>
          Store.upload_batch client_upsert run
            [upload_object
               {| c_image := cropped_image; c_annotation := ann;
                  c_image_info := image_info; c_category := category |}
               embedding]
      end
  end.

Fixpoint quick_start_loop (coco_data : CocoData) (run : Run)
    (annotations_to_process : list Annotation) : Run * result unit :=
  match annotations_to_process with
  | [] => (run, Ok ())
  | ann :: rest =>
      match quick_start_step coco_data run ann with
      | (run', Ok _) => quick_start_loop coco_data run' rest
      | (run', Raise e) => (run', Raise e)
      end
  end.

(** Step 3 of the example: the loop over the first ten annotations. *)
Definition quick_start_process (coco_data : CocoData) : Run * result unit :=
  let batch_size := 10 in
  quick_start_loop coco_data run0
    (take (Z.to_nat batch_size) (annotations coco_data)).

End QuickStart.

(** ** A reference rasteriser and fixtures

    [even_odd_fill] samples pixel centres with the even-odd rule: pixel
    [(x, y)] is covered when a ray from its centre crosses the polygon's edges
    an odd number of times.  It is a sample rasteriser, not Pillow's, which
    also fills the boundary of a polygon; it instantiates the rasteriser
    parameter in concrete runs whose result does not depend on the fill of
    a polygon's boundary. *)

Definition Qltb (a b : Q) : bool := negb (Qle_bool b a).

Definition edge_crosses (cx cy : Q) (edge : (Q * Q) * (Q * Q)) : bool :=
  let '((x1, y1), (x2, y2)) := edge in
  negb (Bool.eqb (Qltb cy y1) (Qltb cy y2))
  && Qltb cx (x1 + (cy - y1) * (x2 - x1) / (y2 - y1))%Q.

Definition polygon_edges (points : list (Q * Q)) : list ((Q * Q) * (Q * Q)) :=
  zip points (drop 1 points ++ take 1 points).

Definition even_odd_fill (points : list (Q * Q)) (x y : Z) : bool :=
  let cx := (inject_Z x + (1 # 2))%Q in
  let cy := (inject_Z y + (1 # 2))%Q in
  Nat.odd (length (filter (fun e => edge_crosses cx cy e = true)
                          (polygon_edges points))).

(** The 300 x 200 white image of [tests/test_image_processor.py]. *)
Definition test_image : Image RGB := mkImage 300 200 (fun _ _ => (255, 255, 255)).

(** A 100 x 100 image whose pixel at [(x, y)] is [(x, y, 0)]. *)
Definition image_100 : Image RGB := mkImage 100 100 (fun x y => (x, y, 0)).

Definition test_processor (use_seg : bool) : ImageProcessor :=
  {| images_dir := {[ "test_image.jpg"%string := Decodable test_image;
                      "image_100.png"%string := Decodable image_100;
                      "broken.jpg"%string := Corrupt ]};
     use_segmentation := use_seg |}.

(** The integer [n] as a JSON number. *)
Definition num (n : Z) : Q := inject_Z n.

(** The axis-aligned rectangle with corners [(x0, y0)] and [(x1, y1)] as a COCO
    polygon [[x0, y0, x1, y0, x1, y1, x0, y1]]. *)
Definition rectangle (x0 y0 x1 y1 : Z) : list Q :=
  [num x0; num y0; num x1; num y0; num x1; num y1; num x0; num y1].

(** ** Vocabulary of the properties *)

(** The width and height [_crop_by_bbox] keeps after clamping. *)
Definition clamped_width (image : Image RGB) (x w : Q) : Z :=
  Z.min (int w) (width image - Z.max 0 (int x)).
Definition clamped_height (image : Image RGB) (y h : Q) : Z :=
  Z.min (int h) (height image - Z.max 0 (int y)).

(** The box [(x, y, w, h)] lies fully inside the image. *)
Definition box_inside (image : Image RGB) (x y w h : Q) : Prop :=
  (0 <= x)%Q /\ (0 <= y)%Q
  /\ (x + w <= inject_Z (width image))%Q
  /\ (y + h <= inject_Z (height image))%Q.

(** The all-zero mask [Image.new('L', (image.width, image.height), 0)]. *)
Definition blank_mask (image : Image RGB) : Image L :=
  mkImage (width image) (height image) (fun _ _ => 0).

(** The mask [_crop_by_segmentation] has drawn when it asks for its bounding
    box, and that box: the place in the source the region is cut from. *)
Definition segmentation_mask (polygon_fill : list (Q * Q) -> Z -> Z -> bool)
    (image : Image RGB) (segmentation : list (list Q)) : Image L :=
  draw_segmentation polygon_fill (blank_mask image) segmentation.
Definition region_box (polygon_fill : list (Q * Q) -> Z -> Z -> bool)
    (image : Image RGB) (segmentation : list (list Q)) : option Box :=
  getbbox (segmentation_mask polygon_fill image segmentation).

(** A polygon with fewer than three coordinate pairs. *)
Definition degenerate (polygon : list Q) : Prop :=
  (length (points_of polygon) < 3)%nat.

(** Pixel [(x, y)] lies in the half-open rectangle [x0 <= x < x1],
    [y0 <= y < y1]. *)
Definition in_rectangle (x0 y0 x1 y1 x y : Z) : bool :=
  (x0 <=? x) && (x <? x1) && (y0 <=? y) && (y <? y1).

(** The size of what an extraction returned. *)
Definition region_size (r : result (option (Image RGB)))
  : result (option (Z * Z)) :=
  fmap (M := result) (fmap (M := option) (@size RGB)) r.

(** The surviving pair of an annotation: its image and category records and
    its region, when both lookups resolve and the extraction returns a
    region. *)
Definition survivor (polygon_fill : list (Q * Q) -> Z -> Z -> bool)
    (image_processor : ImageProcessor) (coco_data : CocoData)
    (image_data : gmap Z ImageInfo) (ann : Annotation)
  : option CroppedObject :=
  match dict_get image_data (ann_image_id ann),
        next_category (categories coco_data) (ann_category_id ann) with
  | Ok image_info, Ok category =>
      match crop_object polygon_fill image_processor
              (img_file_name image_info) (ann_bbox ann) (ann_segmentation ann)
      with
      | Ok (Some im) =>
          Some {| c_image := im; c_annotation := ann;
                  c_image_info := image_info; c_category := category |}
      | _ => None
      end
  | _, _ => None
  end.

(** Every image of the directory that can be opened has a size. *)
Definition sized (file : File) : Prop :=
  match file with
  | Decodable im => 0 <= width im /\ 0 <= height im
  | Corrupt => True
  end.
Definition well_formed (self : ImageProcessor) : Prop :=
  map_Forall (fun _ file => sized file) (images_dir self).

(** An annotation whose ids both name a record. *)
Definition resolves (coco_data : CocoData) (ann : Annotation) : Prop :=
  ann_image_id ann ∈ map img_id (images coco_data)
  /\ ann_category_id ann ∈ map cat_id (categories coco_data).

(** The category list with ids [0], [1], ..., [n - 1], in this order. *)
Definition numbered_categories (n : nat) : list Category :=
  map (fun k => {| cat_id := Z.of_nat k; cat_name := "category" |}) (seq 0 n).

(** The run after the embedding request of a batch. *)
Definition after_embedding (run : Run) : Run :=
  {| embed_calls := S (embed_calls run); upserts := upserts run |}.

(** The run after the upsert of [records]. *)
Definition after_upsert (run : Run) (records : list UploadObject) : Run :=
  {| embed_calls := embed_calls run; upserts := upserts run ++ [records] |}.

(** The identifier and the payload of a record: all it stores but the
    vector. *)
Definition record_key (record : UploadObject) : Z * Payload :=
  (u_id record, u_payload record).

(** The identifier and the payload stored for a surviving pair. *)
Definition stored_key (obj : CroppedObject) : Z * Payload :=
  record_key (upload_object obj []).

(** The embedding service answers at least one vector per image whenever it
    answers. *)
Definition answers_every_image
    (jinaai_embed : nat -> list (Image RGB) -> result (list Vector)) : Prop :=
  forall calls images results,
    jinaai_embed calls images = Ok results ->
    (length images <= length results)%nat.

(** The image table of the whole file, and the surviving pairs of a list of
    its annotations. *)
Definition image_table (coco_data : CocoData) : gmap Z ImageInfo :=
  image_data_of (images coco_data) (map ann_image_id (annotations coco_data)).

Definition survivors (polygon_fill : list (Q * Q) -> Z -> Z -> bool)
    (image_processor : ImageProcessor) (coco_data : CocoData)
    (anns : list Annotation) : list CroppedObject :=
  omap (survivor polygon_fill image_processor coco_data (image_table coco_data))
       anns.

(** The batches of the loop for the start indices [starts]. *)
Definition batches {A : Type} (l : list A) (batch_size : Z) (starts : list Z)
  : list (list A) :=
  map (fun i => slice l i batch_size) starts.

(** Every image of the directory that can be opened has at least one
    pixel. *)
Definition nonempty (file : File) : Prop :=
  match file with
  | Decodable im => 1 <= width im /\ 1 <= height im
  | Corrupt => True
  end.
Definition nonempty_images (self : ImageProcessor) : Prop :=
  map_Forall (fun _ file => nonempty file) (images_dir self).

(** The exception [int] raises on the first number of a list that is not
    finite. *)
Fixpoint first_nonfinite (numbers : list number) : option exception :=
  match numbers with
  | [] => None
  | Finite _ :: rest => first_nonfinite rest
  | Infinity :: _ => Some OverflowError
  | NaN :: _ => Some (Exn ValueError)
  end.

(** ** Fixtures of the batch loop *)

(** An embedding service that answers, per image, the vector
    [[width, height]]. *)
Definition float_of_Z (z : Z) : float := PrimFloat.of_uint63 (Uint63.of_Z z).
Definition size_embed (calls : nat) (images : list (Image RGB))
  : result (list Vector) :=
  Ok (map (fun im => [float_of_Z (width im); float_of_Z (height im)]) images).

(** One that answers one vector too many, one that answers one too few, and
    one whose call raises. *)
Definition long_embed (calls : nat) (images : list (Image RGB))
  : result (list Vector) :=
  Ok (map (fun im => [float_of_Z (width im); float_of_Z (height im)]) images
      ++ [[0%float; 0%float]]).
Definition short_embed (calls : nat) (images : list (Image RGB))
  : result (list Vector) :=
  Ok (map (fun im => [float_of_Z (width im); float_of_Z (height im)])
          (drop 1 images)).
Definition failing_embed (calls : nat) (images : list (Image RGB))
  : result (list Vector) :=
  Raise CollaboratorError.

Definition test_generator : EmbeddingGenerator :=
  {| model_name := "jina-embeddings-v2-base-en"; vector_size := 2 |}.

Definition person : Category := {| cat_id := 1; cat_name := "person" |}.
Definition car : Category := {| cat_id := 2; cat_name := "car" |}.
Definition truck : Category := {| cat_id := 3; cat_name := "truck" |}.

Definition image_1 : ImageInfo :=
  {| img_id := 1; img_file_name := "image_100.png";
     img_width := 100; img_height := 100 |}.
Definition image_2 : ImageInfo :=
  {| img_id := 2; img_file_name := "missing.jpg";
     img_width := 800; img_height := 600 |}.

Definition annotation (id image_id category_id : Z) (bbox : list Z)
  : Annotation :=
  {| ann_id := id; ann_image_id := image_id; ann_category_id := category_id;
     ann_bbox := Some (map num bbox); ann_segmentation := None;
     ann_area := None; ann_iscrowd := Some 0 |}.

(** Three annotations; the second one names an image whose file is not in
    the images directory. *)
Definition sample_coco : CocoData :=
  {| images := [image_1; image_2];
     annotations := [annotation 11 1 1 [10; 10; 50; 50];
                     annotation 12 2 2 [0; 0; 20; 20];
                     annotation 13 1 2 [95; 95; 50; 50]];
     categories := [person; car] |}.

(** The same file with an annotation added that names image 99. *)
Definition dangling_coco : CocoData :=
  {| images := [image_1; image_2];
     annotations := [annotation 11 1 1 [10; 10; 50; 50];
                     annotation 14 99 1 [0; 0; 20; 20];
                     annotation 13 1 2 [95; 95; 50; 50]];
     categories := [person; car] |}.

(** ** The rasteriser on a rectangle

    [ImageDraw.polygon] fills an axis-aligned rectangle with whole corners
    together with its boundary: it covers every pixel [(x, y)] with
    [x0 <= x <= x1] and [y0 <= y <= y1], one column and one row more than
    the half-open box.  [inclusive_fill] covers the closed bounding box of
    the vertices, truncated to integers; it stands for Pillow's rasteriser
    on such rectangles only. *)

Definition inclusive_fill (points : list (Q * Q)) (x y : Z) : bool :=
  match map (fun p => int (fst p)) points, map (fun p => int (snd p)) points with
  | px :: xs, py :: ys =>
      (foldr Z.min px xs <=? x) && (x <=? foldr Z.max px xs)
      && (foldr Z.min py ys <=? y) && (y <=? foldr Z.max py ys)
  | _, _ => false
  end.

(** ** Fixtures of a run from the command line *)

Definition sample_document : Document :=
  {| doc_images := Some (Records (images sample_coco));
     doc_annotations := Some (Records (annotations sample_coco));
     doc_categories := Some (Records (categories sample_coco)) |}.

(** A file system with the annotation file, the images directory, and a file
    that is not JSON. *)
Definition test_files : gmap string Node :=
  <["annotations.json" := RegularFile (Json sample_document)]>
    (<["images" := Directory (images_dir (test_processor false))]>
       (<["notes.txt" := RegularFile NotJson]> ∅)).

(** A store that accepts a collection of a positive vector size, and one
    that accepts every upsert. *)
Definition positive_size (size : Z) (dist : string) : bool := 0 <? size.
Definition accepting_store (n : nat) (objects : list UploadObject)
  : result unit := Ok ().

(** A machine with the package installed, a key in the environment, and a
    store without collections. *)
Definition test_world : World :=
  {| files := test_files;
     creatable := fun _ => true;
     environ := <["JINA_API_KEY" := "jina_0123456789abcdef"]> ∅;
     jinaai := {| installed := true; api_key := None |};
     openable := true;
     store := ∅ |}.

(** The same machine without the package. *)
Definition bare_world : World :=
  {| files := test_files;
     creatable := fun _ => true;
     environ := <["JINA_API_KEY" := "jina_0123456789abcdef"]> ∅;
     jinaai := {| installed := false; api_key := None |};
     openable := true;
     store := ∅ |}.

Definition test_args (skip : bool) : Args :=
  {| args_annotations := "annotations.json";
     args_images := "images";
     args_output := "./qdrant_db";
     args_collection := "coco_objects";
     args_batch_size := 2;
     args_embedding_model := "jina-embeddings-v2-base-en";
     args_vector_size := 2;
     args_use_segmentation := false;
     args_skip_existing := skip |}.

(** ** Proof automation *)

(** The cases of [parse] on an object that lacks a section, or has a scalar
    for one. *)
Ltac settle_document :=
  split;
    [split; [discriminate | intros H; exfalso; by eapply H] |];
  split;
    [split;
       [first [discriminate
              | intros _; right; eexists _, _, _, _;
                repeat (split; [reflexivity |]); auto]
       | first [done
               | intros [[=] | (? & ? & ? & ? & [= <-] & ? & ? & ? & _)];
                 cbn in *; congruence]] |];
  split;
    [split;
       [first [discriminate
              | intros _; right; eexists; split; [reflexivity |];
                cbn; auto]
       | first [done
               | intros [[=] | (? & [= <-]
                                & [? | [? | [? | (? & ? & ? & ? & _)]]])];
                 cbn in *; congruence]] |];
  intros e [= <-]; auto.

(** ** Truncation *)

Lemma int_nonneg_floor (v : Q) : (0 <= v)%Q -> int v = Qfloor v.
Proof.
  destruct v as [n d]. unfold Qle, int, Qfloor. simpl. intros Hn.
  apply Z.quot_div_nonneg; lia.
Qed.

Lemma int_nonneg (v : Q) : (0 <= v)%Q -> 0 <= int v.
Proof.
  intros Hv. rewrite (int_nonneg_floor v Hv).
  change 0 with (Qfloor 0). by apply Qfloor_resp_le.
Qed.

Lemma int_pos_nonneg (v : Q) : 1 <= int v -> (0 <= v)%Q.
Proof.
  destruct v as [n d]. unfold Qle, int. simpl. intros Hq.
  destruct (Z_lt_le_dec n 0) as [Hneg | Hpos]; [| lia].
  assert (Z.quot n (Z.pos d) <= 0); [| lia].
  rewrite <- (Z.opp_involutive n), Z.quot_opp_l by lia.
  assert (0 <= Z.quot (- n) (Z.pos d)); [apply Z.quot_pos; lia | lia].
Qed.

Lemma int_num (n : Z) : int (num n) = n.
Proof. unfold int, num. simpl. apply Z.quot_1_r. Qed.

Lemma int_Qeq_num (v : Q) (n : Z) : (v == num n)%Q -> int v = n.
Proof.
  destruct v as [a d]. unfold Qeq, int, num. simpl. intros Heq.
  rewrite Z.mul_1_r in Heq. subst a. apply Z.quot_mul. lia.
Qed.

Lemma int_add_le (x w : Q) (W : Z) :
  (0 <= x)%Q -> (0 <= w)%Q -> (x + w <= inject_Z W)%Q -> int x + int w <= W.
Proof.
  intros Hx Hw Hsum.
  rewrite (int_nonneg_floor x Hx), (int_nonneg_floor w Hw).
  rewrite Zle_Qle, inject_Z_plus.
  eapply Qle_trans; [| exact Hsum].
  apply Qplus_le_compat; apply Qfloor_le.
Qed.

(** ** Cropping *)

Lemma crop_ok {P : Type} `{Mode P} (im : Image P) (l u r b : Z) :
  l <= r -> u <= b ->
  exists region,
    crop im (l, u, r, b) = Ok region
    /\ size region = (r - l, b - u)
    /\ forall i j, inside im (l + i) (u + j) = true ->
                   pixels region i j = pixels im (l + i) (u + j).
Proof.
  intros Hlr Hub. unfold crop.
  replace ((r <? l) || (b <? u)) with false by lia.
  eexists. split; [reflexivity |]. split; [reflexivity |].
  intros i j Hin. simpl. by rewrite Hin.
Qed.

Lemma inside_spec {P : Type} (im : Image P) (x y : Z) :
  inside im x y = true <-> 0 <= x < width im /\ 0 <= y < height im.
Proof. unfold inside. lia. Qed.

(** On a degenerate box [_crop_by_bbox] takes its fallback branch. *)
Lemma crop_by_bbox_fallback (image : Image RGB) (x y w h : Q) :
  clamped_width image x w < 1 \/ clamped_height image y h < 1 ->
  _crop_by_bbox image [x; y; w; h]
  = crop image (0, 0, Z.min 10 (width image), Z.min 10 (height image)).
Proof.
  unfold clamped_width, clamped_height, _crop_by_bbox. intros Hdeg.
  match goal with |- (if ?c then _ else _) = _ => replace c with true by lia end.
  reflexivity.
Qed.

(** On any other box it crops at the clamped box. *)
Lemma crop_by_bbox_clamped (image : Image RGB) (x y w h : Q) :
  1 <= clamped_width image x w -> 1 <= clamped_height image y h ->
  _crop_by_bbox image [x; y; w; h]
  = crop image (Z.max 0 (int x), Z.max 0 (int y),
                Z.max 0 (int x) + clamped_width image x w,
                Z.max 0 (int y) + clamped_height image y h).
Proof.
  unfold clamped_width, clamped_height, _crop_by_bbox. intros Hw Hh.
  match goal with |- (if ?c then _ else _) = _ => replace c with false by lia end.
  reflexivity.
Qed.

(** When the segmentation path is not taken and the image loads,
    [crop_object] is decided by the bounding box alone. *)
Lemma crop_object_bbox_path (polygon_fill : list (Q * Q) -> Z -> Z -> bool)
    (self : ImageProcessor) (image_filename : string) (image : Image RGB)
    (bbox : option (list Q)) (segmentation : option (list (list Q))) :
  load_image self image_filename = Some image ->
  use_segmentation self = false \/ segmentation = None \/ segmentation = Some [] ->
  crop_object polygon_fill self image_filename bbox segmentation
  = match bbox with
    | Some b =>
        if decide (length b = 4%nat) then Some <$> _crop_by_bbox image b
        else Ok None
    | None => Ok None
    end.
Proof.
  intros Hload Hseg. unfold crop_object. rewrite Hload.
  replace (use_segmentation self && truthy segmentation
           && (0 <? len (default [] segmentation))) with false;
    [| destruct Hseg as [-> | [-> | ->]]; simpl;
       [reflexivity | by rewrite andb_false_r | by rewrite andb_false_r]].
  destruct bbox as [b |]; [| reflexivity].
  destruct b as [| b0 [| b1 [| b2 [| b3 [| b4 b]]]]]; try reflexivity.
  assert ((len (b0 :: b1 :: b2 :: b3 :: b4 :: b) =? 4) = false) as Hlen.
  { apply Z.eqb_neq. unfold len. rewrite !length_cons. lia. }
  simpl default. simpl truthy. rewrite Hlen.
  destruct (decide _) as [Hfour | _]; [| reflexivity].
  rewrite !length_cons in Hfour. lia.
Qed.

(** ** The segmentation path *)

(** [points_of] is the index loop of the source: its [k]-th point is
    [(polygon[2k], polygon[2k + 1])], present when [2k + 1 < len(polygon)]. *)
Lemma points_of_lookup (polygon : list Q) (k : nat) :
  points_of polygon !! k
  = match polygon !! (2 * k)%nat, polygon !! (2 * k + 1)%nat with
    | Some px, Some py => Some (px, py)
    | _, _ => None
    end.
Proof.
  revert polygon. induction k as [| k IH]; intros polygon.
  - by destruct polygon as [| px [| py rest]].
  - destruct polygon as [| px [| py rest]]; [reflexivity | reflexivity |].
    cbn [points_of]. rewrite lookup_cons_ne_0 by lia. cbn [Nat.pred].
    rewrite IH.
    replace (2 * S k)%nat with (S (S (2 * k))) by lia.
    replace (S (S (2 * k)) + 1)%nat with (S (S (2 * k + 1))) by lia.
    reflexivity.
Qed.

Lemma points_of_length (polygon : list Q) :
  length (points_of polygon) = (length polygon / 2)%nat.
Proof.
  assert (forall n (l : list Q), (length l <= n)%nat ->
            length (points_of l) = (length l / 2)%nat) as Hall.
  { induction n as [| n IH]; intros l Hl.
    - destruct l; [reflexivity | simpl in Hl; lia].
    - destruct l as [| px [| py rest]]; [reflexivity | reflexivity |].
      cbn [points_of length] in Hl |- *. rewrite IH by lia.
      replace (S (S (length rest))) with (1 * 2 + length rest)%nat by lia.
      rewrite Nat.div_add_l by lia. lia. }
  by apply (Hall (length polygon)).
Qed.

Lemma draw_segmentation_app (polygon_fill : list (Q * Q) -> Z -> Z -> bool)
    (mask : Image L) (pre post : list (list Q)) :
  draw_segmentation polygon_fill mask (pre ++ post)
  = draw_segmentation polygon_fill
      (draw_segmentation polygon_fill mask pre) post.
Proof. unfold draw_segmentation. apply foldl_app. Qed.

Lemma draw_segmentation_cons_degenerate
    (polygon_fill : list (Q * Q) -> Z -> Z -> bool)
    (mask : Image L) (polygon : list Q) (rest : list (list Q)) :
  degenerate polygon ->
  draw_segmentation polygon_fill mask (polygon :: rest)
  = draw_segmentation polygon_fill mask rest.
Proof.
  unfold degenerate, draw_segmentation, len. intros Hdeg. simpl.
  replace (3 <=? Z.of_nat (length (points_of polygon))) with false by lia.
  reflexivity.
Qed.

Lemma draw_segmentation_all_degenerate
    (polygon_fill : list (Q * Q) -> Z -> Z -> bool)
    (mask : Image L) (segmentation : list (list Q)) :
  Forall degenerate segmentation ->
  draw_segmentation polygon_fill mask segmentation = mask.
Proof.
  induction 1 as [| polygon rest Hdeg _ IH]; [reflexivity |].
  by rewrite draw_segmentation_cons_degenerate.
Qed.

Lemma existsb_false {A : Type} (f : A -> bool) (l : list A) :
  (forall a, f a = false) -> existsb f l = false.
Proof. intros Hf. induction l as [| a l IH]; simpl; [done | by rewrite Hf]. Qed.

Lemma filter_none {A : Type} (P : A -> Prop) `{forall a, Decision (P a)}
    (l : list A) :
  (forall a, a ∈ l -> ~ P a) -> filter P l = [].
Proof.
  induction l as [| a l IH]; intros Hl; [reflexivity |].
  rewrite filter_cons_False by (apply Hl; left).
  apply IH. intros b Hb. apply Hl. by right.
Qed.

Lemma getbbox_blank (image : Image RGB) : getbbox (blank_mask image) = None.
Proof.
  unfold getbbox.
  rewrite (filter_none (fun x => col_set (blank_mask image) x = true)); [done |].
  intros x _. unfold col_set. by rewrite existsb_false.
Qed.

Lemma new_blank_mask (image : Image RGB) :
  0 <= width image -> 0 <= height image ->
  new (width image, height image) (0 : L) = Ok (blank_mask image).
Proof.
  intros HW HH. unfold new.
  by replace ((width image <? 0) || (height image <? 0)) with false by lia.
Qed.

(** With an empty mask [_crop_by_segmentation] takes its fallback branch. *)
Lemma crop_by_segmentation_fallback
    (polygon_fill : list (Q * Q) -> Z -> Z -> bool)
    (image : Image RGB) (segmentation : list (list Q)) :
  0 <= width image -> 0 <= height image ->
  region_box polygon_fill image segmentation = None ->
  _crop_by_segmentation polygon_fill image segmentation
  = crop image (0, 0, Z.min 10 (width image), Z.min 10 (height image)).
Proof.
  intros HW HH Hbox. unfold _crop_by_segmentation.
  rewrite new_blank_mask by assumption. simpl.
  unfold region_box, segmentation_mask in Hbox. by rewrite Hbox.
Qed.

(** *** The compositing loops *)

Section Composite.

Variables (cropped_image : Image RGBA) (cropped_mask : Image L).

Lemma composite_pixel_other (x : Z) (result : Image RGBA) (y x' y' : Z) :
  x' <> x \/ y' <> y \/ pixels cropped_mask x' y' <= 0 ->
  pixels (composite_pixel cropped_image cropped_mask x result y) x' y'
  = pixels result x' y'.
Proof.
  intros Hother. unfold composite_pixel, getpixel, putpixel. cbn [fst snd].
  destruct (0 <? pixels cropped_mask x y) eqn:Hm; [| reflexivity].
  cbn [pixels].
  destruct (Z.eqb_spec x' x) as [-> | Hx]; [| reflexivity].
  destruct (Z.eqb_spec y' y) as [-> | Hy]; [| reflexivity].
  lia.
Qed.

Lemma composite_pixel_same (x : Z) (result : Image RGBA) (y : Z) :
  0 < pixels cropped_mask x y ->
  pixels (composite_pixel cropped_image cropped_mask x result y) x y
  = pixels cropped_image x y.
Proof.
  intros Hset. unfold composite_pixel, getpixel, putpixel. cbn [fst snd].
  replace (0 <? pixels cropped_mask x y) with true by lia. cbn [pixels].
  by rewrite !Z.eqb_refl.
Qed.

Lemma composite_row_other (x : Z) (ys : list Z) (result : Image RGBA)
    (x' y' : Z) :
  x' <> x \/ y' ∉ ys \/ pixels cropped_mask x' y' <= 0 ->
  pixels (foldl (composite_pixel cropped_image cropped_mask x) result ys) x' y'
  = pixels result x' y'.
Proof.
  revert result. induction ys as [| y ys IH]; intros result Hother;
    [reflexivity |].
  cbn [foldl]. rewrite IH, composite_pixel_other; [reflexivity | |];
    rewrite not_elem_of_cons in Hother; tauto.
Qed.

Lemma composite_row_same (x : Z) (ys : list Z) (result : Image RGBA) (y' : Z) :
  y' ∈ ys -> 0 < pixels cropped_mask x y' ->
  pixels (foldl (composite_pixel cropped_image cropped_mask x) result ys) x y'
  = pixels cropped_image x y'.
Proof.
  revert result. induction ys as [| y ys IH]; intros result Hin Hset.
  - by apply elem_of_nil in Hin.
  - cbn [foldl]. destruct (decide (y' ∈ ys)) as [Hys | Hys]; [by apply IH |].
    apply elem_of_cons in Hin as [-> | Hin]; [| done].
    rewrite composite_row_other by tauto. by apply composite_pixel_same.
Qed.

Lemma composite_rows_other (xs ys : list Z) (result : Image RGBA) (x' y' : Z) :
  x' ∉ xs \/ y' ∉ ys \/ pixels cropped_mask x' y' <= 0 ->
  pixels (foldl (fun result x =>
                   foldl (composite_pixel cropped_image cropped_mask x)
                         result ys)
                result xs) x' y'
  = pixels result x' y'.
Proof.
  revert result. induction xs as [| x xs IH]; intros result Hother;
    [reflexivity |].
  cbn [foldl]. rewrite IH, composite_row_other; [reflexivity | |];
    rewrite not_elem_of_cons in Hother; tauto.
Qed.

Lemma composite_rows_same (xs ys : list Z) (result : Image RGBA) (x' y' : Z) :
  x' ∈ xs -> y' ∈ ys -> 0 < pixels cropped_mask x' y' ->
  pixels (foldl (fun result x =>
                   foldl (composite_pixel cropped_image cropped_mask x)
                         result ys)
                result xs) x' y'
  = pixels cropped_image x' y'.
Proof.
  revert result. induction xs as [| x xs IH]; intros result Hx Hy Hset.
  - by apply elem_of_nil in Hx.
  - cbn [foldl]. destruct (decide (x' ∈ xs)) as [Hxs | Hxs]; [by apply IH |].
    apply elem_of_cons in Hx as [-> | Hx]; [| done].
    rewrite composite_rows_other by tauto. by apply composite_row_same.
Qed.

Lemma composite_size (result : Image RGBA) :
  size (composite cropped_image cropped_mask result) = size result.
Proof.
  unfold composite.
  generalize (range (width cropped_image)) as xs.
  generalize (range (height cropped_image)) as ys.
  intros ys xs. revert result.
  induction xs as [| x xs IH]; intros result; [reflexivity |].
  cbn [foldl]. rewrite IH. clear IH. revert result.
  induction ys as [| y ys IH]; intros result; [reflexivity |].
  cbn [foldl]. rewrite IH. unfold composite_pixel. by destruct (0 <? _).
Qed.

(** What the two loops leave in [result]: inside the cropped image, a pixel
    under a set mask pixel is the image's. *)
Lemma composite_pixels_set (result : Image RGBA) (x y : Z) :
  inside cropped_image x y = true -> 0 < pixels cropped_mask x y ->
  pixels (composite cropped_image cropped_mask result) x y
  = pixels cropped_image x y.
Proof.
  intros Hin Hset. apply inside_spec in Hin.
  unfold composite, range.
  apply composite_rows_same; [apply elem_of_seqZ; lia.. | exact Hset].
Qed.

(** Every other pixel is untouched. *)
Lemma composite_pixels_unset (result : Image RGBA) (x y : Z) :
  inside cropped_image x y = false \/ pixels cropped_mask x y <= 0 ->
  pixels (composite cropped_image cropped_mask result) x y
  = pixels result x y.
Proof.
  intros Hother. unfold composite, range. apply composite_rows_other.
  rewrite !elem_of_seqZ. destruct Hother as [Hout | Hunset]; [| tauto].
  assert (~ (0 <= x < width cropped_image /\ 0 <= y < height cropped_image))
    by (rewrite <- inside_spec; congruence).
  lia.
Qed.

End Composite.

(** *** The bounding box of a mask *)

Lemma filter_all {A : Type} (P : A -> Prop) `{forall a, Decision (P a)}
    (l : list A) :
  (forall a, a ∈ l -> P a) -> filter P l = l.
Proof.
  induction l as [| a l IH]; intros Hl; [reflexivity |].
  rewrite filter_cons_True by (apply Hl; left).
  f_equal. apply IH. intros b Hb. apply Hl. by right.
Qed.

Lemma filter_seqZ_interval (P : Z -> Prop) `{forall x, Decision (P x)}
    (a b n : Z) :
  0 <= a -> a <= b -> b <= n ->
  (forall x, 0 <= x < n -> (P x <-> a <= x < b)) ->
  filter P (seqZ 0 n) = seqZ a (b - a).
Proof.
  intros Ha Hab Hbn HP.
  replace n with (a + ((b - a) + (n - b))) at 1 by lia.
  rewrite !seqZ_app by lia. rewrite !filter_app.
  rewrite (filter_none P (seqZ 0 a)), (filter_all P (seqZ (0 + a) (b - a))),
    (filter_none P (seqZ _ (n - b))).
  - by rewrite app_nil_r.
  - intros x Hx. apply elem_of_seqZ in Hx. rewrite HP; lia.
  - intros x Hx. apply elem_of_seqZ in Hx. rewrite HP; lia.
  - intros x Hx. apply elem_of_seqZ in Hx. rewrite HP; lia.
Qed.

Lemma seqZ_head_last (a n : Z) :
  0 < n ->
  exists rest, seqZ a n = a :: rest /\ List.last rest a = a + n - 1.
Proof.
  intros Hn. exists (seqZ (Z.succ a) (Z.pred n)).
  split; [by apply seqZ_cons |].
  destruct (decide (n = 1)) as [-> | Hn1].
  - rewrite seqZ_nil by lia. simpl. lia.
  - replace (Z.pred n) with (Z.of_nat (S (Z.to_nat (n - 2)))) by lia.
    rewrite seqZ_S, last_last. lia.
Qed.

Lemma filter_seqZ_head_le (P : Z -> Prop) `{forall x, Decision (P x)}
    (k : nat) (a x0 : Z) (xs : list Z) :
  filter P (seqZ a (Z.of_nat k)) = x0 :: xs ->
  a <= x0 < a + Z.of_nat k /\ Forall (fun x => x0 < x < a + Z.of_nat k) xs.
Proof.
  revert a. induction k as [| k IH]; intros a Hfilter.
  - by rewrite seqZ_nil in Hfilter by lia.
  - rewrite seqZ_cons in Hfilter by lia.
    replace (Z.pred (Z.of_nat (S k))) with (Z.of_nat k) in Hfilter by lia.
    destruct (decide (P a)) as [HP | HP].
    + rewrite filter_cons_True in Hfilter by done.
      injection Hfilter as <- <-. split; [lia |].
      apply Forall_forall. intros x Hx.
      apply list_elem_of_filter in Hx as [_ Hx]. apply elem_of_seqZ in Hx. lia.
    + rewrite filter_cons_False in Hfilter by done.
      apply IH in Hfilter as [Hx0 Hxs]. split; [lia |].
      eapply Forall_impl; [exact Hxs |]. intros x Hx. simpl in Hx. lia.
Qed.

Lemma last_bounds (x0 hi : Z) (xs : list Z) :
  x0 < hi -> Forall (fun x => x0 < x < hi) xs ->
  x0 <= List.last xs x0 < hi.
Proof.
  intros Hx0 Hxs. destruct xs as [| x xs _] using rev_ind; [simpl; lia |].
  rewrite last_last. apply Forall_app in Hxs as [_ Hx].
  rewrite Forall_singleton in Hx. lia.
Qed.

(** The bounding box of a mask is a non-empty box of the canvas. *)
Lemma getbbox_on_canvas (mask : Image L) (lft upr rgt lwr : Z) :
  getbbox mask = Some (lft, upr, rgt, lwr) ->
  0 <= lft < rgt /\ rgt <= width mask /\ 0 <= upr < lwr /\ lwr <= height mask.
Proof.
  unfold getbbox, range.
  destruct (filter _ (seqZ 0 (width mask))) as [| x0 xs] eqn:Hxs; [done |].
  destruct (filter _ (seqZ 0 (height mask))) as [| y0 ys] eqn:Hys; [done |].
  intros [= <- <- <- <-].
  assert (0 <= width mask) as HW.
  { destruct (Z_lt_le_dec (width mask) 0); [| done].
    by rewrite seqZ_nil in Hxs by lia. }
  assert (0 <= height mask) as HH.
  { destruct (Z_lt_le_dec (height mask) 0); [| done].
    by rewrite seqZ_nil in Hys by lia. }
  rewrite <- (Z2Nat.id (width mask)) in Hxs by done.
  rewrite <- (Z2Nat.id (height mask)) in Hys by done.
  apply filter_seqZ_head_le in Hxs as [Hx0 Hxs].
  apply filter_seqZ_head_le in Hys as [Hy0 Hys].
  pose proof (last_bounds _ _ _ (proj2 Hx0) Hxs).
  pose proof (last_bounds _ _ _ (proj2 Hy0) Hys).
  lia.
Qed.

(** A mask that is set exactly on a rectangle of the canvas has that
    rectangle as its bounding box. *)
Lemma getbbox_rectangle (mask : Image L) (x0 y0 x1 y1 : Z) :
  0 <= x0 < x1 -> x1 <= width mask -> 0 <= y0 < y1 -> y1 <= height mask ->
  (forall x y, inside mask x y = true ->
               negb (pixels mask x y =? 0) = in_rectangle x0 y0 x1 y1 x y) ->
  getbbox mask = Some (x0, y0, x1, y1).
Proof.
  intros Hx Hx1 Hy Hy1 Hmask. unfold getbbox, range.
  rewrite (filter_seqZ_interval _ x0 x1), (filter_seqZ_interval _ y0 y1);
    try lia.
  - destruct (seqZ_head_last x0 (x1 - x0)) as (xs & -> & Hxs); [lia |].
    destruct (seqZ_head_last y0 (y1 - y0)) as (ys & -> & Hys); [lia |].
    rewrite Hxs, Hys. repeat f_equal; lia.
  - intros y Hyr. unfold row_set, range. rewrite existsb_exists. split.
    + intros (x & Hin & Hset). apply list_elem_of_In, elem_of_seqZ in Hin.
      rewrite Hmask in Hset by (apply inside_spec; lia).
      unfold in_rectangle in Hset. lia.
    + intros Hin. exists x0. split.
      * apply list_elem_of_In, elem_of_seqZ. lia.
      * rewrite Hmask by (apply inside_spec; lia). unfold in_rectangle. lia.
  - intros x Hxr. unfold col_set, range. rewrite existsb_exists. split.
    + intros (y & Hin & Hset). apply list_elem_of_In, elem_of_seqZ in Hin.
      rewrite Hmask in Hset by (apply inside_spec; lia).
      unfold in_rectangle in Hset. lia.
    + intros Hin. exists y0. split.
      * apply list_elem_of_In, elem_of_seqZ. lia.
      * rewrite Hmask by (apply inside_spec; lia). unfold in_rectangle. lia.
Qed.

Lemma points_of_rectangle (x0 y0 x1 y1 : Z) :
  points_of (rectangle x0 y0 x1 y1)
  = [(num x0, num y0); (num x1, num y0); (num x1, num y1); (num x0, num y1)].
Proof. reflexivity. Qed.

(** The mask drawn for a single polygon of at least three points. *)
Lemma segmentation_mask_single
    (polygon_fill : list (Q * Q) -> Z -> Z -> bool) (image : Image RGB)
    (polygon : list Q) :
  (3 <= length (points_of polygon))%nat ->
  segmentation_mask polygon_fill image [polygon]
  = draw_polygon polygon_fill (blank_mask image) (points_of polygon) 255.
Proof.
  intros Hlen. unfold segmentation_mask, draw_segmentation, len. cbn [foldl].
  by replace (3 <=? Z.of_nat (length (points_of polygon))) with true by lia.
Qed.

(** A pixel-by-pixel check over the canvas decides an agreement on the
    canvas. *)
Lemma agree_on_canvas (image : Image RGB) (f g : Z -> Z -> bool) :
  forallb (fun x => forallb (fun y => Bool.eqb (f x y) (g x y))
                            (range (height image)))
          (range (width image)) = true ->
  forall x y, inside image x y = true -> f x y = g x y.
Proof.
  intros Hall x y Hin. apply inside_spec in Hin.
  rewrite forallb_forall in Hall.
  specialize (Hall x). rewrite forallb_forall in Hall.
  apply Bool.eqb_prop, Hall; apply list_elem_of_In, elem_of_seqZ; lia.
Qed.

(** ** The embedding request *)

Lemma map_const_seq {A : Type} (v : A) (start n : nat) :
  map (fun _ => v) (seq start n) = replicate n v.
Proof.
  revert start. induction n as [| n IH]; intros start; [reflexivity |].
  simpl. by rewrite IH.
Qed.

Lemma generate_embeddings_answer
    (jinaai_embed : nat -> list (Image RGB) -> result (list Vector))
    (self : EmbeddingGenerator) (calls : nat) (images : list (Image RGB))
    (results : list Vector) :
  images <> [] -> jinaai_embed calls images = Ok results ->
  generate_embeddings jinaai_embed self calls images = results.
Proof.
  intros Hne Hans. unfold generate_embeddings.
  destruct images; [done |]. by rewrite Hans.
Qed.

Lemma generate_embeddings_raise
    (jinaai_embed : nat -> list (Image RGB) -> result (list Vector))
    (self : EmbeddingGenerator) (calls : nat) (images : list (Image RGB))
    (e : exn) :
  images <> [] -> jinaai_embed calls images = Raise e ->
  generate_embeddings jinaai_embed self calls images
  = replicate (length images) (replicate_py (vector_size self) 0%float).
Proof.
  intros Hne Hraise. unfold generate_embeddings.
  destruct images as [| im images]; [done |].
  rewrite Hraise. apply map_const_seq.
Qed.

(** ** The loops of a batch *)

Section Batch.

Variable polygon_fill : list (Q * Q) -> Z -> Z -> bool.
Variable jinaai_embed : nat -> list (Image RGB) -> result (list Vector).
Variable image_processor : ImageProcessor.
Variable embedding_generator : EmbeddingGenerator.
Variable coco_data : CocoData.

(** One turn of the cropping loop appends the annotation's surviving pair,
    if it has one. *)
Lemma crop_step_survivor (image_data : gmap Z ImageInfo)
    (acc acc' : list CroppedObject) (ann : Annotation) :
  crop_step polygon_fill image_processor coco_data image_data acc ann = Ok acc' ->
  acc' = acc ++ option_list
                  (survivor polygon_fill image_processor coco_data image_data ann).
Proof.
  unfold crop_step, survivor.
  destruct (dict_get image_data (ann_image_id ann)) as [image_info | e];
    cbn [mbind result_bind]; [| done].
  destruct (next_category (categories coco_data) (ann_category_id ann))
    as [category | e]; cbn [mbind result_bind]; [| done].
  destruct (crop_object polygon_fill image_processor
              (img_file_name image_info) (ann_bbox ann)
              (ann_segmentation ann)) as [[im |] | e];
    cbn [mbind result_bind]; [| | done]; intros [= <-].
  - reflexivity.
  - by rewrite app_nil_r.
Qed.

(** The cropping loop appends the surviving pairs in the order of the
    annotations. *)
Lemma crop_loop_survivors (image_data : gmap Z ImageInfo)
    (batch_annotations : list Annotation)
    (acc cropped_objects : list CroppedObject) :
  foldl_result (crop_step polygon_fill image_processor coco_data image_data)
    acc batch_annotations = Ok cropped_objects ->
  cropped_objects
  = acc ++ omap (survivor polygon_fill image_processor coco_data image_data)
             batch_annotations.
Proof.
  revert acc. induction batch_annotations as [| ann rest IH]; intros acc Hloop.
  - simpl in Hloop. injection Hloop as <-. by rewrite app_nil_r.
  - cbn [foldl_result] in Hloop.
    destruct (crop_step polygon_fill image_processor coco_data image_data
                acc ann) as [acc' |] eqn:Hstep;
      cbn [mbind result_bind] in Hloop; [| done].
    apply crop_step_survivor in Hstep as ->. apply IH in Hloop as ->.
    cbn [omap list_omap].
    destruct (survivor polygon_fill image_processor coco_data image_data ann);
      simpl; [by rewrite <- app_assoc | by rewrite app_nil_r].
Qed.

(** The upload loop from index [k] on: it attaches [embeddings[k + i]] to the
    [i]-th object, and raises [IndexError] when the vectors run out. *)
Lemma upload_step_lookup (embeddings : list Vector)
    (upload_objects : list UploadObject) (i : nat) (obj : CroppedObject) :
  upload_step embeddings upload_objects (i, obj)
  = match embeddings !! i with
    | Some vector => Ok (upload_objects ++ [upload_object obj vector])
    | None => Raise IndexError
    end.
Proof.
  unfold upload_step, list_get. simpl. by destruct (embeddings !! i).
Qed.

Lemma upload_loop (embeddings : list Vector) (objs : list CroppedObject)
    (k : nat) (acc : list UploadObject) :
  foldl_result (upload_step embeddings) acc (zip (seq k (length objs)) objs)
  = if decide (objs = [] \/ (k + length objs <= length embeddings)%nat)
    then Ok (acc ++ zip_with upload_object objs (drop k embeddings))
    else Raise IndexError.
Proof.
  revert k acc. induction objs as [| obj objs IH]; intros k acc.
  - rewrite decide_True by (by left). simpl. by rewrite app_nil_r.
  - cbn [length seq zip_with foldl_result]. rewrite upload_step_lookup.
    destruct (embeddings !! k) as [vector |] eqn:Hk.
    + cbn [mbind result_bind]. rewrite IH.
      pose proof (lookup_lt_Some _ _ _ Hk) as Hlt.
      rewrite (drop_S _ _ _ Hk). cbn [zip_with].
      destruct (decide (objs = [] \/ (S k + length objs <= length embeddings)%nat))
        as [Hok | Hko].
      * rewrite decide_True; [by rewrite <- app_assoc |].
        right. destruct Hok as [-> | Hok]; simpl; lia.
      * rewrite decide_False; [reflexivity |].
        intros [Hnil | Hle]; [done |]. apply Hko. right. lia.
    + cbn [mbind result_bind]. apply lookup_ge_None in Hk.
      rewrite decide_False; [reflexivity |].
      intros [Hnil | Hle]; [done | lia].
Qed.

Lemma upload_loop_enumerate (embeddings : list Vector)
    (cropped_objects : list CroppedObject) :
  foldl_result (upload_step embeddings) [] (enumerate cropped_objects)
  = if decide (length cropped_objects <= length embeddings)%nat
    then Ok (zip_with upload_object cropped_objects embeddings)
    else Raise IndexError.
Proof.
  unfold enumerate. rewrite upload_loop. rewrite drop_0, app_nil_l.
  destruct (decide (length cropped_objects <= length embeddings)%nat).
  - by rewrite decide_True by (by right).
  - rewrite decide_False; [reflexivity |].
    intros [-> | Hle]; [simpl in *; lia | done].
Qed.

(** A batch whose cropping loop completes with at least one survivor: one
    embedding request, then either one upsert of the records zipped by
    position, or an [IndexError] and no upsert. *)
Lemma process_batch_cropped (run : Run) (batch_annotations : list Annotation)
    (cropped_objects : list CroppedObject) (embeddings : list Vector) :
  foldl_result
    (crop_step polygon_fill image_processor coco_data
       (image_data_of (images coco_data)
          (map ann_image_id batch_annotations)))
    [] batch_annotations = Ok cropped_objects ->
  cropped_objects <> [] ->
  generate_embeddings jinaai_embed embedding_generator (embed_calls run)
    (map c_image cropped_objects) = embeddings ->
  process_batch polygon_fill jinaai_embed image_processor embedding_generator
    coco_data run batch_annotations
  = if decide (length cropped_objects <= length embeddings)%nat
    then (after_upsert (after_embedding run)
            (zip_with upload_object cropped_objects embeddings), Ok ())
    else (after_embedding run, Raise IndexError).
Proof.
  intros Hcrop Hne Hemb. unfold process_batch. rewrite Hcrop.
  destruct cropped_objects as [| obj objs]; [done |].
  rewrite Hemb, upload_loop_enumerate.
  destruct (decide _) as [Hlen | Hlen]; [| reflexivity].
  destruct embeddings as [| v vs]; [simpl in Hlen; lia |]. reflexivity.
Qed.

(** A batch none of whose annotations survives makes no request and no
    upsert. *)
Lemma process_batch_no_survivor (run : Run)
    (batch_annotations : list Annotation) :
  foldl_result
    (crop_step polygon_fill image_processor coco_data
       (image_data_of (images coco_data)
          (map ann_image_id batch_annotations)))
    [] batch_annotations = Ok [] ->
  process_batch polygon_fill jinaai_embed image_processor embedding_generator
    coco_data run batch_annotations = (run, Ok ()).
Proof. intros Hcrop. unfold process_batch. by rewrite Hcrop. Qed.

(** A batch whose cropping loop raises does nothing else. *)
Lemma process_batch_crop_raise (run : Run)
    (batch_annotations : list Annotation) (e : exn) :
  foldl_result
    (crop_step polygon_fill image_processor coco_data
       (image_data_of (images coco_data)
          (map ann_image_id batch_annotations)))
    [] batch_annotations = Raise e ->
  process_batch polygon_fill jinaai_embed image_processor embedding_generator
    coco_data run batch_annotations = (run, Raise e).
Proof. intros Hcrop. unfold process_batch. by rewrite Hcrop. Qed.

End Batch.

(** ** Resolving image and category records *)

Lemma image_data_fold_lookup_Some (coco_images : list ImageInfo)
    (image_ids : list Z) (d : gmap Z ImageInfo) (k : Z) (img : ImageInfo) :
  foldl (fun d img =>
           if bool_decide (img_id img ∈ image_ids) then <[img_id img := img]> d
           else d) d coco_images !! k = Some img ->
  d !! k = Some img \/ (img ∈ coco_images /\ img_id img = k /\ k ∈ image_ids).
Proof.
  revert d. induction coco_images as [| i rest IH]; intros d Hk; [by left |].
  cbn [foldl] in Hk. apply IH in Hk as [Hk | (Hin & Hid & Hids)].
  - case_bool_decide as Hi; [| by left].
    destruct (decide (img_id i = k)) as [<- | Hne].
    + rewrite lookup_insert_eq in Hk. injection Hk as <-.
      right. split; [left | done].
    + rewrite lookup_insert_ne in Hk by done. by left.
  - right. split; [by right | done].
Qed.

Lemma image_data_fold_lookup_None (coco_images : list ImageInfo)
    (image_ids : list Z) (d : gmap Z ImageInfo) (k : Z) :
  foldl (fun d img =>
           if bool_decide (img_id img ∈ image_ids) then <[img_id img := img]> d
           else d) d coco_images !! k = None <->
  d !! k = None /\ (k ∉ image_ids \/ k ∉ map img_id coco_images).
Proof.
  revert d. induction coco_images as [| i rest IH]; intros d.
  - simpl. split; [intros Hk; split; [done | right; apply not_elem_of_nil] |
                   by intros [Hk _]].
  - cbn [foldl map]. rewrite IH, not_elem_of_cons. clear IH.
    case_bool_decide as Hi.
    + destruct (decide (img_id i = k)) as [<- | Hne].
      * rewrite lookup_insert_eq. split; [by intros [? _] |].
        intros [_ [Hk | [Hk _]]]; done.
      * rewrite lookup_insert_ne by done. split.
        -- intros [Hd [Hk | Hk]]; (split; [done |]); [by left | by right].
        -- intros [Hd [Hk | [_ Hk]]]; (split; [done |]); [by left | by right].
    + split.
      * intros [Hd [Hk | Hk]]; (split; [done |]); [by left |].
        destruct (decide (k ∈ image_ids)) as [Hkin | Hkout]; [| by left].
        right. split; [| done]. intros ->. done.
      * intros [Hd [Hk | [_ Hk]]]; (split; [done |]); [by left | by right].
Qed.

(** A hit of the per-batch image table is a record of the image list with
    the key as its id. *)
Lemma image_data_of_Some (coco_images : list ImageInfo) (image_ids : list Z)
    (k : Z) (img : ImageInfo) :
  image_data_of coco_images image_ids !! k = Some img ->
  img ∈ coco_images /\ img_id img = k /\ k ∈ image_ids.
Proof.
  intros Hk. apply image_data_fold_lookup_Some in Hk as [Hk | Hk]; [| done].
  by rewrite lookup_empty in Hk.
Qed.

(** It misses exactly the ids of no image and the ids the batch does not
    name. *)
Lemma image_data_of_None (coco_images : list ImageInfo) (image_ids : list Z)
    (k : Z) :
  image_data_of coco_images image_ids !! k = None <->
  k ∉ image_ids \/ k ∉ map img_id coco_images.
Proof.
  unfold image_data_of. rewrite image_data_fold_lookup_None, lookup_empty.
  tauto.
Qed.

(** A hit of the category scan is the first category with the id; the scan
    has then tested the categories up to and including it. *)
Lemma next_category_Ok (coco_categories : list Category) (category_id : Z)
    (cat : Category) :
  next_category coco_categories category_id = Ok cat ->
  exists pre post,
    coco_categories = pre ++ cat :: post
    /\ Forall (fun c => cat_id c <> category_id) pre
    /\ cat_id cat = category_id
    /\ next_category_steps coco_categories category_id = S (length pre).
Proof.
  induction coco_categories as [| c rest IH]; [done |].
  cbn [next_category next_category_steps].
  destruct (Z.eqb_spec (cat_id c) category_id) as [Heq | Hne].
  - intros [= <-]. exists [], rest. by repeat split.
  - intros Hrest. destruct (IH Hrest) as (pre & post & -> & Hpre & Hid & Hsteps).
    exists (c :: pre), post. repeat split; [by constructor | done |].
    by rewrite Hsteps.
Qed.

(** A miss is a [StopIteration] after every category has been tested. *)
Lemma next_category_Raise (coco_categories : list Category) (category_id : Z)
    (e : exn) :
  next_category coco_categories category_id = Raise e ->
  e = StopIteration
  /\ (category_id ∉ map cat_id coco_categories)
  /\ next_category_steps coco_categories category_id
     = length coco_categories.
Proof.
  induction coco_categories as [| c rest IH].
  - intros [= <-]. repeat split. apply not_elem_of_nil.
  - cbn [next_category next_category_steps map length].
    destruct (Z.eqb_spec (cat_id c) category_id) as [Heq | Hne]; [done |].
    intros Hrest. destruct (IH Hrest) as (-> & Hnot & Hsteps).
    repeat split; [| by rewrite Hsteps].
    rewrite not_elem_of_cons. split; [congruence | done].
Qed.

Lemma next_category_steps_le (coco_categories : list Category)
    (category_id : Z) :
  (next_category_steps coco_categories category_id
   <= length coco_categories)%nat.
Proof.
  induction coco_categories as [| c rest IH]; simpl; [lia |].
  destruct (cat_id c =? category_id); lia.
Qed.

(** A surviving pair holds its annotation, the records its ids resolve to,
    and the region extracted for it. *)
Lemma survivor_Some (polygon_fill : list (Q * Q) -> Z -> Z -> bool)
    (image_processor : ImageProcessor) (coco_data : CocoData)
    (image_data : gmap Z ImageInfo) (ann : Annotation) (obj : CroppedObject) :
  survivor polygon_fill image_processor coco_data image_data ann = Some obj ->
  c_annotation obj = ann
  /\ image_data !! ann_image_id ann = Some (c_image_info obj)
  /\ next_category (categories coco_data) (ann_category_id ann)
     = Ok (c_category obj)
  /\ crop_object polygon_fill image_processor
       (img_file_name (c_image_info obj)) (ann_bbox ann) (ann_segmentation ann)
     = Ok (Some (c_image obj)).
Proof.
  unfold survivor, dict_get.
  destruct (image_data !! ann_image_id ann) as [image_info |]; [| done].
  destruct (next_category (categories coco_data) (ann_category_id ann))
    as [category | e]; [| done].
  destruct (crop_object polygon_fill image_processor
              (img_file_name image_info) (ann_bbox ann) (ann_segmentation ann))
    as [[im |] | e] eqn:Hcrop; try done.
  by intros [= <-].
Qed.

(** The annotations of the surviving pairs are the batch with the failures
    taken out: same order, nothing repeated. *)
Lemma survivors_sublist (polygon_fill : list (Q * Q) -> Z -> Z -> bool)
    (image_processor : ImageProcessor) (coco_data : CocoData)
    (image_data : gmap Z ImageInfo) (batch_annotations : list Annotation) :
  map c_annotation
    (omap (survivor polygon_fill image_processor coco_data image_data)
          batch_annotations)
  `sublist_of` batch_annotations.
Proof.
  induction batch_annotations as [| ann rest IH]; [constructor |].
  cbn [omap list_omap].
  destruct (survivor polygon_fill image_processor coco_data image_data ann)
    as [obj |] eqn:Hobj.
  - apply survivor_Some in Hobj as (<- & _). cbn [map]. by constructor.
  - by constructor.
Qed.

(** ** The run *)

Lemma foldl_result_app {A B : Type} (f : A -> B -> result A) (a : A)
    (pre post : list B) :
  foldl_result f a (pre ++ post)
  = (a' ← foldl_result f a pre; foldl_result f a' post).
Proof.
  revert a. induction pre as [| b pre IH]; intros a; [reflexivity |].
  cbn [app foldl_result]. destruct (f a b) as [a' | e]; [| reflexivity].
  cbn [mbind result_bind]. apply IH.
Qed.

Section Run.

Variable polygon_fill : list (Q * Q) -> Z -> Z -> bool.
Variable jinaai_embed : nat -> list (Image RGB) -> result (list Vector).
Variable image_processor : ImageProcessor.
Variable embedding_generator : EmbeddingGenerator.
Variable coco_data : CocoData.
Variable batch_size : Z.

(** A batch that completes hands its run to the next batch. *)
Lemma run_batches_next (run run' : Run) (i : Z) (rest : list Z) :
  process_batch polygon_fill jinaai_embed image_processor embedding_generator
    coco_data run (slice (annotations coco_data) i batch_size) = (run', Ok ()) ->
  run_batches polygon_fill jinaai_embed image_processor embedding_generator
    coco_data batch_size run (i :: rest)
  = run_batches polygon_fill jinaai_embed image_processor embedding_generator
      coco_data batch_size run' rest.
Proof. intros Hbatch. cbn [run_batches]. by rewrite Hbatch. Qed.

(** A batch that raises ends the loop. *)
Lemma run_batches_stop (run run' : Run) (i : Z) (rest : list Z) (e : exn) :
  process_batch polygon_fill jinaai_embed image_processor embedding_generator
    coco_data run (slice (annotations coco_data) i batch_size)
  = (run', Raise e) ->
  run_batches polygon_fill jinaai_embed image_processor embedding_generator
    coco_data batch_size run (i :: rest) = (run', Raise e).
Proof. intros Hbatch. cbn [run_batches]. by rewrite Hbatch. Qed.

Lemma run_batches_app (run run' : Run) (pre post : list Z) :
  run_batches polygon_fill jinaai_embed image_processor embedding_generator
    coco_data batch_size run pre = (run', Ok ()) ->
  run_batches polygon_fill jinaai_embed image_processor embedding_generator
    coco_data batch_size run (pre ++ post)
  = run_batches polygon_fill jinaai_embed image_processor embedding_generator
      coco_data batch_size run' post.
Proof.
  revert run. induction pre as [| i pre IH]; intros run Hpre.
  - by injection Hpre as ->.
  - cbn [app run_batches] in Hpre |- *.
    destruct (process_batch _ _ _ _ _ run _) as [run1 [[] | e]]; [| done].
    by apply IH.
Qed.

(** An exception in the batch at start index [i], after the batches before
    it have completed, ends the run with exit code 1; the run has done what
    it had done when the exception was raised. *)
Lemma process_objects_abort (run run' : Run) (pre rest : list Z) (i : Z)
    (e : exn) :
  range_step (len (annotations coco_data)) batch_size = Ok (pre ++ i :: rest) ->
  run_batches polygon_fill jinaai_embed image_processor embedding_generator
    coco_data batch_size run0 pre = (run, Ok ()) ->
  process_batch polygon_fill jinaai_embed image_processor embedding_generator
    coco_data run (slice (annotations coco_data) i batch_size)
  = (run', Raise e) ->
  process_objects polygon_fill jinaai_embed image_processor
    embedding_generator coco_data batch_size = (1, run').
Proof.
  intros Hstarts Hpre Hbatch. unfold process_objects. rewrite Hstarts.
  rewrite (run_batches_app _ _ _ _ Hpre).
  by rewrite (run_batches_stop _ _ _ _ _ Hbatch).
Qed.

End Run.

(** ** Lookup misses *)

Lemma parse_validate_fold_raise (coco_data : CocoData) (image_ids category_ids : gset Z)
    (e : exn) (anns : list Annotation) :
  foldl (fun r ann =>
           _ ← r;
           if negb (bool_decide (ann_image_id ann ∈ image_ids))
           then Raise ValueError
           else if negb (bool_decide (ann_category_id ann ∈ category_ids))
           then Raise ValueError
           else Ok coco_data)
        (Raise e) anns = Raise e.
Proof. induction anns as [| ann anns IH]; [reflexivity | exact IH]. Qed.

(** The parser's check passes exactly the files all of whose annotations
    resolve, and raises [ValueError] on the others. *)
Lemma parse_validate_spec (coco_data : CocoData) :
  (Forall (resolves coco_data) (annotations coco_data)
   /\ parse_validate coco_data = Ok coco_data)
  \/ (~ Forall (resolves coco_data) (annotations coco_data)
      /\ parse_validate coco_data = Raise ValueError).
Proof.
  unfold parse_validate, resolves.
  generalize (annotations coco_data) as anns.
  induction anns as [| ann anns IH]; [left; by split |].
  cbn [foldl mbind result_bind].
  rewrite !bool_decide_decide.
  destruct (decide (ann_image_id ann ∈ _)) as [Himg | Himg]; cbn [negb].
  - destruct (decide (ann_category_id ann ∈ _)) as [Hcat | Hcat]; cbn [negb].
    + rewrite elem_of_list_to_set in Himg, Hcat.
      destruct IH as [[Hall Hok] | [Hnot Hraise]].
      * left. split; [by constructor | exact Hok].
      * right. split; [| exact Hraise].
        intros Hall. apply Hnot. by inversion Hall.
    + right. split; [| apply parse_validate_fold_raise].
      intros Hall. inversion Hall as [| ? ? [_ Hc] _]; subst.
      apply Hcat. by rewrite elem_of_list_to_set.
  - right. split; [| apply parse_validate_fold_raise].
    intros Hall. inversion Hall as [| ? ? [Hi _] _]; subst.
    apply Himg. by rewrite elem_of_list_to_set.
Qed.

Lemma elem_of_map {A B : Type} (f : A -> B) (l : list A) (x : A) :
  x ∈ l -> f x ∈ map f l.
Proof. rewrite !list_elem_of_In. apply in_map. Qed.

Lemma elem_of_slice {A : Type} (l : list A) (i n : Z) (x : A) :
  x ∈ slice l i n -> x ∈ l.
Proof.
  unfold slice. intros Hx. by apply subseteq_take, subseteq_drop in Hx.
Qed.

Lemma next_category_miss (coco_categories : list Category) (category_id : Z) :
  category_id ∉ map cat_id coco_categories ->
  next_category coco_categories category_id = Raise StopIteration.
Proof.
  induction coco_categories as [| c rest IH]; [reflexivity |].
  cbn [map next_category]. rewrite not_elem_of_cons. intros [Hne Hrest].
  destruct (Z.eqb_spec (cat_id c) category_id); [congruence | by apply IH].
Qed.

(** The turn of the cropping loop for an annotation that does not resolve
    raises: [KeyError] for the image, else [StopIteration] for the
    category. *)
Lemma crop_step_miss (polygon_fill : list (Q * Q) -> Z -> Z -> bool)
    (image_processor : ImageProcessor) (coco_data : CocoData)
    (image_ids : list Z) (acc : list CroppedObject) (ann : Annotation) :
  ann_image_id ann ∈ image_ids ->
  ~ resolves coco_data ann ->
  crop_step polygon_fill image_processor coco_data
    (image_data_of (images coco_data) image_ids) acc ann
  = Raise (if decide (ann_image_id ann ∈ map img_id (images coco_data))
           then StopIteration else KeyError).
Proof.
  intros Hids Hmiss. unfold crop_step, dict_get.
  destruct (decide (ann_image_id ann ∈ map img_id (images coco_data)))
    as [Himg | Himg].
  - destruct (image_data_of (images coco_data) image_ids !! ann_image_id ann)
      as [image_info |] eqn:Hlook.
    + cbn [mbind result_bind]. rewrite next_category_miss; [reflexivity |].
      intros Hcat. apply Hmiss. by split.
    + apply image_data_of_None in Hlook as [? | ?]; done.
  - assert (image_data_of (images coco_data) image_ids !! ann_image_id ann
            = None) as -> by (apply image_data_of_None; by right).
    reflexivity.
Qed.

(** ** The cost of resolving a category *)

Lemma next_category_steps_seq (start n : nat) :
  next_category_steps
    (map (fun k => {| cat_id := Z.of_nat k; cat_name := "category" |})
         (seq start (S n)))
    (Z.of_nat (start + n))
  = S n.
Proof.
  revert start. induction n as [| n IH]; intros start.
  - cbn [seq map next_category_steps cat_id].
    destruct (Z.eqb_spec (Z.of_nat start) (Z.of_nat (start + 0))); [done | lia].
  - cbn [seq map next_category_steps cat_id] in IH |- *.
    destruct (Z.eqb_spec (Z.of_nat start) (Z.of_nat (start + S n))); [lia |].
    f_equal. replace (start + S n)%nat with (S start + n)%nat by lia.
    apply IH.
Qed.

Lemma next_category_seq (start n : nat) :
  next_category
    (map (fun k => {| cat_id := Z.of_nat k; cat_name := "category" |})
         (seq start (S n)))
    (Z.of_nat (start + n))
  = Ok {| cat_id := Z.of_nat (start + n); cat_name := "category" |}.
Proof.
  revert start. induction n as [| n IH]; intros start.
  - cbn [seq map next_category cat_id].
    destruct (Z.eqb_spec (Z.of_nat start) (Z.of_nat (start + 0))); [| lia].
    by rewrite Nat.add_0_r.
  - cbn [seq map next_category cat_id] in IH |- *.
    destruct (Z.eqb_spec (Z.of_nat start) (Z.of_nat (start + S n))); [lia |].
    replace (start + S n)%nat with (S start + n)%nat by lia.
    apply IH.
Qed.

(** Looking up the last of [n + 1] categories tests all [n + 1] of them. *)
Lemma next_category_steps_last (n : nat) :
  next_category_steps (numbered_categories (S n)) (Z.of_nat n) = S n.
Proof. apply (next_category_steps_seq 0 n). Qed.

Lemma no_constant_bounds_the_scan :
  ~ exists bound : nat,
      forall (coco_categories : list Category) (category_id : Z),
        (next_category_steps coco_categories category_id <= bound)%nat.
Proof.
  intros [bound Hbound].
  specialize (Hbound (numbered_categories (S bound)) (Z.of_nat bound)).
  rewrite next_category_steps_last in Hbound. lia.
Qed.

(** ** Extraction never raises on a well-formed directory *)

Lemma test_processor_well_formed (use_seg : bool) :
  well_formed (test_processor use_seg).
Proof.
  unfold well_formed, test_processor. cbn [images_dir].
  repeat apply map_Forall_insert_2; try apply map_Forall_empty;
    simpl; try done; split; lia.
Qed.

Lemma load_image_well_formed (self : ImageProcessor) (image_filename : string)
    (image : Image RGB) :
  well_formed self -> load_image self image_filename = Some image ->
  0 <= width image /\ 0 <= height image.
Proof.
  unfold well_formed, load_image. intros Hwf Hload.
  destruct (images_dir self !! image_filename) as [[im |] |] eqn:Hfile;
    try done.
  injection Hload as <-. exact (Hwf _ _ Hfile).
Qed.

Lemma draw_segmentation_size (polygon_fill : list (Q * Q) -> Z -> Z -> bool)
    (mask : Image L) (segmentation : list (list Q)) :
  size (draw_segmentation polygon_fill mask segmentation) = size mask.
Proof.
  revert mask. induction segmentation as [| polygon rest IH]; intros mask;
    [reflexivity |].
  unfold draw_segmentation in *. cbn [foldl]. rewrite IH.
  by destruct (3 <=? len (points_of polygon)).
Qed.

(** With a non-empty mask the region is cut at the bounding box of the mask:
    it has the size of the box, a pixel under a set mask pixel is the
    source's, and every other pixel is black. *)
Lemma crop_by_segmentation_region
    (polygon_fill : list (Q * Q) -> Z -> Z -> bool) (image : Image RGB)
    (segmentation : list (list Q)) (lft upr rgt lwr : Z) :
  0 <= width image -> 0 <= height image ->
  region_box polygon_fill image segmentation = Some (lft, upr, rgt, lwr) ->
  exists region,
    _crop_by_segmentation polygon_fill image segmentation = Ok region
    /\ size region = (rgt - lft, lwr - upr)
    /\ forall i j, 0 <= i < rgt - lft -> 0 <= j < lwr - upr ->
         pixels region i j
         = if 0 <? pixels (segmentation_mask polygon_fill image segmentation)
                     (lft + i) (upr + j)
           then pixels image (lft + i) (upr + j)
           else (0, 0, 0).
Proof.
  intros HW HH Hbox.
  pose proof (getbbox_on_canvas _ _ _ _ _ Hbox) as (Hx & Hx1 & Hy & Hy1).
  pose proof (draw_segmentation_size polygon_fill (blank_mask image)
                segmentation) as Hmsize.
  fold (segmentation_mask polygon_fill image segmentation) in Hmsize.
  injection Hmsize as HmW HmH. cbn [blank_mask width height] in HmW, HmH.
  rewrite HmW in Hx1. rewrite HmH in Hy1.
  unfold _crop_by_segmentation.
  rewrite new_blank_mask by lia. cbn [mbind result_bind].
  unfold region_box in Hbox.
  fold (segmentation_mask polygon_fill image segmentation). rewrite Hbox.
  destruct (crop_ok image lft upr rgt lwr) as (ci & -> & Hci & Hcip); [lia.. |].
  destruct (crop_ok (segmentation_mask polygon_fill image segmentation)
              lft upr rgt lwr) as (cm & -> & Hcm & Hcmp); [lia.. |].
  cbn [mbind result_bind]. unfold new. rewrite Hci.
  replace ((rgt - lft <? 0) || (lwr - upr <? 0)) with false by lia.
  eexists. split; [reflexivity |].
  injection Hci as Hciw Hcih.
  split.
  - pose proof (composite_size (convert_RGBA ci) cm
                  (mkImage (rgt - lft) (lwr - upr) (fun _ _ => (0, 0, 0, 0))))
      as Hsz.
    unfold size in Hsz |- *. cbn [convert_RGB width height] in Hsz |- *.
    exact Hsz.
  - intros i j Hi Hj. cbn [convert_RGB pixels].
    assert (inside (segmentation_mask polygon_fill image segmentation)
              (lft + i) (upr + j) = true) as Hin
      by (apply inside_spec; lia).
    rewrite <- (Hcmp i j Hin).
    destruct (0 <? pixels cm i j) eqn:Hset.
    + rewrite composite_pixels_set.
      * cbn [convert_RGBA pixels]. rewrite Hcip by (apply inside_spec; lia).
        by destruct (pixels image (lft + i) (upr + j)) as [[r g] b].
      * apply inside_spec. cbn [convert_RGBA width height]. lia.
      * lia.
    + rewrite composite_pixels_unset by (right; lia). reflexivity.
Qed.

Lemma crop_by_bbox_total (image : Image RGB) (bbox : list Q) :
  0 <= width image -> 0 <= height image -> length bbox = 4%nat ->
  exists region, _crop_by_bbox image bbox = Ok region.
Proof.
  intros HW HH Hlen.
  destruct bbox as [| x [| y [| w [| h [| ? ?]]]]]; try done.
  destruct (Z_lt_le_dec (clamped_width image x w) 1) as [Hw | Hw].
  - rewrite crop_by_bbox_fallback by (by left).
    destruct (crop_ok image 0 0 (Z.min 10 (width image))
                (Z.min 10 (height image))) as (region & -> & _); [lia.. |].
    by exists region.
  - destruct (Z_lt_le_dec (clamped_height image y h) 1) as [Hh | Hh].
    + rewrite crop_by_bbox_fallback by (by right).
      destruct (crop_ok image 0 0 (Z.min 10 (width image))
                  (Z.min 10 (height image))) as (region & -> & _); [lia.. |].
      by exists region.
    + rewrite crop_by_bbox_clamped by done.
      destruct (crop_ok image (Z.max 0 (int x)) (Z.max 0 (int y))
                  (Z.max 0 (int x) + clamped_width image x w)
                  (Z.max 0 (int y) + clamped_height image y h))
        as (region & -> & _); [lia.. |].
      by exists region.
Qed.

Lemma crop_by_segmentation_total
    (polygon_fill : list (Q * Q) -> Z -> Z -> bool) (image : Image RGB)
    (segmentation : list (list Q)) :
  0 <= width image -> 0 <= height image ->
  exists region,
    _crop_by_segmentation polygon_fill image segmentation = Ok region.
Proof.
  intros HW HH.
  destruct (region_box polygon_fill image segmentation)
    as [[[[lft upr] rgt] lwr] |] eqn:Hbox.
  - destruct (crop_by_segmentation_region _ _ _ _ _ _ _ HW HH Hbox)
      as (region & Hregion & _).
    by exists region.
  - rewrite crop_by_segmentation_fallback by done.
    destruct (crop_ok image 0 0 (Z.min 10 (width image))
                (Z.min 10 (height image))) as (region & -> & _); [lia.. |].
    by exists region.
Qed.

(** [crop_object] returns: a region or [None]. *)
Lemma crop_object_total (polygon_fill : list (Q * Q) -> Z -> Z -> bool)
    (self : ImageProcessor) (image_filename : string)
    (bbox : option (list Q)) (segmentation : option (list (list Q))) :
  well_formed self ->
  exists cropped_image,
    crop_object polygon_fill self image_filename bbox segmentation
    = Ok cropped_image.
Proof.
  intros Hwf. unfold crop_object.
  destruct (load_image self image_filename) as [image |] eqn:Hload;
    [| by exists None].
  destruct (load_image_well_formed _ _ _ Hwf Hload) as [HW HH].
  destruct (_ && _ && _).
  - destruct (crop_by_segmentation_total polygon_fill image
                (default [] segmentation) HW HH) as (region & ->).
    by exists (Some region).
  - destruct (truthy bbox && (len (default [] bbox) =? 4)) eqn:Hbbox;
      [| by exists None].
    destruct (crop_by_bbox_total image (default [] bbox) HW HH)
      as (region & ->); [unfold len in Hbbox; lia |].
    by exists (Some region).
Qed.

(** On a well-formed directory, a turn of the cropping loop for an
    annotation that resolves does not raise. *)
Lemma crop_step_total (polygon_fill : list (Q * Q) -> Z -> Z -> bool)
    (image_processor : ImageProcessor) (coco_data : CocoData)
    (image_ids : list Z) (acc : list CroppedObject) (ann : Annotation) :
  well_formed image_processor ->
  ann_image_id ann ∈ image_ids ->
  resolves coco_data ann ->
  crop_step polygon_fill image_processor coco_data
    (image_data_of (images coco_data) image_ids) acc ann
  = Ok (acc ++ option_list
                 (survivor polygon_fill image_processor coco_data
                    (image_data_of (images coco_data) image_ids) ann)).
Proof.
  intros Hwf Hids [Himg Hcat]. unfold crop_step, survivor, dict_get.
  destruct (image_data_of (images coco_data) image_ids !! ann_image_id ann)
    as [image_info |] eqn:Hlook;
    [| apply image_data_of_None in Hlook as [? | ?]; done].
  cbn [mbind result_bind].
  destruct (next_category (categories coco_data) (ann_category_id ann))
    as [category | e] eqn:Hnext;
    [| apply next_category_Raise in Hnext as (_ & ? & _); done].
  cbn [mbind result_bind].
  destruct (crop_object_total polygon_fill image_processor
              (img_file_name image_info) (ann_bbox ann)
              (ann_segmentation ann) Hwf) as (cropped_image & ->).
  cbn [mbind result_bind]. destruct cropped_image; [reflexivity |].
  by rewrite app_nil_r.
Qed.

(** On a well-formed directory, the cropping loop over annotations that
    resolve completes with the surviving pairs. *)
Lemma crop_loop_total (polygon_fill : list (Q * Q) -> Z -> Z -> bool)
    (image_processor : ImageProcessor) (coco_data : CocoData)
    (image_ids : list Z) (batch_annotations : list Annotation)
    (acc : list CroppedObject) :
  well_formed image_processor ->
  Forall (fun ann => ann_image_id ann ∈ image_ids) batch_annotations ->
  Forall (resolves coco_data) batch_annotations ->
  foldl_result
    (crop_step polygon_fill image_processor coco_data
       (image_data_of (images coco_data) image_ids))
    acc batch_annotations
  = Ok (acc ++ omap (survivor polygon_fill image_processor coco_data
                       (image_data_of (images coco_data) image_ids))
                    batch_annotations).
Proof.
  intros Hwf Hids Hres. revert acc.
  induction batch_annotations as [| ann rest IH]; intros acc.
  - simpl. by rewrite app_nil_r.
  - apply Forall_cons in Hids as [Hid Hids].
    apply Forall_cons in Hres as [Hre Hres].
    cbn [foldl_result]. rewrite crop_step_total by done.
    cbn [mbind result_bind]. rewrite (IH Hids Hres).
    cbn [omap list_omap]. f_equal.
    destruct (survivor _ _ _ _ ann); simpl;
      [by rewrite <- app_assoc | by rewrite app_nil_r].
Qed.

Lemma batch_image_ids (batch_annotations : list Annotation) :
  Forall (fun ann => ann_image_id ann ∈ map ann_image_id batch_annotations)
         batch_annotations.
Proof. apply Forall_forall. intros ann Hann. by apply elem_of_map. Qed.

(** ** The image table *)

Lemma image_data_fold_last (coco_images : list ImageInfo) (image_ids : list Z)
    (d : gmap Z ImageInfo) (k : Z) :
  k ∈ image_ids ->
  foldl (fun d img =>
           if bool_decide (img_id img ∈ image_ids) then <[img_id img := img]> d
           else d) d coco_images !! k
  = match last (filter (fun img => img_id img = k) coco_images) with
    | Some img => Some img
    | None => d !! k
    end.
Proof.
  intros Hk. revert d. induction coco_images as [| img rest IH]; intros d.
  - reflexivity.
  - cbn [foldl]. rewrite IH. rewrite filter_cons.
    destruct (decide (img_id img = k)) as [Heq | Hne].
    + rewrite last_cons.
      destruct (last (filter _ rest)); [reflexivity |].
      rewrite bool_decide_eq_true_2 by (by rewrite Heq).
      rewrite <- Heq. by rewrite lookup_insert_eq.
    + destruct (last (filter _ rest)); [reflexivity |].
      destruct (bool_decide _); [| reflexivity].
      by rewrite lookup_insert_ne.
Qed.

Lemma image_data_of_last (coco_images : list ImageInfo) (image_ids : list Z)
    (k : Z) :
  image_data_of coco_images image_ids !! k
  = if decide (k ∈ image_ids)
    then last (filter (fun img => img_id img = k) coco_images)
    else None.
Proof.
  destruct (decide (k ∈ image_ids)) as [Hk | Hk].
  - unfold image_data_of. rewrite image_data_fold_last by done.
    rewrite lookup_empty. by destruct (last _).
  - destruct (image_data_of coco_images image_ids !! k) eqn:Hl; [| done].
    apply image_data_of_Some in Hl. tauto.
Qed.
(** The first record with an id, as the scan of the example finds it. *)
Lemma next_image_head (coco_images : list ImageInfo) (image_id : Z) :
  next_image coco_images image_id
  = match head (filter (fun img => img_id img = image_id) coco_images) with
    | Some img => Ok img
    | None => Raise StopIteration
    end.
Proof.
  induction coco_images as [| img rest IH]; [reflexivity |].
  cbn [next_image]. rewrite filter_cons.
  destruct (Z.eqb_spec (img_id img) image_id) as [Heq | Hne].
  - by rewrite decide_True.
  - by rewrite decide_False.
Qed.

Lemma filter_id_unique (coco_images : list ImageInfo) (k : Z) :
  NoDup (map img_id coco_images) ->
  (length (filter (fun img => img_id img = k) coco_images) <= 1)%nat.
Proof.
  induction coco_images as [| img rest IH]; intros Hnd; [simpl; lia |].
  cbn [map] in Hnd. apply NoDup_cons in Hnd as [Hnotin Hnd].
  rewrite filter_cons. destruct (decide (img_id img = k)) as [Heq | Hne];
    [| by apply IH].
  assert (filter (fun img => img_id img = k) rest = []) as ->; [| simpl; lia].
  apply filter_none. intros img' Hin Hid.
  apply Hnotin. rewrite Heq, <- Hid. by apply elem_of_map.
Qed.

Lemma head_last_short {A : Type} (l : list A) :
  (length l <= 1)%nat -> head l = last l.
Proof. destruct l as [| a [| b l]]; simpl; [done | done | lia]. Qed.

(** ** The batches of the loop *)

Lemma ceil_div_bounds (n step : Z) :
  0 <= n -> 0 < step ->
  step * ((n + step - 1) / step - 1) < n <= step * ((n + step - 1) / step).
Proof.
  intros Hn Hs.
  pose proof (Z.div_mod (n + step - 1) step ltac:(lia)) as Hdm.
  pose proof (Z.mod_pos_bound (n + step - 1) step Hs) as Hmod.
  lia.
Qed.

Lemma range_step_pos (stop step : Z) :
  0 < step ->
  range_step stop step
  = Ok (map (fun k => Z.of_nat k * step)
            (seq 0 (Z.to_nat ((stop + step - 1) / step)))).
Proof.
  intros Hs. unfold range_step.
  destruct (Z.eqb_spec step 0); [lia |].
  destruct (Z.ltb_spec step 0); [lia | reflexivity].
Qed.

Lemma slice_start {A : Type} (l : list A) (k : nat) (step : Z) :
  0 < step ->
  slice l (Z.of_nat k * step) step
  = take (Z.to_nat step) (drop (k * Z.to_nat step) l).
Proof.
  intros Hs. unfold slice. do 2 f_equal. lia.
Qed.

Lemma concat_slices {A : Type} (l : list A) (b K : nat) :
  concat (map (fun k => take b (drop (k * b) l)) (seq 0 K))
  = take (K * b) l.
Proof.
  induction K as [| K IH]; [reflexivity |].
  rewrite seq_S, map_app, concat_app, IH. simpl. rewrite app_nil_r.
  rewrite take_take_drop. f_equal. lia.
Qed.

Lemma batches_starts {A : Type} (l : list A) (step : Z) (K : nat) :
  0 < step ->
  batches l step (map (fun k => Z.of_nat k * step) (seq 0 K))
  = map (fun k => take (Z.to_nat step) (drop (k * Z.to_nat step) l)) (seq 0 K).
Proof.
  intros Hs. unfold batches. rewrite map_map. apply map_ext.
  intros k. by apply slice_start.
Qed.

(** The batches of a run are the annotation list cut at the multiples of the
    batch size. *)
Lemma batches_concat {A : Type} (l : list A) (batch_size : Z)
    (starts : list Z) :
  0 < batch_size ->
  range_step (len l) batch_size = Ok starts ->
  concat (batches l batch_size starts) = l.
Proof.
  intros Hs Hr. rewrite range_step_pos in Hr by done. injection Hr as <-.
  rewrite batches_starts by done. rewrite concat_slices.
  apply take_ge.
  pose proof (ceil_div_bounds (len l) batch_size ltac:(unfold len; lia) Hs)
    as [_ Hup].
  unfold len in *. nia.
Qed.

Lemma batches_lookup {A : Type} (l : list A) (batch_size : Z)
    (starts : list Z) (j : nat) (batch : list A) :
  0 < batch_size ->
  range_step (len l) batch_size = Ok starts ->
  batches l batch_size starts !! j = Some batch ->
  batch = take (Z.to_nat batch_size) (drop (j * Z.to_nat batch_size) l)
  /\ (j * Z.to_nat batch_size < length l)%nat.
Proof.
  intros Hs Hr Hj. rewrite range_step_pos in Hr by done. injection Hr as <-.
  rewrite batches_starts in Hj by done.
  change (map ?f ?l) with (f <$> l) in Hj.
  rewrite list_lookup_fmap in Hj.
  destruct (seq 0 _ !! j) as [k |] eqn:Hk; [| done].
  apply lookup_seq in Hk as [-> Hlt]. simpl in Hj. injection Hj as <-.
  split; [reflexivity |].
  pose proof (ceil_div_bounds (len l) batch_size ltac:(unfold len; lia) Hs)
    as [Hlow _].
  unfold len in *. nia.
Qed.
(** ** A run that completes *)

Lemma length_omap_le {A B : Type} (f : A -> option B) (l : list A) :
  (length (omap f l) <= length l)%nat.
Proof.
  induction l as [| a l IH]; [simpl; lia |].
  cbn [omap list_omap]. destruct (f a); simpl in *; lia.
Qed.

(** The identifier and the payload of a record do not depend on its
    vector. *)
Lemma record_key_zip (cropped_objects : list CroppedObject)
    (embeddings : list Vector) :
  (length cropped_objects <= length embeddings)%nat ->
  map record_key (zip_with upload_object cropped_objects embeddings)
  = map stored_key cropped_objects.
Proof.
  revert embeddings.
  induction cropped_objects as [| obj objs IH]; intros [| v vs] Hlen;
    simpl in *; try reflexivity; try lia.
  f_equal. apply IH. lia.
Qed.

(** The fallback of [generate_embeddings] has one vector per image, so a
    service that answers every image makes the answer long enough, whether
    the call raises or not. *)
Lemma generate_embeddings_length
    (jinaai_embed : nat -> list (Image RGB) -> result (list Vector))
    (self : EmbeddingGenerator) (calls : nat) (imgs : list (Image RGB)) :
  answers_every_image jinaai_embed ->
  (length imgs
   <= length (generate_embeddings jinaai_embed self calls imgs))%nat.
Proof.
  intros Hans. unfold generate_embeddings.
  destruct imgs as [| im imgs]; [simpl; lia |].
  destruct (jinaai_embed calls (im :: imgs)) as [results | e] eqn:Hemb.
  - by apply (Hans calls).
  - rewrite length_map, length_seq. lia.
Qed.

(** A table built for more image ids resolves an annotation the same way. *)
Lemma survivor_table_agree (polygon_fill : list (Q * Q) -> Z -> Z -> bool)
    (image_processor : ImageProcessor) (coco_data : CocoData)
    (ids1 ids2 : list Z) (anns : list Annotation) :
  Forall (fun ann => ann_image_id ann ∈ ids1 /\ ann_image_id ann ∈ ids2) anns ->
  omap (survivor polygon_fill image_processor coco_data
          (image_data_of (images coco_data) ids1)) anns
  = omap (survivor polygon_fill image_processor coco_data
            (image_data_of (images coco_data) ids2)) anns.
Proof.
  induction anns as [| ann rest IH]; intros Hids; [reflexivity |].
  apply Forall_cons in Hids as [[H1 H2] Hids].
  cbn [omap list_omap]. rewrite (IH Hids).
  replace (survivor polygon_fill image_processor coco_data
             (image_data_of (images coco_data) ids1) ann)
    with (survivor polygon_fill image_processor coco_data
            (image_data_of (images coco_data) ids2) ann); [reflexivity |].
  unfold survivor, dict_get. rewrite !image_data_of_last.
  by rewrite !decide_True.
Qed.

Section Completion.

Variable polygon_fill : list (Q * Q) -> Z -> Z -> bool.
Variable jinaai_embed : nat -> list (Image RGB) -> result (list Vector).
Variable image_processor : ImageProcessor.
Variable embedding_generator : EmbeddingGenerator.
Variable coco_data : CocoData.

Hypothesis Hwf : well_formed image_processor.
Hypothesis Hres : Forall (resolves coco_data) (annotations coco_data).
Hypothesis Hans : answers_every_image jinaai_embed.

Lemma batch_survivors (batch_annotations : list Annotation) :
  batch_annotations ⊆ annotations coco_data ->
  omap (survivor polygon_fill image_processor coco_data
          (image_data_of (images coco_data)
             (map ann_image_id batch_annotations))) batch_annotations
  = survivors polygon_fill image_processor coco_data batch_annotations.
Proof.
  intros Hsub. apply survivor_table_agree. apply Forall_forall.
  intros ann Hann. split; apply elem_of_map; [done | by apply Hsub].
Qed.

Lemma nonempty_images_well_formed (self : ImageProcessor) :
  nonempty_images self -> well_formed self.
Proof.
  unfold nonempty_images, well_formed. intros Hne.
  apply (map_Forall_impl _ _ _ Hne).
  intros name [im |]; simpl; [lia | done].
Qed.

(** A batch on a store that may refuse: with at least one survivor and
    enough vectors, one embedding request, then the upsert of the records
    zipped by position, which the store accepts or refuses. *)
Lemma store_process_batch_cropped
    (client_upsert : nat -> list UploadObject -> result unit) (run : Run)
    (batch_annotations : list Annotation)
    (cropped_objects : list CroppedObject) (embeddings : list Vector) :
  foldl_result
    (crop_step polygon_fill image_processor coco_data
       (image_data_of (images coco_data)
          (map ann_image_id batch_annotations)))
    [] batch_annotations = Ok cropped_objects ->
  cropped_objects <> [] ->
  generate_embeddings jinaai_embed embedding_generator (embed_calls run)
    (map c_image cropped_objects) = embeddings ->
  (length cropped_objects <= length embeddings)%nat ->
  Store.process_batch polygon_fill jinaai_embed client_upsert image_processor
    embedding_generator coco_data run batch_annotations
  = match client_upsert (length (upserts run))
            (zip_with upload_object cropped_objects embeddings) with
    | Ok _ => (after_upsert (after_embedding run)
                 (zip_with upload_object cropped_objects embeddings), Ok ())
    | Raise e => (after_embedding run, Raise e)
    end.
Proof.
  intros Hcrop Hne Hemb Hlen. unfold Store.process_batch. rewrite Hcrop.
  destruct cropped_objects as [| obj objs]; [done |].
  rewrite Hemb, upload_loop_enumerate. rewrite decide_True by done.
  destruct embeddings as [| v vs]; [simpl in Hlen; lia |].
  reflexivity.
Qed.

Lemma store_process_batch_completes
    (client_upsert : nat -> list UploadObject -> result unit) (run : Run)
    (batch_annotations : list Annotation) :
  batch_annotations ⊆ annotations coco_data ->
  exists records,
    map record_key records
    = map stored_key
        (survivors polygon_fill image_processor coco_data batch_annotations)
    /\ Store.process_batch polygon_fill jinaai_embed client_upsert
         image_processor embedding_generator coco_data run batch_annotations
       = match records with
         | [] => (run, Ok ())
         | _ =>
             match client_upsert (length (upserts run)) records with
             | Ok _ => (after_upsert (after_embedding run) records, Ok ())
             | Raise e => (after_embedding run, Raise e)
             end
         end.
Proof.
  intros Hsub.
  assert (Forall (resolves coco_data) batch_annotations) as Hres'.
  { apply Forall_forall. intros ann Hann.
    rewrite Forall_forall in Hres. by apply Hres, Hsub. }
  pose proof (crop_loop_total polygon_fill image_processor coco_data
                (map ann_image_id batch_annotations) batch_annotations []
                Hwf (batch_image_ids _) Hres') as Hcrop.
  rewrite app_nil_l, batch_survivors in Hcrop by done.
  destruct (survivors polygon_fill image_processor coco_data
              batch_annotations) as [| obj objs] eqn:Hsurv.
  - exists []. split; [reflexivity |].
    unfold Store.process_batch. by rewrite Hcrop.
  - set (embeddings :=
           generate_embeddings jinaai_embed embedding_generator
             (embed_calls run) (map c_image (obj :: objs))).
    assert (length (obj :: objs) <= length embeddings)%nat as Hlen.
    { unfold embeddings.
      etransitivity; [| by apply generate_embeddings_length].
      by rewrite length_map. }
    exists (zip_with upload_object (obj :: objs) embeddings).
    split; [by apply record_key_zip |].
    rewrite (store_process_batch_cropped client_upsert run batch_annotations
               (obj :: objs) embeddings Hcrop) by done.
    destruct embeddings as [| v vs]; [simpl in Hlen; lia |]. reflexivity.
Qed.

Lemma store_run_batches_completes
    (client_upsert : nat -> list UploadObject -> result unit)
    (batch_size : Z) (starts : list Z) (run : Run) :
  exists run' r new,
    Store.run_batches polygon_fill jinaai_embed client_upsert image_processor
      embedding_generator coco_data batch_size run starts = (run', r)
    /\ upserts run' = upserts run ++ new
    /\ Forall (fun records =>
                 records <> []
                 /\ (length records <= Z.to_nat batch_size)%nat) new
    /\ ((r = Ok ()
         /\ embed_calls run' = (embed_calls run + length new)%nat
         /\ map record_key (concat new)
            = map stored_key
                (survivors polygon_fill image_processor coco_data
                   (concat (batches (annotations coco_data) batch_size
                              starts))))
        \/ (exists refused e,
              r = Raise e
              /\ client_upsert (length (upserts run')) refused = Raise e
              /\ refused <> []
              /\ (length refused <= Z.to_nat batch_size)%nat
              /\ embed_calls run' = S (embed_calls run + length new)
              /\ map record_key (concat new ++ refused)
                 `prefix_of`
                 map stored_key
                   (survivors polygon_fill image_processor coco_data
                      (concat (batches (annotations coco_data) batch_size
                                 starts))))).
Proof.
  revert run. induction starts as [| i rest IH]; intros run.
  - exists run, (Ok ()), []. rewrite app_nil_r.
    split; [reflexivity |]. split; [reflexivity |]. split; [constructor |].
    left. split; [reflexivity |]. split; [simpl; lia | reflexivity].
  - assert (slice (annotations coco_data) i batch_size
            ⊆ annotations coco_data) as Hsub
      by (intros ann; apply elem_of_slice).
    destruct (store_process_batch_completes client_upsert run _ Hsub)
      as (records & Hkeys & Hbatch).
    cbn [Store.run_batches]. rewrite Hbatch.
    assert (length records <= Z.to_nat batch_size)%nat as Hlen.
    { rewrite <- (length_map record_key), Hkeys, length_map.
      etransitivity; [apply length_omap_le |].
      unfold slice. rewrite length_take. lia. }
    cbn [batches map concat].
    fold (batches (annotations coco_data) batch_size rest).
    unfold survivors at 1 2. rewrite omap_app.
    fold (survivors polygon_fill image_processor coco_data
            (slice (annotations coco_data) i batch_size)).
    fold (survivors polygon_fill image_processor coco_data
            (concat (batches (annotations coco_data) batch_size rest))).
    rewrite map_app, <- Hkeys.
    destruct records as [| record records'].
    + destruct (IH run) as (run' & r & new & Hrun & Hup & Hall & Hcase).
      exists run', r, new. by repeat split.
    + set (records := record :: records') in *.
      destruct (client_upsert (length (upserts run)) records)
        as [[] | e] eqn:Hupsert.
      * destruct (IH (after_upsert (after_embedding run) records))
          as (run' & r & new & Hrun & Hup & Hall & Hcase).
        cbn [after_upsert after_embedding upserts embed_calls] in Hup, Hcase.
        exists run', r, (records :: new). split; [exact Hrun |].
        split; [by rewrite Hup, <- app_assoc |].
        split; [by constructor |].
        destruct Hcase as [(-> & Hcalls & Hnew)
                          | (refused & e & -> & Href & Hne & Hle & Hcalls & Hpre)].
        -- left. split; [reflexivity |].
           split; [rewrite Hcalls; simpl; lia |].
           cbn [concat]. by rewrite map_app, Hnew.
        -- right. exists refused, e. split; [reflexivity |].
           split; [exact Href |]. split; [exact Hne |].
           split; [exact Hle |].
           split; [rewrite Hcalls; simpl; lia |].
           cbn [concat]. rewrite <- app_assoc, map_app.
           by apply prefix_app.
      * exists (after_embedding run), (Raise e), [].
        split; [reflexivity |].
        split; [by rewrite app_nil_r |]. split; [constructor |].
        right. exists records, e. split; [reflexivity |].
        split; [exact Hupsert |]. split; [done |]. split; [exact Hlen |].
        split; [simpl; lia |].
        cbn [concat app]. by apply prefix_app_r.
Qed.

End Completion.
(** ** The parser on a file *)

Lemma parse_Returns (files : gmap string Node) (self : CocoParser)
    (coco_data : CocoData) :
  parse files self = Returns coco_data <->
  (exists document,
      files !! annotations_path self = Some (RegularFile (Json document))
      /\ doc_images document = Some (Records (images coco_data))
      /\ doc_annotations document = Some (Records (annotations coco_data))
      /\ doc_categories document = Some (Records (categories coco_data)))
  /\ Forall (resolves coco_data) (annotations coco_data).
Proof.
  unfold parse, open_.
  destruct (files !! annotations_path self)
    as [[[| | document] | entries] |];
    cbn [mbind outcome_bind];
    try (split; [discriminate | by intros [(? & ? & _) _]]).
  destruct document as [[[imgs |] |] [[anns |] |] [[cats |] |]];
    cbn [doc_images doc_annotations doc_categories];
    try (split; [discriminate |
                 intros [(? & Heq & H1 & H2 & H3) _];
                 injection Heq as <-; discriminate]).
  destruct (parse_validate_spec
              {| images := imgs; annotations := anns; categories := cats |})
    as [[Hall ->] | [Hnot ->]]; cbn [lift].
  - split.
    + intros [= <-]. split; [| exact Hall]. by eexists.
    + intros [(? & Heq & H1 & H2 & H3) _]. injection Heq as <-.
      cbn in H1, H2, H3. destruct coco_data; cbn in *. congruence.
  - split; [discriminate |].
    intros [(? & Heq & H1 & H2 & H3) Hall]. injection Heq as <-.
    cbn in H1, H2, H3. destruct coco_data; cbn in *.
    exfalso. apply Hnot. congruence.
Qed.

(** The loop of [get_category_name] finds the record the batch loop finds;
    where the one raises [ValueError], the other raises [StopIteration]. *)
Lemma category_name_of_next (coco_categories : list Category)
    (category_id : Z) :
  category_name_of coco_categories category_id
  = match next_category coco_categories category_id with
    | Ok category => Returns (cat_name category)
    | Raise _ => Throws (Exn ValueError)
    end.
Proof.
  induction coco_categories as [| c rest IH]; [reflexivity |].
  cbn [category_name_of next_category].
  by destruct (cat_id c =? category_id).
Qed.

(** ** The collection of the uploader *)

Lemma collection_names_spec (store : gmap string Collection) (name : string) :
  name ∈ map fst (map_to_list store) <-> is_Some (store !! name).
Proof.
  change (map fst (map_to_list store)) with (fst <$> map_to_list store).
  rewrite list_elem_of_fmap. split.
  - intros ([n c] & -> & Hin). apply elem_of_map_to_list in Hin. by eexists.
  - intros [c Hc]. exists (name, c). split; [done |].
    by apply elem_of_map_to_list.
Qed.

Lemma collection_exists_spec (self : QdrantUploader)
    (store : gmap string Collection) :
  collection_exists self store = true <-> is_Some (store !! collection_name self).
Proof.
  unfold collection_exists. rewrite bool_decide_eq_true.
  apply collection_names_spec.
Qed.

Lemma create_collection_present (valid_vectors : Z -> string -> bool)
    (self : QdrantUploader) (store : gmap string Collection) :
  is_Some (store !! collection_name self) ->
  _create_collection valid_vectors self store = Ok store.
Proof.
  intros Hc. unfold _create_collection.
  rewrite bool_decide_eq_true_2; [reflexivity |].
  by apply collection_names_spec.
Qed.

Lemma create_collection_absent (valid_vectors : Z -> string -> bool)
    (self : QdrantUploader) (store : gmap string Collection) :
  store !! collection_name self = None ->
  _create_collection valid_vectors self store
  = if valid_vectors (uploader_vector_size self) (distance self)
    then Ok (<[collection_name self :=
                 {| col_size := uploader_vector_size self;
                    col_distance := distance self;
                    col_indexes := ["category_id"; "image_id"] |}]> store)
    else Raise CollaboratorError.
Proof.
  intros Hc. unfold _create_collection.
  rewrite bool_decide_eq_false_2.
  2: { rewrite collection_names_spec, Hc. by intros [? ?]. }
  cbn [negb]. unfold create_payload_index, create_collection.
  destruct (valid_vectors _ _); cbn [mbind result_bind]; [| reflexivity].
  by rewrite !alter_insert_eq.
Qed.

(** Whenever [_create_collection] returns, the store lists the
    collection. *)
Lemma create_collection_exists (valid_vectors : Z -> string -> bool)
    (self : QdrantUploader) (store store' : gmap string Collection) :
  _create_collection valid_vectors self store = Ok store' ->
  collection_exists self store' = true.
Proof.
  intros Hcreate. apply collection_exists_spec.
  destruct (store !! collection_name self) as [c |] eqn:Hc.
  - rewrite create_collection_present in Hcreate by (by eexists).
    injection Hcreate as <-. by eexists.
  - rewrite create_collection_absent in Hcreate by done.
    destruct (valid_vectors _ _); [| discriminate].
    injection Hcreate as <-. rewrite lookup_insert_eq. by eexists.
Qed.

(** A raise of [_create_collection] comes from [create_collection], for a
    collection the store does not list. *)
Lemma create_collection_Raise (valid_vectors : Z -> string -> bool)
    (self : QdrantUploader) (store : gmap string Collection) (e : exn) :
  _create_collection valid_vectors self store = Raise e ->
  store !! collection_name self = None
  /\ valid_vectors (uploader_vector_size self) (distance self) = false.
Proof.
  intros Hcreate.
  destruct (store !! collection_name self) as [c |] eqn:Hc.
  - by rewrite create_collection_present in Hcreate by (by eexists).
  - rewrite create_collection_absent in Hcreate by done.
    by destruct (valid_vectors _ _).
Qed.

Lemma QdrantUploader_init_Ok (valid_vectors : Z -> string -> bool)
    (openable : bool) (store store' : gmap string Collection)
    (name dist : string) (size : Z) (self : QdrantUploader) :
  QdrantUploader_init valid_vectors openable store name size dist
  = Ok (self, store') ->
  self = {| collection_name := name; uploader_vector_size := size;
            distance := dist |}
  /\ openable = true
  /\ _create_collection valid_vectors self store = Ok store'.
Proof.
  unfold QdrantUploader_init. destruct openable; cbn [negb]; [| discriminate].
  destruct (_create_collection _ _ _) as [s |] eqn:Hcreate;
    cbn [mbind result_bind]; [| discriminate].
  intros [= <- <-]. done.
Qed.
(** ** The construction of the generator *)

Lemma EmbeddingGenerator_init_cases (environ : gmap string string)
    (jinaai : Jinaai) (name : string) (size : Z) (key : option string) :
  EmbeddingGenerator_init environ jinaai name size key
  = if negb (installed jinaai) then (jinaai, Throws ImportError)
    else if truthy_str (or_ key (environ !! "JINA_API_KEY"))
    then ({| installed := installed jinaai;
             api_key := or_ key (environ !! "JINA_API_KEY") |},
          Returns {| model_name := name; vector_size := size |})
    else (jinaai, Throws (Exn ValueError)).
Proof.
  unfold EmbeddingGenerator_init, _initialize_client.
  destruct (installed jinaai); cbn [negb]; [| reflexivity].
  by destruct (truthy_str _).
Qed.

Lemma truthy_or (a b : option string) :
  truthy_str (or_ a b) = truthy_str a || truthy_str b.
Proof. unfold or_. by destruct (truthy_str a) eqn:Ha; [rewrite Ha |]. Qed.

(** ** From the command line to the batch loop *)

Lemma mkdir_lookup (files files' : gmap string Node)
    (creatable : string -> bool) (path p : string) :
  mkdir files creatable path = Returns files' ->
  is_Some (files !! p) -> files' !! p = files !! p.
Proof.
  unfold mkdir. intros Hmk Hp.
  destruct (files !! path) as [[content | entries] |] eqn:Hpath;
    [discriminate | by injection Hmk as <- |].
  destruct (creatable path); [| discriminate].
  injection Hmk as <-. apply lookup_insert_ne. intros <-.
  rewrite Hpath in Hp. by destruct Hp.
Qed.

Lemma exists_spec (files : gmap string Node) (path : string) :
  exists_ files path = true <-> is_Some (files !! path).
Proof. unfold exists_. apply bool_decide_eq_true. Qed.

(** ** The example loop *)

Section QuickStartLoop.

Variable polygon_fill : list (Q * Q) -> Z -> Z -> bool.
Variable jinaai_embed : nat -> list (Image RGB) -> result (list Vector).
Variable client_upsert : nat -> list UploadObject -> result unit.
Variable image_processor : ImageProcessor.
Variable embedding_generator : EmbeddingGenerator.
Variable coco_data : CocoData.

Hypothesis Hwf : well_formed image_processor.
Hypothesis Hres : Forall (resolves coco_data) (annotations coco_data).
Hypothesis Hans : answers_every_image jinaai_embed.
Hypothesis Hnodup : NoDup (map img_id (images coco_data)).

(** With no id on two image records, the scan of the example and the table
    of the batch loop find the same record. *)
Lemma next_image_table (ann : Annotation) :
  ann ∈ annotations coco_data ->
  next_image (images coco_data) (ann_image_id ann)
  = dict_get (image_table coco_data) (ann_image_id ann)
  /\ exists image_info,
       next_image (images coco_data) (ann_image_id ann) = Ok image_info.
Proof.
  intros Hann. unfold dict_get, image_table.
  rewrite image_data_of_last, next_image_head.
  rewrite decide_True by (by apply elem_of_map).
  rewrite head_last_short by (by apply filter_id_unique).
  destruct (last _) as [image_info |] eqn:Hlast.
  - split; [reflexivity | by eexists].
  - exfalso. apply last_None in Hlast.
    rewrite Forall_forall in Hres. destruct (Hres ann Hann) as [Himg _].
    rewrite list_elem_of_In in Himg. apply in_map_iff in Himg
      as (img & Hid & Hin).
    assert (img ∈ filter (fun img => img_id img = ann_image_id ann)
                    (images coco_data)) as Hf
      by (apply list_elem_of_filter; split; [done | by apply list_elem_of_In]).
    rewrite Hlast in Hf. by apply elem_of_nil in Hf.
Qed.

Lemma quick_start_step_completes (run : Run) (ann : Annotation) :
  ann ∈ annotations coco_data ->
  exists records,
    (length records <= 1)%nat
    /\ map record_key records
       = map stored_key
           (survivors polygon_fill image_processor coco_data [ann])
    /\ quick_start_step polygon_fill jinaai_embed client_upsert
         image_processor embedding_generator coco_data run ann
       = match records with
         | [] => (run, Ok ())
         | _ =>
             match client_upsert (length (upserts run)) records with
             | Ok _ => (after_upsert (after_embedding run) records, Ok ())
             | Raise e => (after_embedding run, Raise e)
             end
         end.
Proof.
  intros Hann. unfold quick_start_step.
  destruct (next_image_table ann Hann) as [Htable (image_info & Himg)].
  rewrite Himg in Htable. rewrite Himg. cbn [mbind result_bind].
  rewrite Forall_forall in Hres. destruct (Hres ann Hann) as [_ Hcat].
  destruct (next_category (categories coco_data) (ann_category_id ann))
    as [category | e] eqn:Hnext;
    [| apply next_category_Raise in Hnext as (_ & ? & _); done].
  cbn [mbind result_bind].
  destruct (crop_object_total polygon_fill image_processor
              (img_file_name image_info) (ann_bbox ann)
              (ann_segmentation ann) Hwf) as (cropped_image & Hcrop).
  rewrite Hcrop. cbn [mbind result_bind].
  unfold survivors. cbn [omap list_omap]. unfold survivor.
  rewrite <- Htable, Hnext, Hcrop.
  destruct cropped_image as [im |].
  - pose proof (generate_embeddings_length jinaai_embed embedding_generator
                  (embed_calls run) [im] Hans) as Hlen.
    destruct (generate_embeddings jinaai_embed embedding_generator
                (embed_calls run) [im]) as [| v vs];
      [simpl in Hlen; lia |].
    cbn [list_get lookup list_lookup].
    exists [upload_object
              {| c_image := im; c_annotation := ann;
                 c_image_info := image_info; c_category := category |} v].
    split; [simpl; lia |]. split; [reflexivity |].
    unfold Store.upload_batch. cbn [upserts embed_calls].
    by destruct (client_upsert _ _) as [[] | e].
  - exists []. split; [simpl; lia |]. split; reflexivity.
Qed.

Lemma quick_start_loop_completes (anns : list Annotation) (run : Run) :
  anns ⊆ annotations coco_data ->
  exists run' r new,
    quick_start_loop polygon_fill jinaai_embed client_upsert image_processor
      embedding_generator coco_data run anns = (run', r)
    /\ upserts run' = upserts run ++ new
    /\ Forall (fun records => length records = 1%nat) new
    /\ ((r = Ok ()
         /\ embed_calls run' = (embed_calls run + length new)%nat
         /\ map record_key (concat new)
            = map stored_key
                (survivors polygon_fill image_processor coco_data anns))
        \/ (exists refused e,
              r = Raise e
              /\ client_upsert (length (upserts run')) refused = Raise e
              /\ length refused = 1%nat
              /\ embed_calls run' = S (embed_calls run + length new)
              /\ map record_key (concat new ++ refused)
                 `prefix_of`
                 map stored_key
                   (survivors polygon_fill image_processor coco_data anns))).
Proof.
  revert run. induction anns as [| ann rest IH]; intros run Hsub.
  - exists run, (Ok ()), []. rewrite app_nil_r.
    split; [reflexivity |]. split; [reflexivity |]. split; [constructor |].
    left. split; [reflexivity |]. split; [simpl; lia | reflexivity].
  - assert (ann ∈ annotations coco_data) as Hann by (apply Hsub; left).
    assert (rest ⊆ annotations coco_data) as Hrest
      by (intros a Ha; apply Hsub; by right).
    destruct (quick_start_step_completes run ann Hann)
      as (records & Hlen & Hkeys & Hstep).
    cbn [quick_start_loop]. rewrite Hstep.
    change (ann :: rest) with ([ann] ++ rest).
    unfold survivors at 1 2. rewrite omap_app.
    fold (survivors polygon_fill image_processor coco_data [ann]).
    fold (survivors polygon_fill image_processor coco_data rest).
    rewrite map_app, <- Hkeys.
    destruct records as [| record records'].
    + destruct (IH run Hrest) as (run' & r & new & Hrun & Hup & Hall & Hcase).
      exists run', r, new. by repeat split.
    + assert (records' = []) as ->
        by (destruct records'; [done | simpl in Hlen; lia]).
      destruct (client_upsert (length (upserts run)) [record])
        as [[] | e] eqn:Hupsert.
      * destruct (IH (after_upsert (after_embedding run) [record]) Hrest)
          as (run' & r & new & Hrun & Hup & Hall & Hcase).
        cbn [after_upsert after_embedding upserts embed_calls] in Hup, Hcase.
        exists run', r, ([record] :: new). split; [exact Hrun |].
        split; [by rewrite Hup, <- app_assoc |].
        split; [by constructor |].
        destruct Hcase as [(-> & Hcalls & Hnew)
                          | (refused & e & -> & Href & Hone & Hcalls & Hpre)].
        -- left. split; [reflexivity |].
           split; [rewrite Hcalls; simpl; lia |].
           cbn [concat]. by rewrite map_app, Hnew.
        -- right. exists refused, e. split; [reflexivity |].
           split; [exact Href |]. split; [exact Hone |].
           split; [rewrite Hcalls; simpl; lia |].
           cbn [concat]. rewrite <- app_assoc, map_app.
           by apply prefix_app.
      * exists (after_embedding run), (Raise e), [].
        split; [reflexivity |].
        split; [by rewrite app_nil_r |]. split; [constructor |].
        right. exists [record], e. split; [reflexivity |].
        split; [exact Hupsert |]. split; [reflexivity |].
        split; [simpl; lia |].
        cbn [concat app]. by apply prefix_app_r.
Qed.

End QuickStartLoop.

(** ** The masked key *)

Lemma masked_key_long (key : list Ascii.ascii) :
  (12 <= length key)%nat ->
  masked_key key
  = take 8 key ++ replicate (length key - 12) "*"%char
    ++ drop (length key - 4) key.
Proof.
  intros Hlen. unfold masked_key, replicate_py, len. do 3 f_equal. lia.
Qed.

Lemma masked_key_short (key : list Ascii.ascii) :
  (length key <= 12)%nat ->
  masked_key key = take 8 key ++ drop (length key - 4) key.
Proof.
  intros Hlen. unfold masked_key, replicate_py, len.
  replace (Z.to_nat (Z.of_nat (length key) - 12)) with O by lia.
  reflexivity.
Qed.

(** ** Facts about the fixtures *)

Lemma answers_every_image_size_embed : answers_every_image size_embed.
Proof.
  intros calls imgs results [= <-]. by rewrite length_map.
Qed.

Lemma test_processor_nonempty (use_seg : bool) :
  nonempty_images (test_processor use_seg).
Proof.
  unfold nonempty_images, test_processor. cbn [images_dir].
  repeat apply map_Forall_insert_2; try apply map_Forall_empty;
    simpl; try done; split; lia.
Qed.

Lemma sample_coco_resolves :
  Forall (resolves sample_coco) (annotations sample_coco).
Proof. repeat constructor; set_solver. Qed.

Lemma test_files_parse :
  parse test_files {| annotations_path := "annotations.json" |}
  = Returns sample_coco.
Proof.
  apply parse_Returns. split; [| apply sample_coco_resolves].
  by exists sample_document.
Qed.

Lemma sample_coco_nodup : NoDup (map img_id (images sample_coco)).
Proof.
  cbn. apply NoDup_cons. split; [| apply NoDup_singleton].
  rewrite not_elem_of_cons. split; [done | apply not_elem_of_nil].
Qed.

(** ** The size of a region, and the mask as a union *)

Lemma crop_size {P : Type} `{Mode P} (im : Image P) (l u r b : Z)
    (region : Image P) :
  crop im (l, u, r, b) = Ok region ->
  l <= r /\ u <= b /\ size region = (r - l, b - u).
Proof.
  unfold crop. destruct ((r <? l) || (b <? u)) eqn:Hbox; [discriminate |].
  intros [= <-]. repeat split; lia.
Qed.

Lemma crop_by_bbox_size (image region : Image RGB) (bbox : list Q) :
  1 <= width image -> 1 <= height image ->
  _crop_by_bbox image bbox = Ok region ->
  1 <= width region <= width image /\ 1 <= height region <= height image.
Proof.
  intros HW HH Hcrop.
  destruct bbox as [| x [| y [| w [| h [| ? ?]]]]]; try discriminate.
  destruct (Z_lt_le_dec (clamped_width image x w) 1) as [Hw | Hw];
    [rewrite crop_by_bbox_fallback in Hcrop by (by left) |
     destruct (Z_lt_le_dec (clamped_height image y h) 1) as [Hh | Hh];
     [rewrite crop_by_bbox_fallback in Hcrop by (by right) |
      rewrite crop_by_bbox_clamped in Hcrop by done]];
    apply crop_size in Hcrop as (_ & _ & [= -> ->]);
    unfold clamped_width, clamped_height in *; lia.
Qed.

Lemma crop_by_segmentation_size
    (polygon_fill : list (Q * Q) -> Z -> Z -> bool)
    (image region : Image RGB) (segmentation : list (list Q)) :
  1 <= width image -> 1 <= height image ->
  _crop_by_segmentation polygon_fill image segmentation = Ok region ->
  1 <= width region <= width image /\ 1 <= height region <= height image.
Proof.
  intros HW HH Hcrop.
  destruct (region_box polygon_fill image segmentation)
    as [[[[lft upr] rgt] lwr] |] eqn:Hbox.
  - destruct (crop_by_segmentation_region polygon_fill image segmentation
                lft upr rgt lwr ltac:(lia) ltac:(lia) Hbox)
      as (region' & Hregion & [= Hw Hh] & _).
    rewrite Hregion in Hcrop. injection Hcrop as <-.
    pose proof (getbbox_on_canvas _ _ _ _ _ Hbox) as (Hx & Hx1 & Hy & Hy1).
    pose proof (draw_segmentation_size polygon_fill (blank_mask image)
                  segmentation) as [= HmW HmH].
    cbn [blank_mask width height] in HmW, HmH.
    fold (segmentation_mask polygon_fill image segmentation) in HmW, HmH.
    lia.
  - rewrite crop_by_segmentation_fallback in Hcrop by (done || lia).
    apply crop_size in Hcrop as (_ & _ & [= -> ->]). lia.
Qed.

Lemma draw_segmentation_pixels
    (polygon_fill : list (Q * Q) -> Z -> Z -> bool)
    (segmentation : list (list Q)) (mask : Image L) (x y : Z) :
  pixels (draw_segmentation polygon_fill mask segmentation) x y
  = if inside mask x y
       && existsb (fun polygon =>
                     (3 <=? len (points_of polygon))
                     && polygon_fill (points_of polygon) x y)
                  segmentation
    then 255
    else pixels mask x y.
Proof.
  revert mask. induction segmentation as [| polygon rest IH]; intros mask.
  - cbn. by rewrite andb_false_r.
  - unfold draw_segmentation in *. cbn [foldl existsb]. rewrite IH. clear IH.
    destruct (3 <=? len (points_of polygon)); cbn [andb orb]; [| reflexivity].
    unfold draw_polygon, inside. cbn [width height pixels].
    fold (inside mask x y).
    destruct (inside mask x y); cbn [andb]; [| reflexivity].
    destruct (polygon_fill (points_of polygon) x y); cbn [orb];
      [by destruct (existsb _ rest) | reflexivity].
Qed.

Lemma existsb_Permutation {A : Type} (f : A -> bool) (l l' : list A) :
  l ≡ₚ l' -> existsb f l = existsb f l'.
Proof.
  induction 1 as [| a l l' _ IH | a b l | l l' l'' _ IH _ IH'];
    cbn [existsb]; [reflexivity | by rewrite IH | | congruence].
  by destruct (f a), (f b).
Qed.
(** ** A bounding box of any JSON numbers *)

Lemma any_crop_by_bbox_finite (image : Image RGB) (bbox : list Q) :
  AnyNumber._crop_by_bbox image (map Finite bbox)
  = lift (_crop_by_bbox image bbox).
Proof.
  destruct bbox as [| x [| y [| w [| h [| ? ?]]]]]; try reflexivity.
  cbn [map AnyNumber._crop_by_bbox _crop_by_bbox int_of mbind outcome_bind].
  by destruct (_ || _).
Qed.

Lemma first_nonfinite_finite (bbox : list Q) :
  first_nonfinite (map Finite bbox) = None.
Proof. induction bbox as [| v bbox IH]; [reflexivity | exact IH]. Qed.

(** On an image with a size, [_crop_by_bbox] on four numbers raises exactly
    the exception of the first call of [int] on a number that is not
    finite. *)
Lemma any_crop_by_bbox_Throws (image : Image RGB) (x y w h : number)
    (e : exception) :
  0 <= width image -> 0 <= height image ->
  AnyNumber._crop_by_bbox image [x; y; w; h] = Throws e
  <-> first_nonfinite [x; y; w; h] = Some e.
Proof.
  intros HW HH.
  destruct x as [x | |]; [| by split; intros [= <-] .. ].
  destruct y as [y | |]; [| by split; intros [= <-] .. ].
  destruct w as [w | |]; [| by split; intros [= <-] .. ].
  destruct h as [h | |]; [| by split; intros [= <-] .. ].
  change [Finite x; Finite y; Finite w; Finite h]
    with (map Finite [x; y; w; h]).
  rewrite any_crop_by_bbox_finite, first_nonfinite_finite.
  destruct (crop_by_bbox_total image [x; y; w; h] HW HH eq_refl)
    as (region & ->).
  by split.
Qed.

Lemma any_crop_object_finite
    (polygon_fill : list (Q * Q) -> Z -> Z -> bool) (self : ImageProcessor)
    (image_filename : string) (bbox : option (list Q))
    (segmentation : option (list (list Q))) :
  AnyNumber.crop_object polygon_fill self image_filename
    (map Finite <$> bbox) segmentation
  = lift (crop_object polygon_fill self image_filename bbox segmentation).
Proof.
  unfold AnyNumber.crop_object, crop_object.
  destruct (load_image self image_filename) as [image |]; [| reflexivity].
  destruct (_ && _ && _); [reflexivity |].
  assert (truthy (map Finite <$> bbox) = truthy bbox) as ->
    by (by destruct bbox as [[| ? ?] |]).
  assert (len (default [] (map Finite <$> bbox)) = len (default [] bbox))
    as ->.
  { destruct bbox as [b |]; [| reflexivity]. unfold len. simpl.
    by rewrite length_map. }
  destruct (truthy bbox && _); [| reflexivity].
  assert (default [] (map Finite <$> bbox) = map Finite (default [] bbox))
    as -> by (by destruct bbox).
  rewrite any_crop_by_bbox_finite.
  by destruct (_crop_by_bbox image (default [] bbox)).
Qed.

(** ** The region of a rectangle *)

(** For a fill that covers on the canvas exactly the pixels of a non-empty
    box of the canvas, the region is cut from the source at that box. *)
Lemma covered_box_region
    (polygon_fill : list (Q * Q) -> Z -> Z -> bool) (image : Image RGB)
    (x0 y0 x1 y1 a0 b0 a1 b1 : Z) :
  0 <= a0 < a1 -> a1 <= width image ->
  0 <= b0 < b1 -> b1 <= height image ->
  (forall x y, inside image x y = true ->
               polygon_fill (points_of (rectangle x0 y0 x1 y1)) x y
               = in_rectangle a0 b0 a1 b1 x y) ->
  region_box polygon_fill image [rectangle x0 y0 x1 y1]
  = Some (a0, b0, a1, b1)
  /\ exists region,
       _crop_by_segmentation polygon_fill image [rectangle x0 y0 x1 y1]
       = Ok region
       /\ size region = (a1 - a0, b1 - b0)
       /\ forall i j, 0 <= i < a1 - a0 -> 0 <= j < b1 - b0 ->
            pixels region i j = pixels image (a0 + i) (b0 + j).
Proof.
  intros Hx Hx1 Hy Hy1 Hfill.
  assert (forall x y, inside image x y = true ->
            pixels (segmentation_mask polygon_fill image
                      [rectangle x0 y0 x1 y1]) x y
            = if in_rectangle a0 b0 a1 b1 x y then 255 else 0) as Hmask.
  { intros x y Hin. rewrite segmentation_mask_single by (simpl; lia).
    cbn [draw_polygon pixels blank_mask].
    replace (inside (blank_mask image) x y) with true by (by rewrite <- Hin).
    by rewrite Hfill. }
  assert (region_box polygon_fill image [rectangle x0 y0 x1 y1]
          = Some (a0, b0, a1, b1)) as Hbox.
  { unfold region_box. apply getbbox_rectangle.
    - exact Hx.
    - by rewrite segmentation_mask_single by (simpl; lia).
    - exact Hy.
    - by rewrite segmentation_mask_single by (simpl; lia).
    - intros x y Hin. rewrite Hmask.
      + by destruct (in_rectangle a0 b0 a1 b1 x y).
      + rewrite segmentation_mask_single in Hin by (simpl; lia). exact Hin. }
  split; [exact Hbox |].
  destruct (crop_by_segmentation_region polygon_fill image
              [rectangle x0 y0 x1 y1] a0 b0 a1 b1)
    as (region & Hregion & Hsize & Hpix); [lia | lia | exact Hbox |].
  exists region. split; [exact Hregion |]. split; [exact Hsize |].
  intros i j Hi Hj. rewrite (Hpix i j Hi Hj).
  rewrite Hmask by (apply inside_spec; lia).
  unfold in_rectangle.
  by replace ((a0 <=? a0 + i) && (a0 + i <? a1) && (b0 <=? b0 + j)
              && (b0 + j <? b1)) with true by lia.
Qed.

(** [inclusive_fill] on a rectangle covers the rectangle with its
    boundary. *)
Lemma inclusive_fill_rectangle (x0 y0 x1 y1 x y : Z) :
  x0 <= x1 -> y0 <= y1 ->
  inclusive_fill (points_of (rectangle x0 y0 x1 y1)) x y
  = (x0 <=? x) && (x <=? x1) && (y0 <=? y) && (y <=? y1).
Proof.
  intros Hx Hy. rewrite points_of_rectangle. unfold inclusive_fill.
  cbn [map fst snd foldr]. rewrite !int_num.
  apply Bool.eq_iff_eq_true. rewrite !andb_true_iff, !Z.leb_le. lia.
Qed.

(** * The properties of the core *)

(** C1 (amended): for a bounding box whose clamped width or height is below 1,
    the bounding-box extraction does not fail: [_crop_by_bbox] returns, and
    [crop_object] hands on, the crop of the source image at
    [(0, 0, min(10, width), min(10, height))]. *)
Theorem degenerate_bbox_returns_fallback_crop
    (polygon_fill : list (Q * Q) -> Z -> Z -> bool) (self : ImageProcessor)
    (image_filename : string) (image : Image RGB) (x y w h : Q)
    (segmentation : option (list (list Q))) :
  load_image self image_filename = Some image ->
  use_segmentation self = false \/ segmentation = None \/ segmentation = Some [] ->
  0 <= width image -> 0 <= height image ->
  clamped_width image x w < 1 \/ clamped_height image y h < 1 ->
  exists region,
    _crop_by_bbox image [x; y; w; h] = Ok region
    /\ crop_object polygon_fill self image_filename (Some [x; y; w; h]) segmentation
       = Ok (Some region)
    /\ size region = (Z.min 10 (width image), Z.min 10 (height image))
    /\ forall i j, 0 <= i < Z.min 10 (width image) ->
                   0 <= j < Z.min 10 (height image) ->
                   pixels region i j = pixels image i j.
Proof.
  intros Hload Hseg HW HH Hdeg.
  destruct (crop_ok image 0 0 (Z.min 10 (width image)) (Z.min 10 (height image)))
    as (region & Hcrop & Hsize & Hpix); [lia | lia |].
  exists region.
  assert (_crop_by_bbox image [x; y; w; h] = Ok region) as Hbox
    by (by rewrite crop_by_bbox_fallback).
  split; [exact Hbox |]. split.
  - rewrite (crop_object_bbox_path _ _ _ image) by assumption.
    cbv beta iota. rewrite decide_True by reflexivity. by rewrite Hbox.
  - split; [by rewrite Hsize, !Z.sub_0_r |].
    intros i j Hi Hj. apply (Hpix i j), inside_spec. lia.
Qed.

Lemma degenerate_bbox_returns_fallback_crop_witness :
  clamped_width test_image (num 50) (num (-10)) < 1
  /\ exists region,
       _crop_by_bbox test_image [num 50; num 40; num (-10); num 80] = Ok region
       /\ crop_object even_odd_fill (test_processor false) "test_image.jpg"
            (Some [num 50; num 40; num (-10); num 80]) None
          = Ok (Some region)
       /\ size region = (10, 10).
Proof.
  split; [vm_compute; reflexivity |].
  destruct (degenerate_bbox_returns_fallback_crop even_odd_fill
              (test_processor false) "test_image.jpg" test_image
              (num 50) (num 40) (num (-10)) (num 80) None)
    as (region & Hbox & Hobj & Hsize & _).
  - vm_compute; reflexivity.
  - right; left; reflexivity.
  - vm_compute; discriminate.
  - vm_compute; discriminate.
  - left; vm_compute; reflexivity.
  - exists region. split; [exact Hbox |]. split; [exact Hobj | exact Hsize].
Defined.

(** C1 (as stated) fails: on the 300 x 200 test image the box
    [[50, 40, -10, 80]] has clamped width [-10], and the extraction returns a
    10 x 10 region instead of failing. *)
Lemma degenerate_bbox_counterexample :
  clamped_width test_image (num 50) (num (-10)) = -10
  /\ region_size (crop_object even_odd_fill (test_processor false)
                    "test_image.jpg"
                    (Some [num 50; num 40; num (-10); num 80]) None)
     = Ok (Some (10, 10)).
Proof. split; vm_compute; reflexivity. Qed.

(** C2 (amended): a polygon with fewer than three coordinate pairs leaves the
    mask as it was, wherever it stands in the segmentation; a segmentation of
    such polygons only leaves the mask empty; and with an empty mask the
    segmentation extraction does not fail: it returns the crop of the source
    image at [(0, 0, min(10, width), min(10, height))]. *)
Theorem degenerate_polygons_leave_fallback_crop
    (polygon_fill : list (Q * Q) -> Z -> Z -> bool)
    (image : Image RGB) (segmentation : list (list Q)) :
  0 <= width image -> 0 <= height image ->
  (forall (mask : Image L) (pre post : list (list Q)) (polygon : list Q),
      degenerate polygon ->
      draw_segmentation polygon_fill mask (pre ++ polygon :: post)
      = draw_segmentation polygon_fill mask (pre ++ post))
  /\ (Forall degenerate segmentation ->
      segmentation_mask polygon_fill image segmentation = blank_mask image
      /\ region_box polygon_fill image segmentation = None)
  /\ (region_box polygon_fill image segmentation = None ->
      exists region,
        _crop_by_segmentation polygon_fill image segmentation = Ok region
        /\ size region = (Z.min 10 (width image), Z.min 10 (height image))
        /\ forall i j, 0 <= i < Z.min 10 (width image) ->
                       0 <= j < Z.min 10 (height image) ->
                       pixels region i j = pixels image i j).
Proof.
  intros HW HH. split; [| split].
  - intros mask pre post polygon Hdeg.
    rewrite !draw_segmentation_app.
    by rewrite draw_segmentation_cons_degenerate.
  - intros Hall. unfold region_box, segmentation_mask.
    rewrite draw_segmentation_all_degenerate by assumption.
    split; [reflexivity | apply getbbox_blank].
  - intros Hbox.
    destruct (crop_ok image 0 0 (Z.min 10 (width image))
                (Z.min 10 (height image)))
      as (region & Hcrop & Hsize & Hpix); [lia | lia |].
    exists region. split; [by rewrite crop_by_segmentation_fallback |].
    split; [by rewrite Hsize, !Z.sub_0_r |].
    intros i j Hi Hj. apply (Hpix i j), inside_spec. lia.
Qed.

Lemma degenerate_polygons_leave_fallback_crop_witness :
  0 <= width test_image /\ 0 <= height test_image
  /\ Forall degenerate [[num 50; num 40; num 150; num 40]]
  /\ region_box even_odd_fill test_image [[num 50; num 40; num 150; num 40]]
     = None
  /\ exists region,
       _crop_by_segmentation even_odd_fill test_image
         [[num 50; num 40; num 150; num 40]] = Ok region
       /\ size region = (10, 10).
Proof.
  assert (Forall degenerate [[num 50; num 40; num 150; num 40]]) as Hdeg
    by (repeat constructor).
  destruct (degenerate_polygons_leave_fallback_crop even_odd_fill test_image
              [[num 50; num 40; num 150; num 40]])
    as (_ & Hempty & Hcrop); [vm_compute; discriminate.. |].
  destruct (Hempty Hdeg) as [_ Hbox].
  destruct (Hcrop Hbox) as (region & Hres & Hsize & _).
  split; [vm_compute; discriminate |]. split; [vm_compute; discriminate |].
  split; [exact Hdeg |]. split; [exact Hbox |].
  exists region. split; [exact Hres | exact Hsize].
Defined.

(** C2 (as stated) fails in its second half: with segmentation enabled, the
    two-point polygon [[50, 40, 150, 40]] on the 300 x 200 test image sets no
    mask pixel, and the extraction returns a 10 x 10 region instead of
    failing. *)
Lemma degenerate_polygons_counterexample :
  length (points_of [num 50; num 40; num 150; num 40]) = 2%nat
  /\ region_box even_odd_fill test_image [[num 50; num 40; num 150; num 40]]
     = None
  /\ region_size (crop_object even_odd_fill (test_processor true)
                    "test_image.jpg" None
                    (Some [[num 50; num 40; num 150; num 40]]))
     = Ok (Some (10, 10)).
Proof. repeat split; vm_compute; reflexivity. Qed.

(** C3 (amended): for a batch with at least one surviving object whose
    embedding request returns a list of another length than the regions
    sent, no check is made.  A longer list is used as it is: the batch is
    upserted with the first vectors attached by position and the surplus
    dropped, and the loop goes on.  A shorter list makes the indexing
    [embeddings[i]] raise [IndexError] at the first missing vector: nothing
    of the batch is upserted, no later batch is processed and the run ends
    with exit code 1. *)
Theorem embedding_length_mismatch_unchecked
    (polygon_fill : list (Q * Q) -> Z -> Z -> bool)
    (jinaai_embed : nat -> list (Image RGB) -> result (list Vector))
    (image_processor : ImageProcessor) (embedding_generator : EmbeddingGenerator)
    (coco_data : CocoData) (batch_size : Z) (run : Run) (i : Z)
    (rest : list Z) (results : list Vector) :
  let batch_annotations := slice (annotations coco_data) i batch_size in
  let cropped_objects :=
    omap (survivor polygon_fill image_processor coco_data
            (image_data_of (images coco_data)
               (map ann_image_id batch_annotations)))
         batch_annotations in
  well_formed image_processor ->
  Forall (resolves coco_data) batch_annotations ->
  cropped_objects <> [] ->
  jinaai_embed (embed_calls run) (map c_image cropped_objects) = Ok results ->
  ((length cropped_objects < length results)%nat ->
   let records :=
     zip_with upload_object cropped_objects
       (take (length cropped_objects) results) in
   length records = length cropped_objects
   /\ process_batch polygon_fill jinaai_embed image_processor
        embedding_generator coco_data run batch_annotations
      = (after_upsert (after_embedding run) records, Ok ())
   /\ run_batches polygon_fill jinaai_embed image_processor
        embedding_generator coco_data batch_size run (i :: rest)
      = run_batches polygon_fill jinaai_embed image_processor
          embedding_generator coco_data batch_size
          (after_upsert (after_embedding run) records) rest)
  /\ ((length results < length cropped_objects)%nat ->
      process_batch polygon_fill jinaai_embed image_processor
        embedding_generator coco_data run batch_annotations
      = (after_embedding run, Raise IndexError)
      /\ run_batches polygon_fill jinaai_embed image_processor
           embedding_generator coco_data batch_size run (i :: rest)
         = (after_embedding run, Raise IndexError)
      /\ forall pre : list Z,
           range_step (len (annotations coco_data)) batch_size
           = Ok (pre ++ i :: rest) ->
           run_batches polygon_fill jinaai_embed image_processor
             embedding_generator coco_data batch_size run0 pre
           = (run, Ok ()) ->
           process_objects polygon_fill jinaai_embed image_processor
             embedding_generator coco_data batch_size
           = (1, after_embedding run)).
Proof.
  intros batch_annotations cropped_objects Hwf Hres Hne Hans.
  pose proof (crop_loop_total polygon_fill image_processor coco_data
                (map ann_image_id batch_annotations) batch_annotations []
                Hwf (batch_image_ids batch_annotations) Hres) as Hcrop.
  rewrite app_nil_l in Hcrop. fold cropped_objects in Hcrop.
  assert (generate_embeddings jinaai_embed embedding_generator
            (embed_calls run) (map c_image cropped_objects) = results) as Hemb.
  { apply generate_embeddings_answer; [| exact Hans].
    by destruct cropped_objects. }
  pose proof (process_batch_cropped polygon_fill jinaai_embed image_processor
                embedding_generator coco_data run batch_annotations
                cropped_objects results Hcrop Hne Hemb) as Hbatch.
  split.
  - intros Hlong records. subst records. rewrite zip_with_take_r.
    rewrite decide_True in Hbatch by lia.
    split; [rewrite length_zip_with; lia |]. split; [exact Hbatch |].
    by apply run_batches_next.
  - intros Hshort. rewrite decide_False in Hbatch by lia.
    split; [exact Hbatch |]. split; [by apply run_batches_stop |].
    intros pre Hstarts Hpre. by eapply process_objects_abort.
Qed.

Lemma embedding_length_mismatch_unchecked_witness :
  well_formed (test_processor false)
  /\ Forall (resolves sample_coco) (annotations sample_coco)
  /\ fst (process_objects even_odd_fill short_embed (test_processor false)
            test_generator sample_coco 32) = 1
  /\ upserts (snd (process_objects even_odd_fill short_embed
                     (test_processor false) test_generator sample_coco 32))
     = [].
Proof.
  assert (Forall (resolves sample_coco) (annotations sample_coco)) as Hres
    by (repeat constructor; set_solver).
  split; [apply test_processor_well_formed |]. split; [exact Hres |].
  edestruct (embedding_length_mismatch_unchecked even_odd_fill short_embed
               (test_processor false) test_generator sample_coco 32 run0 0 [])
    as [_ Hshort].
  - apply test_processor_well_formed.
  - exact Hres.
  - vm_compute. discriminate.
  - vm_compute. reflexivity.
  - destruct Hshort as (_ & _ & Hrun); [vm_compute; lia |].
    rewrite (Hrun []); [split; reflexivity | reflexivity | reflexivity].
Defined.

(** C3 (as stated) fails: two regions of the sample file survive, the
    embedding service answers three vectors, and the run upserts the two
    records and ends with exit code 0; nothing reports the mismatch. *)
Lemma embedding_length_mismatch_counterexample :
  match foldl_result
          (crop_step even_odd_fill (test_processor false) sample_coco
             (image_data_of (images sample_coco)
                (map ann_image_id (annotations sample_coco))))
          [] (annotations sample_coco) with
  | Ok cropped_objects =>
      length cropped_objects = 2%nat
      /\ length (generate_embeddings long_embed test_generator 0
                   (map c_image cropped_objects)) = 3%nat
  | Raise _ => False
  end
  /\ fst (main even_odd_fill long_embed (test_processor false) test_generator
            sample_coco 32) = 0
  /\ map (map u_id)
         (upserts (snd (main even_odd_fill long_embed (test_processor false)
                          test_generator sample_coco 32)))
     = [[11; 13]].
Proof. repeat split; vm_compute; reflexivity. Qed.

(** C4: when the call to the embedding service raises on a non-empty list of
    [n] images, [generate_embeddings] returns [n] vectors, each the zero-filled
    vector of the configured size. *)
Theorem generate_embeddings_zero_vectors_on_error
    (jinaai_embed : nat -> list (Image RGB) -> result (list Vector))
    (self : EmbeddingGenerator) (calls : nat) (images : list (Image RGB))
    (e : exn) :
  images <> [] -> jinaai_embed calls images = Raise e ->
  length (generate_embeddings jinaai_embed self calls images) = length images
  /\ Forall (fun vector =>
               vector = replicate_py (vector_size self) 0%float
               /\ Forall (fun component => component = 0%float) vector
               /\ (0 <= vector_size self -> len vector = vector_size self))
            (generate_embeddings jinaai_embed self calls images).
Proof.
  intros Hne Hraise.
  rewrite (generate_embeddings_raise _ _ _ _ e) by assumption.
  split; [apply length_replicate |].
  apply Forall_replicate. split; [reflexivity |]. split.
  - unfold replicate_py. by apply Forall_replicate.
  - intros Hsize. unfold len, replicate_py. rewrite length_replicate. lia.
Qed.

Lemma generate_embeddings_zero_vectors_on_error_witness :
  failing_embed 0 [test_image; image_100] = Raise CollaboratorError
  /\ length (generate_embeddings failing_embed test_generator 0
               [test_image; image_100]) = 2%nat
  /\ Forall (fun vector => vector = [0; 0]%float)
            (generate_embeddings failing_embed test_generator 0
               [test_image; image_100]).
Proof.
  split; [reflexivity |].
  destruct (generate_embeddings_zero_vectors_on_error failing_embed
              test_generator 0 [test_image; image_100] CollaboratorError)
    as [Hlen Hzero]; [done | reflexivity |].
  split; [exact Hlen |].
  eapply Forall_impl; [exact Hzero |]. intros vector (Hvector & _).
  exact Hvector.
Defined.

(** C5 (amended): when an annotation of a batch fails to resolve its
    [image_id] or its [category_id], and the annotations before it in the
    batch resolve, the join stage raises ([KeyError] for the image,
    [StopIteration] for the category).  The batch makes no embedding request
    and no upsert, no later batch is processed, and the run ends with exit
    code 1.  From the annotation file on the run ends with exit code 1 before
    any batch, since the parser's check raises on such a file. *)
Theorem lookup_miss_aborts_the_run
    (polygon_fill : list (Q * Q) -> Z -> Z -> bool)
    (jinaai_embed : nat -> list (Image RGB) -> result (list Vector))
    (image_processor : ImageProcessor) (embedding_generator : EmbeddingGenerator)
    (coco_data : CocoData) (batch_size : Z) (run : Run) (i : Z)
    (rest : list Z) (before after : list Annotation) (ann : Annotation) :
  let batch_annotations := slice (annotations coco_data) i batch_size in
  well_formed image_processor ->
  batch_annotations = before ++ ann :: after ->
  Forall (resolves coco_data) before ->
  ~ resolves coco_data ann ->
  let e := if decide (ann_image_id ann ∈ map img_id (images coco_data))
           then StopIteration else KeyError in
  process_batch polygon_fill jinaai_embed image_processor embedding_generator
    coco_data run batch_annotations = (run, Raise e)
  /\ run_batches polygon_fill jinaai_embed image_processor embedding_generator
       coco_data batch_size run (i :: rest) = (run, Raise e)
  /\ (forall pre : list Z,
        range_step (len (annotations coco_data)) batch_size
        = Ok (pre ++ i :: rest) ->
        run_batches polygon_fill jinaai_embed image_processor
          embedding_generator coco_data batch_size run0 pre = (run, Ok ()) ->
        process_objects polygon_fill jinaai_embed image_processor
          embedding_generator coco_data batch_size = (1, run))
  /\ main polygon_fill jinaai_embed image_processor embedding_generator
       coco_data batch_size = (1, run0).
Proof.
  intros batch_annotations Hwf Hbatch Hbefore Hmiss e.
  assert (ann ∈ batch_annotations) as Hin
    by (rewrite Hbatch; apply elem_of_app; right; left).
  assert (Forall (fun a => ann_image_id a
                           ∈ map ann_image_id batch_annotations) before)
    as Hids_before.
  { apply Forall_forall. intros a Ha. apply elem_of_map.
    rewrite Hbatch. apply elem_of_app. by left. }
  assert (process_batch polygon_fill jinaai_embed image_processor
            embedding_generator coco_data run batch_annotations
          = (run, Raise e)) as Hraise.
  { apply process_batch_crop_raise.
    rewrite Hbatch at 2.
    rewrite foldl_result_app, crop_loop_total by assumption.
    cbn [mbind result_bind foldl_result].
    rewrite crop_step_miss;
      [reflexivity | by apply elem_of_map | exact Hmiss]. }
  split; [exact Hraise |]. split; [by apply run_batches_stop |]. split.
  - intros pre Hstarts Hpre. by eapply process_objects_abort.
  - unfold main.
    destruct (parse_validate_spec coco_data) as [[Hall _] | [_ ->]];
      [| reflexivity].
    exfalso. apply Hmiss. rewrite Forall_forall in Hall. apply Hall.
    by apply (elem_of_slice _ i batch_size).
Qed.

Lemma lookup_miss_aborts_the_run_witness :
  well_formed (test_processor false)
  /\ Forall (resolves dangling_coco) [annotation 11 1 1 [10; 10; 50; 50]]
  /\ ~ resolves dangling_coco (annotation 14 99 1 [0; 0; 20; 20])
  /\ process_batch even_odd_fill size_embed (test_processor false)
       test_generator dangling_coco run0 (annotations dangling_coco)
     = (run0, Raise KeyError)
  /\ process_objects even_odd_fill size_embed (test_processor false)
       test_generator dangling_coco 32 = (1, run0)
  /\ main even_odd_fill size_embed (test_processor false) test_generator
       dangling_coco 32 = (1, run0).
Proof.
  assert (Forall (resolves dangling_coco) [annotation 11 1 1 [10; 10; 50; 50]])
    as Hbefore by (repeat constructor; set_solver).
  assert (~ resolves dangling_coco (annotation 14 99 1 [0; 0; 20; 20]))
    as Hmiss.
  { intros [Himg _]. vm_compute in Himg.
    repeat (apply elem_of_cons in Himg as [Himg | Himg]; [done |]).
    by apply elem_of_nil in Himg. }
  split; [apply test_processor_well_formed |].
  split; [exact Hbefore |]. split; [exact Hmiss |].
  edestruct (lookup_miss_aborts_the_run even_odd_fill size_embed
               (test_processor false) test_generator dangling_coco 32 run0 0
               [] [annotation 11 1 1 [10; 10; 50; 50]]
               [annotation 13 1 2 [95; 95; 50; 50]]
               (annotation 14 99 1 [0; 0; 20; 20]))
    as (Hbatch & _ & Hrun & Hmain).
  - apply test_processor_well_formed.
  - reflexivity.
  - exact Hbefore.
  - exact Hmiss.
  - split; [exact Hbatch |]. split; [| exact Hmain].
    apply (Hrun []); reflexivity.
Defined.

(** C5 (as stated) fails: the second annotation of the file names image 99,
    which no image record has.  The join stage raises [KeyError]; with a batch
    size of 1 the first batch is upserted, the second raises, the third
    annotation, which resolves, is never processed, and the run ends with
    exit code 1. *)
Lemma lookup_miss_counterexample :
  process_batch even_odd_fill size_embed (test_processor false) test_generator
    dangling_coco run0 (annotations dangling_coco)
  = (run0, Raise KeyError)
  /\ fst (process_objects even_odd_fill size_embed (test_processor false)
            test_generator dangling_coco 1) = 1
  /\ map (map u_id)
         (upserts (snd (process_objects even_odd_fill size_embed
                          (test_processor false) test_generator
                          dangling_coco 1)))
     = [[11]]
  /\ main even_odd_fill size_embed (test_processor false) test_generator
       dangling_coco 1 = (1, run0).
Proof. repeat split; vm_compute; reflexivity. Qed.

(** C6 (amended): when the clamped dimensions are at least 1, the extraction
    returns the region of the source at [(max(0, int x), max(0, int y))] with
    dimensions [(min(int w, width - x), min(int h, height - y))], for [x], [y]
    the clamped origin and [int] the truncation toward zero; for a box fully
    inside the image these are [(int w, int h)].  For whole numbers [int]
    changes nothing: the dimensions are [(w, h)] for a box fully inside the
    image and [(min(w, width - x), min(h, height - y))] in general. *)
Theorem bbox_region_dimensions (image : Image RGB) (x y w h : Q) :
  1 <= clamped_width image x w -> 1 <= clamped_height image y h ->
  exists region,
    _crop_by_bbox image [x; y; w; h] = Ok region
    /\ size region
       = (Z.min (int w) (width image - Z.max 0 (int x)),
          Z.min (int h) (height image - Z.max 0 (int y)))
    /\ (box_inside image x y w h -> size region = (int w, int h))
    /\ (forall n m : Z, box_inside image x y w h ->
          (w == num n)%Q -> (h == num m)%Q -> size region = (n, m))
    /\ (forall a b n m : Z,
          (x == num a)%Q -> (y == num b)%Q ->
          (w == num n)%Q -> (h == num m)%Q ->
          size region = (Z.min n (width image - Z.max 0 a),
                         Z.min m (height image - Z.max 0 b)))
    /\ forall i j, 0 <= i < width region -> 0 <= j < height region ->
         pixels region i j
         = pixels image (Z.max 0 (int x) + i) (Z.max 0 (int y) + j).
Proof.
  intros Hw Hh.
  destruct (crop_ok image (Z.max 0 (int x)) (Z.max 0 (int y))
              (Z.max 0 (int x) + clamped_width image x w)
              (Z.max 0 (int y) + clamped_height image y h))
    as (region & Hcrop & Hsize & Hpix); [lia | lia |].
  assert (size region = (clamped_width image x w, clamped_height image y h))
    as Hsize'.
  { rewrite Hsize. f_equal; lia. }
  assert (box_inside image x y w h -> size region = (int w, int h)) as Hin.
  { intros (Hx & Hy & Hxw & Hyh). rewrite Hsize'.
    pose proof (int_pos_nonneg w) as Hw0. pose proof (int_pos_nonneg h) as Hh0.
    pose proof (int_nonneg x Hx). pose proof (int_nonneg y Hy).
    unfold clamped_width, clamped_height in *.
    pose proof (int_add_le x w (width image) Hx (Hw0 ltac:(lia)) Hxw).
    pose proof (int_add_le y h (height image) Hy (Hh0 ltac:(lia)) Hyh).
    f_equal; lia. }
  exists region. split; [by rewrite crop_by_bbox_clamped |].
  split; [exact Hsize' |]. split; [exact Hin |]. split.
  - intros n m Hbox Hn Hm. rewrite (Hin Hbox).
    by rewrite (int_Qeq_num w n Hn), (int_Qeq_num h m Hm).
  - split.
    { intros a b n m Ha Hb Hn Hm. rewrite Hsize'.
      unfold clamped_width, clamped_height.
      by rewrite (int_Qeq_num x a Ha), (int_Qeq_num y b Hb),
        (int_Qeq_num w n Hn), (int_Qeq_num h m Hm). }
    intros i j Hi Hj. apply Hpix, inside_spec.
    injection Hsize' as Hrw Hrh. rewrite Hrw in Hi. rewrite Hrh in Hj.
    unfold clamped_width, clamped_height in *. lia.
Qed.

Lemma bbox_region_dimensions_witness :
  1 <= clamped_width test_image (num 250) (num 100)
  /\ 1 <= clamped_height test_image (num 150) (num 100)
  /\ exists region,
       _crop_by_bbox test_image [num 250; num 150; num 100; num 100] = Ok region
       /\ size region = (50, 50).
Proof.
  split; [vm_compute; discriminate |]. split; [vm_compute; discriminate |].
  destruct (bbox_region_dimensions test_image (num 250) (num 150) (num 100)
              (num 100)) as (region & Hbox & Hsize & _).
  - vm_compute; discriminate.
  - vm_compute; discriminate.
  - exists region. split; [exact Hbox | exact Hsize].
Defined.

(** C6 (as stated) fails: on the 100 x 100 image the box
    [[10, 10, 50.5, 50.5]] lies fully inside the image and the region returned
    is 50 x 50, not 50.5 x 50.5. *)
Lemma bbox_region_dimensions_counterexample :
  box_inside image_100 (num 10) (num 10) (101 # 2) (101 # 2)
  /\ fmap (M := result) (@size RGB)
       (_crop_by_bbox image_100 [num 10; num 10; 101 # 2; 101 # 2])
     = Ok (50, 50)
  /\ ~ (inject_Z 50 == 101 # 2)%Q.
Proof.
  unfold box_inside.
  repeat split; try (vm_compute; discriminate); vm_compute; reflexivity.
Qed.

(** C7: in every batch whose annotations resolve, the surviving
    (object, region) pairs are the annotations whose extraction returns a
    region, in the order of the input annotations.  When there is at least
    one and the embedding request returns at least as many vectors, the batch
    is upserted as one list with one record per surviving pair, in the same
    order: the i-th record carries the i-th vector, the annotation's id as
    its id, and in its payload the id and file name of the annotation's
    image, the id and name of its category, and the annotation's bounding
    box, segmentation, area and crowd flag. *)
Theorem batch_records_keep_order_and_position
    (polygon_fill : list (Q * Q) -> Z -> Z -> bool)
    (jinaai_embed : nat -> list (Image RGB) -> result (list Vector))
    (image_processor : ImageProcessor) (embedding_generator : EmbeddingGenerator)
    (coco_data : CocoData) (run : Run) (batch_annotations : list Annotation) :
  let image_data :=
    image_data_of (images coco_data) (map ann_image_id batch_annotations) in
  let cropped_objects :=
    omap (survivor polygon_fill image_processor coco_data image_data)
         batch_annotations in
  let embeddings :=
    generate_embeddings jinaai_embed embedding_generator (embed_calls run)
      (map c_image cropped_objects) in
  well_formed image_processor ->
  Forall (resolves coco_data) batch_annotations ->
  cropped_objects <> [] ->
  (length cropped_objects <= length embeddings)%nat ->
  foldl_result (crop_step polygon_fill image_processor coco_data image_data)
    [] batch_annotations = Ok cropped_objects
  /\ map c_annotation cropped_objects `sublist_of` batch_annotations
  /\ exists records,
       process_batch polygon_fill jinaai_embed image_processor
         embedding_generator coco_data run batch_annotations
       = (after_upsert (after_embedding run) records, Ok ())
       /\ length records = length cropped_objects
       /\ forall (i : nat) (obj : CroppedObject),
            cropped_objects !! i = Some obj ->
            exists (vector : Vector) (image_info : ImageInfo)
                   (category : Category),
              embeddings !! i = Some vector
              /\ image_info ∈ images coco_data
              /\ img_id image_info = ann_image_id (c_annotation obj)
              /\ category ∈ categories coco_data
              /\ cat_id category = ann_category_id (c_annotation obj)
              /\ records !! i
                 = Some {| u_id := ann_id (c_annotation obj);
                           u_vector := vector;
                           u_payload :=
                             {| p_image_id := img_id image_info;
                                p_file_name := img_file_name image_info;
                                p_category_id := cat_id category;
                                p_category_name := cat_name category;
                                p_bbox := ann_bbox (c_annotation obj);
                                p_segmentation :=
                                  ann_segmentation (c_annotation obj);
                                p_area := ann_area (c_annotation obj);
                                p_iscrowd :=
                                  default 0 (ann_iscrowd (c_annotation obj))
                             |} |}.
Proof.
  intros image_data cropped_objects embeddings Hwf Hres Hne Hlen.
  pose proof (crop_loop_total polygon_fill image_processor coco_data
                (map ann_image_id batch_annotations) batch_annotations []
                Hwf (batch_image_ids batch_annotations) Hres) as Hcrop.
  rewrite app_nil_l in Hcrop. fold image_data cropped_objects in Hcrop.
  split; [exact Hcrop |]. split; [apply survivors_sublist |].
  exists (zip_with upload_object cropped_objects embeddings). split.
  - rewrite (process_batch_cropped _ _ _ _ _ _ _ cropped_objects embeddings)
      by done.
    by rewrite decide_True.
  - split; [rewrite length_zip_with; lia |].
    intros i obj Hi.
    destruct (lookup_lt_is_Some_2 embeddings i) as [vector Hv].
    { apply lookup_lt_Some in Hi. lia. }
    assert (obj ∈ cropped_objects) as Hobj
      by (by eapply list_elem_of_lookup_2).
    apply list_elem_of_omap in Hobj as (ann & _ & Hobj).
    apply survivor_Some in Hobj as (<- & Himg & Hcat & _).
    apply image_data_of_Some in Himg as (Himg & Hid & _).
    apply next_category_Ok in Hcat as (pre & post & Hcats & _ & Hcid & _).
    exists vector, (c_image_info obj), (c_category obj).
    split; [exact Hv |]. split; [exact Himg |]. split; [exact Hid |].
    split; [rewrite Hcats; apply elem_of_app; right; left |].
    split; [exact Hcid |].
    rewrite lookup_zip_with, Hi, Hv. reflexivity.
Qed.

Lemma batch_records_keep_order_and_position_witness :
  well_formed (test_processor false)
  /\ Forall (resolves sample_coco) (annotations sample_coco)
  /\ exists records,
       process_batch even_odd_fill size_embed (test_processor false)
         test_generator sample_coco run0 (annotations sample_coco)
       = (after_upsert (after_embedding run0) records, Ok ())
       /\ length records = 2%nat
       /\ u_id <$> records !! 0%nat = Some 11
       /\ u_vector <$> records !! 0%nat = Some [50; 50]%float
       /\ u_id <$> records !! 1%nat = Some 13
       /\ u_vector <$> records !! 1%nat = Some [5; 5]%float.
Proof.
  assert (Forall (resolves sample_coco) (annotations sample_coco)) as Hres
    by (repeat constructor; set_solver).
  split; [apply test_processor_well_formed |]. split; [exact Hres |].
  destruct (batch_records_keep_order_and_position even_odd_fill size_embed
              (test_processor false) test_generator sample_coco run0
              (annotations sample_coco))
    as (_ & _ & records & Hbatch & Hlen & Hrec).
  - apply test_processor_well_formed.
  - exact Hres.
  - vm_compute. discriminate.
  - vm_compute. lia.
  - exists records. split; [exact Hbatch |]. split; [exact Hlen |].
    edestruct (Hrec 0%nat) as (v0 & i0 & c0 & Hv0 & _ & _ & _ & _ & Hr0);
      [vm_compute; reflexivity |].
    edestruct (Hrec 1%nat) as (v1 & i1 & c1 & Hv1 & _ & _ & _ & _ & Hr1);
      [vm_compute; reflexivity |].
    vm_compute in Hv0, Hv1.
    injection Hv0 as <-. injection Hv1 as <-.
    rewrite Hr0, Hr1. repeat split.
Defined.

(** C8 (fails on the code): Pillow's rasteriser fills a rectangle together
    with its boundary, so the region of a single axis-aligned rectangular
    polygon with whole corners [(x0, y0)], [(x1, y1)], of positive width and
    height, that meets the canvas of an image of at least one pixel is cut
    at the box
    [(max 0 x0, max 0 y0, min width (x1 + 1), min height (y1 + 1))].  Its
    canvas is that box, not the full image, and each of its pixels is the
    source pixel at the same place of the box; but for a rectangle inside
    the image it is [(x1 - x0 + 1) x (y1 - y0 + 1)], one column and one row
    more than the polygon's own bounding box, where the claim, and the
    repository's test of [_crop_by_segmentation], say
    [(x1 - x0) x (y1 - y0)]. *)
Theorem rectangle_region_includes_the_boundary (image : Image RGB)
    (x0 y0 x1 y1 : Z) :
  0 < width image -> 0 < height image ->
  x0 < x1 -> y0 < y1 ->
  x0 < width image -> 0 <= x1 -> y0 < height image -> 0 <= y1 ->
  region_box inclusive_fill image [rectangle x0 y0 x1 y1]
  = Some (Z.max 0 x0, Z.max 0 y0,
          Z.min (width image) (x1 + 1), Z.min (height image) (y1 + 1))
  /\ exists region,
       _crop_by_segmentation inclusive_fill image [rectangle x0 y0 x1 y1]
       = Ok region
       /\ size region
          = (Z.min (width image) (x1 + 1) - Z.max 0 x0,
             Z.min (height image) (y1 + 1) - Z.max 0 y0)
       /\ (0 <= x0 -> x1 < width image -> 0 <= y0 -> y1 < height image ->
           size region = (x1 - x0 + 1, y1 - y0 + 1))
       /\ forall i j,
            0 <= i < Z.min (width image) (x1 + 1) - Z.max 0 x0 ->
            0 <= j < Z.min (height image) (y1 + 1) - Z.max 0 y0 ->
            pixels region i j = pixels image (Z.max 0 x0 + i) (Z.max 0 y0 + j).
Proof.
  intros HW HH Hx Hy Hx0 Hx1 Hy0 Hy1.
  destruct (covered_box_region inclusive_fill image x0 y0 x1 y1
              (Z.max 0 x0) (Z.max 0 y0)
              (Z.min (width image) (x1 + 1)) (Z.min (height image) (y1 + 1)))
    as (Hbox & region & Hregion & Hsize & Hpix).
  - lia.
  - lia.
  - lia.
  - lia.
  - intros x y Hin. apply inside_spec in Hin.
    rewrite inclusive_fill_rectangle by lia. unfold in_rectangle.
    apply Bool.eq_iff_eq_true.
    rewrite !andb_true_iff, !Z.leb_le, !Z.ltb_lt. lia.
  - split; [exact Hbox |]. exists region.
  split; [exact Hregion |]. split; [exact Hsize |]. split; [| exact Hpix].
  intros Hx0' Hx1' Hy0' Hy1'. rewrite Hsize. f_equal; lia.
Qed.

Lemma rectangle_region_includes_the_boundary_witness :
  region_box inclusive_fill test_image [rectangle 50 40 150 120]
  = Some (50, 40, 151, 121)
  /\ exists region,
       _crop_by_segmentation inclusive_fill test_image
         [rectangle 50 40 150 120] = Ok region
       /\ size region = (101, 81)
       /\ size region <> (100, 80).
Proof.
  destruct (rectangle_region_includes_the_boundary test_image 50 40 150 120)
    as (Hbox & region & Hregion & Hsize & _ & _);
    [simpl; lia .. |].
  split; [exact Hbox |]. exists region.
  split; [exact Hregion |]. split; [exact Hsize |].
  rewrite Hsize. vm_compute. discriminate.
Defined.

(** C9 (amended): an annotation's image record is resolved by a lookup in a
    table indexed by id, which holds records of the image list under their
    own ids and only the ids the batch names: it is the table of one batch.
    Its category record is resolved by a scan of the category list, made
    anew for every annotation: the scan tests every category up to and
    including the first with the id, all of them when there is none, so its
    cost is at most the number of categories and reaches [n + 1] for a list
    of [n + 1] categories. *)
Theorem image_table_lookup_and_category_scan
    (coco_data : CocoData) (batch_annotations : list Annotation)
    (ann : Annotation) :
  let image_data :=
    image_data_of (images coco_data) (map ann_image_id batch_annotations) in
  let steps :=
    next_category_steps (categories coco_data) (ann_category_id ann) in
  (forall image_info,
      dict_get image_data (ann_image_id ann) = Ok image_info ->
      image_info ∈ images coco_data /\ img_id image_info = ann_image_id ann)
  /\ (forall k, k ∉ map ann_image_id batch_annotations ->
                image_data !! k = None)
  /\ (steps <= length (categories coco_data))%nat
  /\ (forall category,
        next_category (categories coco_data) (ann_category_id ann)
        = Ok category ->
        exists pre post,
          categories coco_data = pre ++ category :: post
          /\ Forall (fun c => cat_id c <> ann_category_id ann) pre
          /\ cat_id category = ann_category_id ann
          /\ steps = S (length pre))
  /\ (forall e,
        next_category (categories coco_data) (ann_category_id ann) = Raise e ->
        e = StopIteration /\ steps = length (categories coco_data))
  /\ forall n : nat,
       next_category (numbered_categories (S n)) (Z.of_nat n)
       = Ok {| cat_id := Z.of_nat n; cat_name := "category" |}
       /\ next_category_steps (numbered_categories (S n)) (Z.of_nat n) = S n.
Proof.
  intros image_data steps. split; [| split; [| split; [| split; [| split]]]].
  - intros image_info Hget. unfold dict_get in Hget.
    destruct (image_data !! ann_image_id ann) as [img |] eqn:Hlook; [| done].
    injection Hget as ->.
    apply image_data_of_Some in Hlook as (Hin & Hid & _). by split.
  - intros k Hk. apply image_data_of_None. by left.
  - apply next_category_steps_le.
  - intros category Hcat. by apply next_category_Ok.
  - intros e Hraise. apply next_category_Raise in Hraise as (-> & _ & Hsteps).
    by split.
  - intros n. split; [apply (next_category_seq 0 n) |].
    apply next_category_steps_last.
Qed.

(** C9 (as stated) fails: in the list [person; car; truck] the category with
    id 1 is found after one test and the one with id 3 after three, and no
    constant bounds the number of tests of a lookup. *)
Lemma category_scan_counterexample :
  next_category_steps [person; car; truck] 1 = 1%nat
  /\ next_category_steps [person; car; truck] 3 = 3%nat
  /\ ~ exists bound : nat,
         forall (coco_categories : list Category) (category_id : Z),
           (next_category_steps coco_categories category_id <= bound)%nat.
Proof.
  split; [reflexivity |]. split; [reflexivity |].
  apply no_constant_bounds_the_scan.
Qed.

(** C10: when the segmentation path is not taken (segmentation disabled,
    absent or empty) and the image loads, a bounding box is used exactly when
    it is present and has four elements; an absent box and a box of any other
    length make [crop_object] return [None]. *)
Theorem crop_object_uses_only_four_element_bbox
    (polygon_fill : list (Q * Q) -> Z -> Z -> bool) (self : ImageProcessor)
    (image_filename : string) (image : Image RGB)
    (segmentation : option (list (list Q))) :
  load_image self image_filename = Some image ->
  use_segmentation self = false \/ segmentation = None \/ segmentation = Some [] ->
  crop_object polygon_fill self image_filename None segmentation = Ok None
  /\ forall bbox : list Q,
       (length bbox = 4%nat ->
        crop_object polygon_fill self image_filename (Some bbox) segmentation
        = Some <$> _crop_by_bbox image bbox)
       /\ (length bbox <> 4%nat ->
           crop_object polygon_fill self image_filename (Some bbox) segmentation
           = Ok None).
Proof.
  intros Hload Hseg. split.
  - by rewrite (crop_object_bbox_path _ _ _ image).
  - intros bbox. split; intros Hlen;
      rewrite (crop_object_bbox_path _ _ _ image) by assumption; cbv beta iota.
    + by rewrite decide_True.
    + by rewrite decide_False.
Qed.

Lemma crop_object_uses_only_four_element_bbox_witness :
  load_image (test_processor false) "image_100.png" = Some image_100
  /\ crop_object even_odd_fill (test_processor false) "image_100.png"
       (Some [num 10; num 10; num 50]) (Some [rectangle 10 10 60 60])
     = Ok None.
Proof.
  split; [vm_compute; reflexivity |].
  apply (crop_object_uses_only_four_element_bbox even_odd_fill
           (test_processor false) "image_100.png" image_100
           (Some [rectangle 10 10 60 60])).
  - vm_compute; reflexivity.
  - left; reflexivity.
  - simpl; lia.
Defined.

(** * Further properties *)

(** X1: the referential check of [CocoParser.parse] passes exactly the files
    all of whose annotations name an image and a category of the file, and
    returns the file unchanged; on every other file it raises
    [ValueError]. *)
Theorem parser_check_passes_resolving_files (coco_data : CocoData) :
  (Forall (resolves coco_data) (annotations coco_data)
   /\ parse_validate coco_data = Ok coco_data)
  \/ (~ Forall (resolves coco_data) (annotations coco_data)
      /\ parse_validate coco_data = Raise ValueError).
Proof. apply parse_validate_spec. Qed.



(** X3: when the mask drawn for a segmentation is not empty, the region is
    cut from the source at the bounding box of the mask: its canvas has the
    size of that box, a pixel under a set mask pixel is the source pixel, and
    every other pixel is black. *)
Theorem segmentation_region_is_masked_crop
    (polygon_fill : list (Q * Q) -> Z -> Z -> bool) (image : Image RGB)
    (segmentation : list (list Q)) (lft upr rgt lwr : Z) :
  0 <= width image -> 0 <= height image ->
  region_box polygon_fill image segmentation = Some (lft, upr, rgt, lwr) ->
  0 <= lft < rgt /\ rgt <= width image /\ 0 <= upr < lwr /\ lwr <= height image
  /\ exists region,
       _crop_by_segmentation polygon_fill image segmentation = Ok region
       /\ size region = (rgt - lft, lwr - upr)
       /\ forall i j, 0 <= i < rgt - lft -> 0 <= j < lwr - upr ->
            pixels region i j
            = if 0 <? pixels (segmentation_mask polygon_fill image segmentation)
                        (lft + i) (upr + j)
              then pixels image (lft + i) (upr + j)
              else (0, 0, 0).
Proof.
  intros HW HH Hbox.
  pose proof (getbbox_on_canvas _ _ _ _ _ Hbox) as (Hx & Hx1 & Hy & Hy1).
  pose proof (draw_segmentation_size polygon_fill (blank_mask image)
                segmentation) as Hsize.
  injection Hsize as HmW HmH. cbn [blank_mask width height] in HmW, HmH.
  fold (segmentation_mask polygon_fill image segmentation) in HmW, HmH.
  rewrite HmW in Hx1. rewrite HmH in Hy1.
  repeat (split; [lia |]).
  by apply crop_by_segmentation_region.
Qed.

Lemma segmentation_region_is_masked_crop_witness :
  region_box even_odd_fill image_100
    [[num 10; num 10; num 60; num 10; num 10; num 60]]
  = Some (10, 10, 59, 59)
  /\ exists region,
       _crop_by_segmentation even_odd_fill image_100
         [[num 10; num 10; num 60; num 10; num 10; num 60]] = Ok region
       /\ size region = (49, 49)
       /\ pixels region 5 5 = (15, 15, 0)
       /\ pixels region 45 45 = (0, 0, 0).
Proof.
  assert (region_box even_odd_fill image_100
            [[num 10; num 10; num 60; num 10; num 10; num 60]]
          = Some (10, 10, 59, 59)) as Hbox by (vm_compute; reflexivity).
  split; [exact Hbox |].
  destruct (segmentation_region_is_masked_crop even_odd_fill image_100
              [[num 10; num 10; num 60; num 10; num 10; num 60]]
              10 10 59 59)
    as (_ & _ & _ & _ & region & Hres & Hsize & Hpix);
    [vm_compute; discriminate | vm_compute; discriminate | exact Hbox |].
  exists region. split; [exact Hres |]. split; [exact Hsize |].
  split; [rewrite (Hpix 5 5) by lia | rewrite (Hpix 45 45) by lia];
    vm_compute; reflexivity.
Defined.

(** X4: a batch whose annotations resolve and none of whose extractions
    returns a region makes no embedding request and no upsert, and the loop
    goes on with the next batch. *)
Theorem batch_without_survivor_is_skipped
    (polygon_fill : list (Q * Q) -> Z -> Z -> bool)
    (jinaai_embed : nat -> list (Image RGB) -> result (list Vector))
    (image_processor : ImageProcessor) (embedding_generator : EmbeddingGenerator)
    (coco_data : CocoData) (batch_size : Z) (run : Run) (i : Z)
    (rest : list Z) :
  let batch_annotations := slice (annotations coco_data) i batch_size in
  well_formed image_processor ->
  Forall (resolves coco_data) batch_annotations ->
  omap (survivor polygon_fill image_processor coco_data
          (image_data_of (images coco_data)
             (map ann_image_id batch_annotations)))
       batch_annotations = [] ->
  process_batch polygon_fill jinaai_embed image_processor embedding_generator
    coco_data run batch_annotations = (run, Ok ())
  /\ run_batches polygon_fill jinaai_embed image_processor embedding_generator
       coco_data batch_size run (i :: rest)
     = run_batches polygon_fill jinaai_embed image_processor
         embedding_generator coco_data batch_size run rest.
Proof.
  intros batch_annotations Hwf Hres Hnone.
  assert (process_batch polygon_fill jinaai_embed image_processor
            embedding_generator coco_data run batch_annotations
          = (run, Ok ())) as Hbatch.
  { apply process_batch_no_survivor.
    rewrite crop_loop_total
      by (try apply batch_image_ids; assumption).
    by rewrite Hnone. }
  split; [exact Hbatch | by apply run_batches_next].
Qed.

Lemma batch_without_survivor_is_skipped_witness :
  slice (annotations sample_coco) 1 1 = [annotation 12 2 2 [0; 0; 20; 20]]
  /\ process_batch even_odd_fill size_embed (test_processor false)
       test_generator sample_coco run0 (slice (annotations sample_coco) 1 1)
     = (run0, Ok ()).
Proof.
  split; [reflexivity |].
  apply (batch_without_survivor_is_skipped even_odd_fill size_embed
           (test_processor false) test_generator sample_coco 1 run0 1 []).
  - apply test_processor_well_formed.
  - repeat constructor; set_solver.
  - vm_compute. reflexivity.
Defined.

(** X5: the image table of a batch holds, for an image id the batch names,
    the last record of the image list with that id, and nothing for any
    other id. *)
Theorem image_table_keeps_last_record (coco_images : list ImageInfo)
    (image_ids : list Z) (k : Z) :
  image_data_of coco_images image_ids !! k
  = if decide (k ∈ image_ids)
    then last (filter (fun img => img_id img = k) coco_images)
    else None.
Proof. apply image_data_of_last. Qed.

(** X6: for a positive batch size the range of the batch loop does not
    raise, and its slices cut the list into consecutive batches: their
    concatenation is the list, every batch has between one and [batch_size]
    elements, and every batch but the last has exactly [batch_size]. *)
Theorem batches_partition_the_list {A : Type} (l : list A) (batch_size : Z) :
  0 < batch_size ->
  exists starts,
    range_step (len l) batch_size = Ok starts
    /\ concat (batches l batch_size starts) = l
    /\ forall j batch,
         batches l batch_size starts !! j = Some batch ->
         (0 < length batch <= Z.to_nat batch_size)%nat
         /\ ((S j < length starts)%nat ->
             length batch = Z.to_nat batch_size).
Proof.
  intros Hs.
  destruct (range_step (len l) batch_size) as [starts | e] eqn:Hr;
    [| by rewrite range_step_pos in Hr].
  exists starts. split; [reflexivity |].
  split; [by apply batches_concat |].
  intros j batch Hj.
  destruct (batches_lookup l batch_size starts j batch Hs Hr Hj) as [-> Hlt].
  rewrite length_take, length_drop. split; [lia |].
  intros Hnext.
  destruct (batches l batch_size starts !! S j) as [batch' |] eqn:Hj'.
  - destruct (batches_lookup l batch_size starts (S j) batch' Hs Hr Hj')
      as [_ Hlt'].
    lia.
  - apply lookup_ge_None in Hj'. unfold batches in Hj'.
    rewrite length_map in Hj'. lia.
Qed.

Lemma batches_partition_the_list_witness :
  0 < 2
  /\ exists starts,
       range_step (len [10; 20; 30; 40; 50]) 2 = Ok starts
       /\ concat (batches [10; 20; 30; 40; 50] 2 starts) = [10; 20; 30; 40; 50]
       /\ forall j batch,
            batches [10; 20; 30; 40; 50] 2 starts !! j = Some batch ->
            (0 < length batch <= Z.to_nat 2)%nat
            /\ ((S j < length starts)%nat -> length batch = Z.to_nat 2).
Proof.
  split; [lia |]. apply (batches_partition_the_list [10; 20; 30; 40; 50] 2).
  lia.
Defined.



(** X8: a batch size of zero ends the run with exit code 1 and a negative
    one with exit code 0; in both cases no annotation is processed: no
    embedding request and no upsert are made. *)
Theorem nonpositive_batch_size_processes_nothing
    (polygon_fill : list (Q * Q) -> Z -> Z -> bool)
    (jinaai_embed : nat -> list (Image RGB) -> result (list Vector))
    (image_processor : ImageProcessor) (embedding_generator : EmbeddingGenerator)
    (coco_data : CocoData) (batch_size : Z) :
  batch_size <= 0 ->
  process_objects polygon_fill jinaai_embed image_processor
    embedding_generator coco_data batch_size
  = (if batch_size =? 0 then 1 else 0, run0).
Proof.
  intros Hs. unfold process_objects, range_step.
  destruct (Z.eqb_spec batch_size 0); [reflexivity |].
  destruct (Z.ltb_spec batch_size 0); [reflexivity | lia].
Qed.

Lemma nonpositive_batch_size_processes_nothing_witness :
  -1 <= 0
  /\ process_objects even_odd_fill size_embed (test_processor false)
       test_generator sample_coco (-1)
     = (0, run0).
Proof.
  split; [lia |].
  apply (nonpositive_batch_size_processes_nothing even_odd_fill size_embed
           (test_processor false) test_generator sample_coco (-1)).
  lia.
Defined.

(** X9: with [--skip-existing] set, [main] never processes an annotation,
    whether or not the collection existed before the run: the uploader it
    constructs creates the collection before the flag is tested.  No
    embedding request and no upsert are made, and a run that returns exit
    code 0 leaves the collection in the store. *)
Theorem skip_existing_never_processes
    (polygon_fill : list (Q * Q) -> Z -> Z -> bool)
    (jinaai_embed : nat -> list (Image RGB) -> result (list Vector))
    (valid_vectors : Z -> string -> bool)
    (client_upsert : nat -> list UploadObject -> result unit)
    (args : Args) (world : World) :
  args_skip_existing args = true ->
  snd (fst (main_entry polygon_fill jinaai_embed valid_vectors client_upsert
              args world)) = run0
  /\ (snd (main_entry polygon_fill jinaai_embed valid_vectors client_upsert
             args world) = Returns 0 ->
      is_Some (store (fst (fst (main_entry polygon_fill jinaai_embed
                                  valid_vectors client_upsert args world)))
               !! args_collection args)).
Proof.
  intros Hskip. unfold main_entry.
  destruct (negb (exists_ _ _)); [by split |].
  destruct (_ || _); [by split |].
  destruct (mkdir _ _ _) as [files' | e]; [| by split].
  cbn [files creatable environ jinaai openable store].
  destruct (parse _ _) as [coco_data | e]; [| by split].
  destruct (EmbeddingGenerator_init _ _ _ _ _) as [jinaai' [g | e]];
    [| by split].
  destruct (QdrantUploader_init _ _ _ _ _ _) as [[self store'] | e] eqn:Hinit;
    [| by split].
  apply QdrantUploader_init_Ok in Hinit as (-> & _ & Hcreate).
  apply create_collection_exists in Hcreate.
  cbn [store]. rewrite Hskip, Hcreate. cbn [andb fst snd store].
  split; [reflexivity |]. intros _.
  by apply collection_exists_spec in Hcreate.
Qed.

Lemma skip_existing_never_processes_witness :
  args_skip_existing (test_args true) = true
  /\ store test_world !! args_collection (test_args true) = None
  /\ snd (main_entry inclusive_fill size_embed positive_size accepting_store
            (test_args true) test_world)
     = Returns 0
  /\ snd (fst (main_entry inclusive_fill size_embed positive_size
                 accepting_store (test_args true) test_world)) = run0
  /\ (snd (main_entry inclusive_fill size_embed positive_size accepting_store
             (test_args true) test_world)
      = Returns 0 ->
      is_Some (store (fst (fst (main_entry inclusive_fill size_embed
                                  positive_size accepting_store
                                  (test_args true) test_world)))
               !! args_collection (test_args true))).
Proof.
  split; [reflexivity |]. split; [reflexivity |].
  split; [vm_compute; reflexivity |].
  apply (skip_existing_never_processes inclusive_fill size_embed
           positive_size accepting_store (test_args true) test_world).
  reflexivity.
Defined.

(** X10: when the package [jinaai] is not installed, or the environment
    holds no non-empty [JINA_API_KEY], [main] does not return exit code 0; it
    creates no collection, leaves the module [jinaai] as it was, and makes
    no embedding request and no upsert. *)
Theorem no_generator_no_collection
    (polygon_fill : list (Q * Q) -> Z -> Z -> bool)
    (jinaai_embed : nat -> list (Image RGB) -> result (list Vector))
    (valid_vectors : Z -> string -> bool)
    (client_upsert : nat -> list UploadObject -> result unit)
    (args : Args) (world : World) :
  installed (jinaai world) = false
  \/ truthy_str (environ world !! "JINA_API_KEY") = false ->
  snd (main_entry polygon_fill jinaai_embed valid_vectors client_upsert args
         world) <> Returns 0
  /\ store (fst (fst (main_entry polygon_fill jinaai_embed valid_vectors
                        client_upsert args world)))
     = store world
  /\ jinaai (fst (fst (main_entry polygon_fill jinaai_embed valid_vectors
                         client_upsert args world)))
     = jinaai world
  /\ snd (fst (main_entry polygon_fill jinaai_embed valid_vectors
                 client_upsert args world)) = run0.
Proof.
  intros Hno. unfold main_entry.
  destruct (negb (exists_ _ _)); [by repeat split |].
  destruct (_ || _); [by repeat split |].
  destruct (mkdir _ _ _) as [files' | e]; [| by repeat split].
  cbn [files creatable environ jinaai openable store].
  destruct (parse _ _) as [coco_data | e]; [| by repeat split].
  rewrite EmbeddingGenerator_init_cases, truthy_or. cbn [truthy_str orb].
  destruct Hno as [-> | ->]; cbn [negb]; [by repeat split |].
  destruct (installed _); cbn [negb]; by repeat split.
Qed.

Lemma no_generator_no_collection_witness :
  (installed (jinaai bare_world) = false
   \/ truthy_str (environ bare_world !! "JINA_API_KEY") = false)
  /\ snd (main_entry inclusive_fill size_embed positive_size accepting_store
            (test_args false) bare_world)
     = Returns 1
  /\ snd (main_entry inclusive_fill size_embed positive_size accepting_store
            (test_args false) bare_world)
     <> Returns 0
  /\ store (fst (fst (main_entry inclusive_fill size_embed positive_size
                        accepting_store (test_args false) bare_world)))
     = store bare_world
  /\ jinaai (fst (fst (main_entry inclusive_fill size_embed positive_size
                         accepting_store (test_args false) bare_world)))
     = jinaai bare_world
  /\ snd (fst (main_entry inclusive_fill size_embed positive_size
                 accepting_store (test_args false) bare_world)) = run0.
Proof.
  split; [by left |]. split; [vm_compute; reflexivity |].
  apply (no_generator_no_collection inclusive_fill size_embed positive_size
           accepting_store (test_args false) bare_world).
  by left.
Defined.

(** X11: when the annotation file is a JSON object whose three sections are
    lists of records with finite numbers, all of whose annotations resolve,
    the images path is a directory, the output path is a directory or can
    be created, the package is installed, the environment holds a non-empty
    key, a client can be opened on the store, the store lists the
    collection or accepts one of the vector size given with the distance
    [Cosine], and [--skip-existing] is not set, then [main] returns; its
    exit code, its embedding requests and its upserts are those of the
    batch loop, on a store that may refuse an upsert, run on the sections
    of the file and the files of the directory; afterwards the collection
    is in the store and the key of the environment is the key of the module
    [jinaai].  Without the condition on the store the exit code is 1 and
    the store is left without the collection. *)
Theorem main_entry_runs_the_batch_loop
    (polygon_fill : list (Q * Q) -> Z -> Z -> bool)
    (jinaai_embed : nat -> list (Image RGB) -> result (list Vector))
    (valid_vectors : Z -> string -> bool)
    (client_upsert : nat -> list UploadObject -> result unit)
    (args : Args) (world : World) (document : Document)
    (coco_data : CocoData) (entries : gmap string File) :
  files world !! args_annotations args = Some (RegularFile (Json document)) ->
  doc_images document = Some (Records (images coco_data)) ->
  doc_annotations document = Some (Records (annotations coco_data)) ->
  doc_categories document = Some (Records (categories coco_data)) ->
  Forall (resolves coco_data) (annotations coco_data) ->
  files world !! args_images args = Some (Directory entries) ->
  is_dir (files world) (args_output args) = true
  \/ (files world !! args_output args = None
      /\ creatable world (args_output args) = true) ->
  installed (jinaai world) = true ->
  truthy_str (environ world !! "JINA_API_KEY") = true ->
  openable world = true ->
  args_skip_existing args = false ->
  (is_Some (store world !! args_collection args)
   \/ valid_vectors (args_vector_size args) "Cosine" = true ->
   exists world',
     main_entry polygon_fill jinaai_embed valid_vectors client_upsert args
       world
     = (world',
        snd (Store.process_objects polygon_fill jinaai_embed client_upsert
               {| images_dir := entries;
                  use_segmentation := args_use_segmentation args |}
               {| model_name := args_embedding_model args;
                  vector_size := args_vector_size args |}
               coco_data (args_batch_size args)),
        Returns
          (fst (Store.process_objects polygon_fill jinaai_embed client_upsert
                  {| images_dir := entries;
                     use_segmentation := args_use_segmentation args |}
                  {| model_name := args_embedding_model args;
                     vector_size := args_vector_size args |}
                  coco_data (args_batch_size args))))
     /\ is_Some (store world' !! args_collection args)
     /\ api_key (jinaai world') = environ world !! "JINA_API_KEY")
  /\ (store world !! args_collection args = None ->
      valid_vectors (args_vector_size args) "Cosine" = false ->
      exists world',
        main_entry polygon_fill jinaai_embed valid_vectors client_upsert args
          world
        = (world', run0, Returns 1)
        /\ store world' = store world).
Proof.
  intros Hann Himgs Hanns Hcats Hres Hdir Hout Hinst Hkey Hopen Hskip.
  unfold main_entry.
  rewrite (proj2 (exists_spec _ _)) by (by eexists).
  rewrite (proj2 (exists_spec _ _)) by (by eexists).
  assert (is_dir (files world) (args_images args) = true) as ->
    by (unfold is_dir; by rewrite Hdir).
  cbn [negb orb].
  destruct (mkdir (files world) (creatable world) (args_output args))
    as [files' | e] eqn:Hmk.
  2: { unfold mkdir, is_dir in Hmk, Hout.
       destruct (files world !! args_output args) as [[content | ?] |] eqn:Ho;
         try discriminate.
       - by destruct Hout as [? | [? _]].
       - destruct Hout as [? | [_ Hc]]; [done |]. by rewrite Hc in Hmk. }
  cbn [files creatable environ jinaai openable store].
  assert (parse files' {| annotations_path := args_annotations args |}
          = Returns coco_data) as ->.
  { apply parse_Returns. split; [| exact Hres]. exists document.
    cbn [annotations_path].
    rewrite (mkdir_lookup _ _ _ _ _ Hmk) by (by eexists). done. }
  rewrite EmbeddingGenerator_init_cases, truthy_or, Hinst, Hkey.
  cbn [truthy_str orb negb].
  cbn [files creatable environ jinaai openable store].
  unfold QdrantUploader_init. rewrite Hopen. cbn [negb].
  set (self := {| collection_name := args_collection args;
                  uploader_vector_size := args_vector_size args;
                  distance := "Cosine" |}).
  split.
  - intros Hstore.
    destruct (_create_collection valid_vectors self (store world))
      as [store' | e] eqn:Hcreate.
    2: { apply create_collection_Raise in Hcreate as [Hnone Hinvalid].
         cbn [collection_name uploader_vector_size distance self]
           in Hnone, Hinvalid.
         destruct Hstore as [[c Hc] | Hvalid]; congruence. }
    cbn [mbind result_bind store].
    rewrite Hskip. cbn [andb].
    unfold listing. rewrite (mkdir_lookup _ _ _ _ _ Hmk) by (by eexists).
    rewrite Hdir.
    destruct (Store.process_objects _ _ _ _ _ _ _) as [code run].
    eexists. split; [reflexivity |]. cbn [store jinaai api_key fst snd].
    split; [| reflexivity].
    apply create_collection_exists in Hcreate.
    by apply collection_exists_spec in Hcreate.
  - intros Hnone Hinvalid.
    rewrite (create_collection_absent valid_vectors self) by done.
    cbn [uploader_vector_size distance self]. rewrite Hinvalid.
    cbn [mbind result_bind]. eexists. split; reflexivity.
Qed.

Lemma main_entry_runs_the_batch_loop_witness :
  files test_world !! args_annotations (test_args false)
  = Some (RegularFile (Json sample_document))
  /\ Forall (resolves sample_coco) (annotations sample_coco)
  /\ files test_world !! args_images (test_args false)
     = Some (Directory (images_dir (test_processor false)))
  /\ positive_size (args_vector_size (test_args false)) "Cosine" = true
  /\ snd (main_entry inclusive_fill size_embed positive_size accepting_store
            (test_args false) test_world) = Returns 0
  /\ exists world',
       main_entry inclusive_fill size_embed positive_size accepting_store
         (test_args false) test_world
       = (world',
          snd (Store.process_objects inclusive_fill size_embed
                 accepting_store
                 {| images_dir := images_dir (test_processor false);
                    use_segmentation :=
                      args_use_segmentation (test_args false) |}
                 {| model_name := args_embedding_model (test_args false);
                    vector_size := args_vector_size (test_args false) |}
                 sample_coco (args_batch_size (test_args false))),
          Returns
            (fst (Store.process_objects inclusive_fill size_embed
                    accepting_store
                    {| images_dir := images_dir (test_processor false);
                       use_segmentation :=
                         args_use_segmentation (test_args false) |}
                    {| model_name := args_embedding_model (test_args false);
                       vector_size := args_vector_size (test_args false) |}
                    sample_coco (args_batch_size (test_args false)))))
       /\ is_Some (store world' !! args_collection (test_args false))
       /\ api_key (jinaai world') = environ test_world !! "JINA_API_KEY".
Proof.
  split; [reflexivity |]. split; [apply sample_coco_resolves |].
  split; [reflexivity |]. split; [reflexivity |].
  split; [vm_compute; reflexivity |].
  apply (main_entry_runs_the_batch_loop inclusive_fill size_embed
           positive_size accepting_store (test_args false) test_world
           sample_document sample_coco (images_dir (test_processor false)));
    try reflexivity.
  - apply sample_coco_resolves.
  - right. split; reflexivity.
  - by right.
Defined.

(** X12: [_create_collection] creates the collection only when the store
    does not list it.  A collection that is there is kept as it is, whatever
    vector size and distance the uploader was given, and the call returns.
    One that is not there is created when the store accepts the vector
    size and the distance, with these parameters and with payload indexes
    on [category_id] and [image_id]; when the store does not accept them
    (a vector size of 0, say) the call raises, so that the constructor of
    the uploader raises and no collection is created.  Whenever the call
    returns, the collection exists afterwards, every other collection is as
    before, and running it again changes nothing. *)
Theorem create_collection_if_absent (valid_vectors : Z -> string -> bool)
    (self : QdrantUploader) (store : gmap string Collection) :
  (is_Some (store !! collection_name self) ->
   _create_collection valid_vectors self store = Ok store)
  /\ (store !! collection_name self = None ->
      _create_collection valid_vectors self store
      = if valid_vectors (uploader_vector_size self) (distance self)
        then Ok (<[collection_name self :=
                     {| col_size := uploader_vector_size self;
                        col_distance := distance self;
                        col_indexes := ["category_id"; "image_id"] |}]> store)
        else Raise CollaboratorError)
  /\ (forall e,
        _create_collection valid_vectors self store = Raise e <->
        e = CollaboratorError
        /\ store !! collection_name self = None
        /\ valid_vectors (uploader_vector_size self) (distance self) = false)
  /\ (forall e openable,
        _create_collection valid_vectors self store = Raise e ->
        QdrantUploader_init valid_vectors openable store
          (collection_name self) (uploader_vector_size self) (distance self)
        = Raise CollaboratorError)
  /\ (forall store',
        _create_collection valid_vectors self store = Ok store' ->
        collection_exists self store' = true
        /\ _create_collection valid_vectors self store' = Ok store'
        /\ forall name, name <> collection_name self ->
                        store' !! name = store !! name).
Proof.
  split; [apply create_collection_present |].
  split; [apply create_collection_absent |].
  split.
  { intros e. split.
    - intros Hraise.
      destruct (create_collection_Raise _ _ _ _ Hraise) as [Hnone Hinvalid].
      rewrite create_collection_absent, Hinvalid in Hraise by done.
      by injection Hraise as <-.
    - intros (-> & Hnone & Hinvalid).
      by rewrite create_collection_absent, Hinvalid. }
  split.
  { intros e openable Hraise. unfold QdrantUploader_init.
    destruct openable; cbn [negb]; [| reflexivity].
    destruct self as [name size dist].
    cbn [collection_name uploader_vector_size distance].
    destruct (create_collection_Raise _ _ _ _ Hraise) as [Hnone Hinvalid].
    rewrite create_collection_absent by done.
    cbn [collection_name uploader_vector_size distance] in *.
    by rewrite Hinvalid. }
  intros store' Hcreate.
  pose proof (create_collection_exists _ _ _ _ Hcreate) as Hexists.
  split; [exact Hexists |].
  split; [by apply create_collection_present, collection_exists_spec |].
  intros name Hne.
  destruct (store !! collection_name self) as [c |] eqn:Hc.
  - rewrite create_collection_present in Hcreate by (by eexists).
    by injection Hcreate as <-.
  - rewrite create_collection_absent in Hcreate by done.
    destruct (valid_vectors _ _); [| discriminate].
    injection Hcreate as <-. by apply lookup_insert_ne.
Qed.

(** X13: the constructor of the generator returns a generator exactly when
    the package is installed and the key given or the key of the
    environment is a non-empty string; it then carries the model name and
    the vector size given, and the key of the module [jinaai] becomes the
    key given if that is non-empty, else the key of the environment.  A
    constructor that raises leaves the module as it was, and a missing
    package is reported as [ImportError] whatever the keys. *)
Theorem generator_needs_package_and_key (environ : gmap string string)
    (jinaai : Jinaai) (name : string) (size : Z) (key : option string) :
  let built := EmbeddingGenerator_init environ jinaai name size key in
  (forall generator,
      snd built = Returns generator <->
      installed jinaai = true
      /\ (truthy_str key = true
          \/ truthy_str (environ !! "JINA_API_KEY") = true)
      /\ generator = {| model_name := name; vector_size := size |})
  /\ (forall generator,
        snd built = Returns generator ->
        api_key (fst built)
        = if truthy_str key then key else environ !! "JINA_API_KEY")
  /\ (forall e, snd built = Throws e -> fst built = jinaai)
  /\ (installed jinaai = false -> snd built = Throws ImportError).
Proof.
  intros built. subst built.
  rewrite EmbeddingGenerator_init_cases, truthy_or. unfold or_.
  destruct (installed jinaai); cbn [negb].
  2: { split; [| done]. intros generator. split; [done | by intros [? _]]. }
  destruct (truthy_str key) eqn:Hkey; cbn [orb fst snd].
  - split; [| done]. intros generator. split.
    + intros [= <-]. split; [done |]. split; [by left | done].
    + by intros (_ & _ & ->).
  - destruct (truthy_str (environ !! "JINA_API_KEY")) eqn:Henv; cbn [fst snd].
    + split; [| done]. intros generator. split.
      * intros [= <-]. split; [done |]. split; [by right | done].
      * by intros (_ & _ & ->).
    + split; [| done]. intros generator.
      split; [done | by intros (_ & [? | ?] & _)].
Qed.

(** X14: [generate_embedding] returns what [generate_embeddings([image])[0]]
    returns whenever that expression does not raise.  The expression raises,
    with [IndexError], only when the service answers the request with no
    vector, and [generate_embedding] then returns the zero vector of the
    configured size, as it does when the call to the service raises. *)
Theorem generate_embedding_first_or_zero
    (jinaai_embed : nat -> list (Image RGB) -> result (list Vector))
    (self : EmbeddingGenerator) (calls : nat) (image : Image RGB) :
  match list_get (generate_embeddings jinaai_embed self calls [image]) 0 with
  | Ok vector => generate_embedding jinaai_embed self calls image = vector
  | Raise e =>
      e = IndexError
      /\ jinaai_embed calls [image] = Ok []
      /\ generate_embedding jinaai_embed self calls image
         = replicate_py (vector_size self) 0%float
  end
  /\ (forall e,
        jinaai_embed calls [image] = Raise e ->
        generate_embedding jinaai_embed self calls image
        = replicate_py (vector_size self) 0%float).
Proof.
  unfold generate_embedding, generate_embeddings, list_get.
  destruct (jinaai_embed calls [image]) as [[| v vs] | e]; cbn.
  - split; [done | intros e; discriminate].
  - split; [done | intros e; discriminate].
  - split; [reflexivity | by intros _ _].
Qed.

(** X15: [parse] on a path of the file system, for a regular file that is
    not JSON or holds [null], a boolean, a number, or a JSON object whose
    sections, where present, are lists of records or one of these scalars.
    It returns data exactly when the file holds an object whose three
    sections are lists of records, all of whose annotations name an image
    and a category of the file; the data are then these three sections.  It
    raises [ValueError] exactly when the file is not JSON, when the object
    lacks one of the three keys, and when the three sections are lists one
    of whose annotations does not resolve.  It raises [TypeError], which it
    does not convert, exactly when the file holds a scalar, and when the
    object has the three keys with a scalar for one of the sections.  An
    [OSError] escapes it exactly when the path names no regular file.  It
    raises nothing else. *)
Theorem parse_accepts_exactly (files : gmap string Node) (self : CocoParser) :
  (forall coco_data,
      parse files self = Returns coco_data <->
      (exists document,
          files !! annotations_path self = Some (RegularFile (Json document))
          /\ doc_images document = Some (Records (images coco_data))
          /\ doc_annotations document = Some (Records (annotations coco_data))
          /\ doc_categories document = Some (Records (categories coco_data)))
      /\ Forall (resolves coco_data) (annotations coco_data))
  /\ (parse files self = Throws OSError <->
      forall content,
        files !! annotations_path self <> Some (RegularFile content))
  /\ (parse files self = Throws TypeError <->
      files !! annotations_path self = Some (RegularFile JsonScalar)
      \/ exists document imgs anns cats,
           files !! annotations_path self = Some (RegularFile (Json document))
           /\ doc_images document = Some imgs
           /\ doc_annotations document = Some anns
           /\ doc_categories document = Some cats
           /\ (imgs = ScalarSection \/ anns = ScalarSection
               \/ cats = ScalarSection))
  /\ (parse files self = Throws (Exn ValueError) <->
      files !! annotations_path self = Some (RegularFile NotJson)
      \/ exists document,
           files !! annotations_path self = Some (RegularFile (Json document))
           /\ (doc_images document = None
               \/ doc_annotations document = None
               \/ doc_categories document = None
               \/ exists coco_data,
                    doc_images document = Some (Records (images coco_data))
                    /\ doc_annotations document
                       = Some (Records (annotations coco_data))
                    /\ doc_categories document
                       = Some (Records (categories coco_data))
                    /\ ~ Forall (resolves coco_data) (annotations coco_data)))
  /\ (forall e,
        parse files self = Throws e ->
        e = OSError \/ e = TypeError \/ e = Exn ValueError).
Proof.
  split; [intros coco_data; apply parse_Returns |].
  unfold parse, open_.
  destruct (files !! annotations_path self)
    as [[[| | document] | entries] |] eqn:Hfile;
    cbn [mbind outcome_bind].
  - split; [split; [discriminate | intros H; by destruct (H NotJson)] |].
    split; [split; [discriminate
                   | intros [[=] | (? & ? & ? & ? & [=] & _)]] |].
    split; [split; [by left | done] |].
    intros e [= <-]. tauto.
  - split; [split; [discriminate | intros H; by destruct (H JsonScalar)] |].
    split; [split; [by left | done] |].
    split; [split; [discriminate | intros [[=] | (? & [=] & _)]] |].
    intros e [= <-]. tauto.
  - destruct document as [[[imgs |] |] [[anns |] |] [[cats |] |]];
      cbn [doc_images doc_annotations doc_categories];
      try settle_document.
    destruct (parse_validate_spec
                {| images := imgs; annotations := anns; categories := cats |})
      as [[Hall ->] | [Hnot ->]]; cbn [lift].
    + split; [split; [discriminate | intros H; exfalso; by eapply H] |].
      split.
      { split; [discriminate |].
        intros [[=] | (? & ? & ? & ? & [= <-] & ? & ? & ? & ?)].
        cbn in *. intuition congruence. }
      split; [| intros e [=]].
      split; [discriminate |].
      intros [[=] | (document & [= <-] & [[=] | [[=] | [[=] | Hex]]])].
      destruct Hex as ([i a c] & [= <-] & [= <-] & [= <-] & Hnot). done.
    + split; [split; [discriminate | intros H; exfalso; by eapply H] |].
      split.
      { split; [discriminate |].
        intros [[=] | (? & ? & ? & ? & [= <-] & ? & ? & ? & ?)].
        cbn in *. intuition congruence. }
      split; [| intros e [= <-]; auto].
      split; [| done]. intros _. right.
      eexists. split; [reflexivity |]. do 3 right.
      by exists {| images := imgs; annotations := anns; categories := cats |}.
  - split; [done |].
    split; [split; [discriminate
                   | intros [[=] | (? & ? & ? & ? & [=] & _)]] |].
    split; [split; [discriminate | intros [[=] | (? & [=] & _)]] |].
    intros e [= <-]. tauto.
  - split; [done |].
    split; [split; [discriminate
                   | intros [[=] | (? & ? & ? & ? & [=] & _)]] |].
    split; [split; [discriminate | intros [[=] | (? & [=] & _)]] |].
    intros e [= <-]. tauto.
Qed.

(** X16: on a file [parse] accepts, [get_image_annotations] returns the
    list of the annotations of the file with the image id asked for, and
    [get_category_annotations] the list of those with the category id asked
    for: each annotation as often as the file has it, in the order of the
    file.  For an id that no image, or no category, of the file has, the
    list is empty.  On a file [parse] does not accept, both raise what
    [parse] raises. *)
Theorem queries_filter_the_accepted_file (files : gmap string Node)
    (self : CocoParser) (k : Z) :
  (forall coco_data,
      parse files self = Returns coco_data ->
      get_image_annotations files self k
      = Returns (filter (fun ann => ann_image_id ann = k)
                        (annotations coco_data))
      /\ get_category_annotations files self k
         = Returns (filter (fun ann => ann_category_id ann = k)
                           (annotations coco_data))
      /\ (k ∉ map img_id (images coco_data) ->
          get_image_annotations files self k = Returns [])
      /\ (k ∉ map cat_id (categories coco_data) ->
          get_category_annotations files self k = Returns []))
  /\ (forall e,
        parse files self = Throws e ->
        get_image_annotations files self k = Throws e
        /\ get_category_annotations files self k = Throws e).
Proof.
  unfold get_image_annotations, get_category_annotations. split.
  - intros coco_data Hparse. rewrite Hparse. cbn [mbind outcome_bind].
    apply parse_Returns in Hparse as [_ Hres]. rewrite Forall_forall in Hres.
    split; [reflexivity |]. split; [reflexivity |].
    split; intros Hk; f_equal; apply filter_none; intros ann Hann Hid;
      destruct (Hres ann Hann) as [Himg Hcat]; apply Hk; by rewrite <- Hid.
  - intros e ->. by split.
Qed.

(** X17: on a file [parse] accepts, [get_category_name] returns, for the
    category id of every annotation of the file, the name of the category
    record the batch loop resolves for it, the name stored as
    [category_name]; for an id that no category of the file has it raises
    [ValueError], where the scan of the batch loop raises
    [StopIteration]. *)
Theorem category_name_matches_batch_loop (files : gmap string Node)
    (self : CocoParser) (coco_data : CocoData) :
  parse files self = Returns coco_data ->
  (forall ann,
      ann ∈ annotations coco_data ->
      exists category,
        next_category (categories coco_data) (ann_category_id ann)
        = Ok category
        /\ get_category_name files self (ann_category_id ann)
           = Returns (cat_name category))
  /\ (forall k,
        k ∉ map cat_id (categories coco_data) ->
        get_category_name files self k = Throws (Exn ValueError)
        /\ next_category (categories coco_data) k = Raise StopIteration).
Proof.
  intros Hparse. unfold get_category_name. rewrite Hparse.
  cbn [mbind outcome_bind].
  apply parse_Returns in Hparse as [_ Hres]. rewrite Forall_forall in Hres.
  split.
  - intros ann Hann. destruct (Hres ann Hann) as [_ Hcat].
    rewrite category_name_of_next.
    destruct (next_category (categories coco_data) (ann_category_id ann))
      as [category | e] eqn:Hnext;
      [by exists category |].
    apply next_category_Raise in Hnext as (_ & ? & _). done.
  - intros k Hk. rewrite category_name_of_next.
    by rewrite next_category_miss.
Qed.

Lemma category_name_matches_batch_loop_witness :
  parse test_files {| annotations_path := "annotations.json" |}
  = Returns sample_coco
  /\ (forall ann,
         ann ∈ annotations sample_coco ->
         exists category,
           next_category (categories sample_coco) (ann_category_id ann)
           = Ok category
           /\ get_category_name test_files
                {| annotations_path := "annotations.json" |}
                (ann_category_id ann)
              = Returns (cat_name category))
  /\ (forall k,
         k ∉ map cat_id (categories sample_coco) ->
         get_category_name test_files
           {| annotations_path := "annotations.json" |} k
         = Throws (Exn ValueError)
         /\ next_category (categories sample_coco) k = Raise StopIteration).
Proof.
  split; [apply test_files_parse |].
  apply (category_name_matches_batch_loop test_files
           {| annotations_path := "annotations.json" |} sample_coco).
  apply test_files_parse.
Defined.

(** X18: for a key of at least twelve characters, [check_api_key] returns
    [True] and the text it prints for the key has the length of the key,
    shows its first eight and its last four characters, and has an asterisk
    at every position between them. *)
Theorem long_key_is_masked (environ : gmap string string) (key : string) :
  let chars := String.list_ascii_of_string key in
  environ !! "JINA_API_KEY" = Some key ->
  (12 <= length chars)%nat ->
  exists text,
    check_api_key environ = (true, Some text)
    /\ length text = length chars
    /\ take 8 text = take 8 chars
    /\ drop (length chars - 4) text = drop (length chars - 4) chars
    /\ forall i, (8 <= i < length chars - 4)%nat ->
                 text !! i = Some "*"%char.
Proof.
  intros chars Henv Hlen. unfold check_api_key. rewrite Henv.
  assert (truthy_str (Some key) = true) as ->
    by (destruct key; [simpl in Hlen; lia | reflexivity]).
  cbn [fmap option_fmap option_map]. fold chars.
  exists (masked_key chars). split; [reflexivity |].
  rewrite masked_key_long by done.
  assert (length (take 8 chars) = 8%nat) as Htake
    by (rewrite length_take; lia).
  split; [rewrite !length_app, Htake, length_replicate, length_drop; lia |].
  split; [by rewrite take_app_length' |].
  split.
  - rewrite app_assoc. apply drop_app_length'.
    rewrite length_app, Htake, length_replicate. lia.
  - intros i Hi. rewrite lookup_app_r by lia. rewrite Htake.
    rewrite lookup_app_l by (rewrite length_replicate; lia).
    apply lookup_replicate_2. lia.
Qed.

Lemma long_key_is_masked_witness :
  (<["JINA_API_KEY" := "jina_0123456789abcdef"]> ∅ : gmap string string)
    !! "JINA_API_KEY" = Some "jina_0123456789abcdef"
  /\ (12 <= length (String.list_ascii_of_string "jina_0123456789abcdef"))%nat
  /\ exists text,
       check_api_key (<["JINA_API_KEY" := "jina_0123456789abcdef"]> ∅)
       = (true, Some text)
       /\ length text
          = length (String.list_ascii_of_string "jina_0123456789abcdef")
       /\ take 8 text
          = take 8 (String.list_ascii_of_string "jina_0123456789abcdef")
       /\ drop (length (String.list_ascii_of_string "jina_0123456789abcdef")
                - 4) text
          = drop (length (String.list_ascii_of_string "jina_0123456789abcdef")
                  - 4)
                 (String.list_ascii_of_string "jina_0123456789abcdef")
       /\ forall i,
            (8 <= i < length (String.list_ascii_of_string
                                "jina_0123456789abcdef") - 4)%nat ->
            text !! i = Some "*"%char.
Proof.
  split; [reflexivity |]. split; [simpl; lia |].
  apply (long_key_is_masked (<["JINA_API_KEY" := "jina_0123456789abcdef"]> ∅)
           "jina_0123456789abcdef").
  - reflexivity.
  - simpl. lia.
Defined.

(** X19: for a non-empty key of at most twelve characters, the text
    [check_api_key] prints for the key masks nothing: it is the first eight
    characters of the key followed by its last four, and the whole key can
    be read in it, character by character in order. *)
Theorem short_key_is_printed_in_full (environ : gmap string string)
    (key : string) :
  let chars := String.list_ascii_of_string key in
  environ !! "JINA_API_KEY" = Some key ->
  (0 < length chars <= 12)%nat ->
  exists text,
    check_api_key environ = (true, Some text)
    /\ text = take 8 chars ++ drop (length chars - 4) chars
    /\ chars `sublist_of` text.
Proof.
  intros chars Henv Hlen. unfold check_api_key. rewrite Henv.
  assert (truthy_str (Some key) = true) as ->
    by (destruct key; [simpl in Hlen; lia | reflexivity]).
  cbn [fmap option_fmap option_map]. fold chars.
  exists (masked_key chars). split; [reflexivity |].
  rewrite masked_key_short by lia. split; [reflexivity |].
  rewrite <- (take_drop 8 chars) at 1.
  apply sublist_app; [reflexivity |].
  replace 8%nat with (length chars - 4 + (8 - (length chars - 4)))%nat
    at 1 by lia.
  rewrite <- drop_drop. apply sublist_drop.
Qed.

Lemma short_key_is_printed_in_full_witness :
  (<["JINA_API_KEY" := "secret-key"]> ∅ : gmap string string)
    !! "JINA_API_KEY" = Some "secret-key"
  /\ (0 < length (String.list_ascii_of_string "secret-key") <= 12)%nat
  /\ exists text,
       check_api_key (<["JINA_API_KEY" := "secret-key"]> ∅)
       = (true, Some text)
       /\ text
          = take 8 (String.list_ascii_of_string "secret-key")
            ++ drop (length (String.list_ascii_of_string "secret-key") - 4)
                    (String.list_ascii_of_string "secret-key")
       /\ String.list_ascii_of_string "secret-key" `sublist_of` text.
Proof.
  split; [reflexivity |]. split; [simpl; lia |].
  apply (short_key_is_printed_in_full (<["JINA_API_KEY" := "secret-key"]> ∅)
           "secret-key").
  - reflexivity.
  - simpl. lia.
Defined.



(** X21: the embedding check of [test_pipeline] cannot tell a failing
    embedding service from a working one: for the generator of 768
    dimensions it builds, when the call to the service raises, the check
    passes, on the single zero vector of the fallback. *)
Theorem embedding_check_passes_on_a_failing_service
    (jinaai_embed : nat -> list (Image RGB) -> result (list Vector))
    (generator : EmbeddingGenerator) (calls : nat) (cropped : Image RGB)
    (e : exn) :
  vector_size generator = 768 ->
  jinaai_embed calls [cropped] = Raise e ->
  embedding_step jinaai_embed generator calls cropped
  = Some [replicate_py 768 0%float].
Proof.
  intros Hsize Hraise. unfold embedding_step, generate_embeddings.
  rewrite Hraise, Hsize. vm_compute. reflexivity.
Qed.

Lemma embedding_check_passes_on_a_failing_service_witness :
  vector_size {| model_name := "jina-embeddings-v2-base-en";
                 vector_size := 768 |} = 768
  /\ failing_embed 0 [image_100] = Raise CollaboratorError
  /\ embedding_step failing_embed
       {| model_name := "jina-embeddings-v2-base-en"; vector_size := 768 |}
       0 image_100
     = Some [replicate_py 768 0%float].
Proof.
  split; [reflexivity |]. split; [reflexivity |].
  apply (embedding_check_passes_on_a_failing_service failing_embed
           {| model_name := "jina-embeddings-v2-base-en";
              vector_size := 768 |} 0 image_100 CollaboratorError);
    reflexivity.
Defined.

(** X22: a region that [crop_object] returns for an image of at least one
    pixel is never empty and never larger than the image: its width and its
    height are at least 1 and at most those of the image, whichever path
    produced it. *)
Theorem region_fits_its_source
    (polygon_fill : list (Q * Q) -> Z -> Z -> bool) (self : ImageProcessor)
    (image_filename : string) (image region : Image RGB)
    (bbox : option (list Q)) (segmentation : option (list (list Q))) :
  load_image self image_filename = Some image ->
  1 <= width image -> 1 <= height image ->
  crop_object polygon_fill self image_filename bbox segmentation
  = Ok (Some region) ->
  1 <= width region <= width image /\ 1 <= height region <= height image.
Proof.
  intros Hload HW HH. unfold crop_object. rewrite Hload.
  destruct (_ && _ && _).
  - destruct (_crop_by_segmentation polygon_fill image
                (default [] segmentation)) as [r | e] eqn:Hcrop;
      [| discriminate].
    intros [= <-]. by apply (crop_by_segmentation_size polygon_fill image r
                               (default [] segmentation)).
  - destruct (truthy bbox && _); [| discriminate].
    destruct (_crop_by_bbox image (default [] bbox)) as [r | e] eqn:Hcrop;
      [| discriminate].
    intros [= <-]. by apply (crop_by_bbox_size image r (default [] bbox)).
Qed.

Lemma region_fits_its_source_witness :
  load_image (test_processor false) "image_100.png" = Some image_100
  /\ 1 <= width image_100 /\ 1 <= height image_100
  /\ exists region,
       crop_object even_odd_fill (test_processor false) "image_100.png"
         (Some [num 95; num 95; num 50; num 50]) None
       = Ok (Some region)
       /\ 1 <= width region <= width image_100
       /\ 1 <= height region <= height image_100.
Proof.
  split; [reflexivity |]. split; [simpl; lia |]. split; [simpl; lia |].
  destruct (crop_object even_odd_fill (test_processor false) "image_100.png"
              (Some [num 95; num 95; num 50; num 50]) None)
    as [[region |] | e] eqn:Hcrop; try (vm_compute in Hcrop; discriminate).
  exists region. split; [reflexivity |].
  apply (region_fits_its_source even_odd_fill (test_processor false)
           "image_100.png" image_100 region
           (Some [num 95; num 95; num 50; num 50]) None);
    [reflexivity | simpl; lia | simpl; lia | exact Hcrop].
Defined.

(** X23: the mask [_crop_by_segmentation] draws is the union of its
    polygons: a pixel of the canvas is set, to 255, exactly when the fill of
    some polygon with at least three points covers it, and is 0 otherwise.
    A later polygon never clears what an earlier one set, and the order of
    the polygons does not matter. *)
Theorem segmentation_mask_is_the_union
    (polygon_fill : list (Q * Q) -> Z -> Z -> bool) (image : Image RGB)
    (segmentation : list (list Q)) (x y : Z) :
  pixels (segmentation_mask polygon_fill image segmentation) x y
  = (if inside image x y
        && existsb (fun polygon =>
                      (3 <=? len (points_of polygon))
                      && polygon_fill (points_of polygon) x y)
                   segmentation
     then 255
     else 0)
  /\ forall reordered,
       segmentation ≡ₚ reordered ->
       pixels (segmentation_mask polygon_fill image reordered) x y
       = pixels (segmentation_mask polygon_fill image segmentation) x y.
Proof.
  unfold segmentation_mask. split; [apply draw_segmentation_pixels |].
  intros reordered Hperm. rewrite !draw_segmentation_pixels.
  by rewrite (existsb_Permutation _ _ _ Hperm).
Qed.

(** * Scenarios of the test suite *)

(** On a 100 x 100 image with segmentation disabled, the box
    [[10, 10, 50, 50]] yields the 50 x 50 region at offset (10, 10), and the
    box [[95, 95, 50, 50]] the 5 x 5 region at offset (95, 95). *)
Example bbox_scenarios :
  region_size (crop_object even_odd_fill (test_processor false)
                 "image_100.png" (Some [num 10; num 10; num 50; num 50]) None)
  = Ok (Some (50, 50))
  /\ fmap (M := result) (fun region => pixels region 0 0)
       (_crop_by_bbox image_100 [num 10; num 10; num 50; num 50])
     = Ok (10, 10, 0)
  /\ region_size (crop_object even_odd_fill (test_processor false)
                    "image_100.png" (Some [num 95; num 95; num 50; num 50])
                    None)
     = Ok (Some (5, 5))
  /\ fmap (M := result) (fun region => pixels region 0 0)
       (_crop_by_bbox image_100 [num 95; num 95; num 50; num 50])
     = Ok (95, 95, 0).
Proof. repeat split; vm_compute; reflexivity. Qed.

(** In a batch of three annotations whose second one names an image file
    that cannot be loaded, the run ends with exit code 0 after one embedding
    request and one upsert of exactly two records, those of the first and the
    third annotation. *)
Example batch_with_unavailable_source :
  load_image (test_processor false) (img_file_name image_2) = None
  /\ fst (main even_odd_fill size_embed (test_processor false) test_generator
            sample_coco 32) = 0
  /\ embed_calls (snd (main even_odd_fill size_embed (test_processor false)
                         test_generator sample_coco 32)) = 1%nat
  /\ map (map u_id)
         (upserts (snd (main even_odd_fill size_embed (test_processor false)
                          test_generator sample_coco 32)))
     = [[11; 13]].
Proof. repeat split; vm_compute; reflexivity. Qed.
